(** * cloudbase-init: network metadata normalisation and static configuration

    A shallow embedding of

    - [cloudbaseinit/metadata/services/basenetworkservice.py]
      ([NetworkDetails], [NetworkDetailsBuilder]),
    - [cloudbaseinit/metadata/services/httpservice.py]
      ([_NetworkDetailsBuilder], [HttpService]),
    - [cloudbaseinit/plugins/common/networkconfig.py]
      ([NetworkConfigPlugin]),

    together with the properties of these modules that the specification
    states.  Python values are embedded as an inductive type, dictionaries as
    insertion-ordered association lists, exceptions and mutation as a state
    and error monad.  Where Python 2 and Python 3 differ the embedding
    follows Python 3: a dictionary keeps the order of insertion and
    [keys()] is a view of the dictionary.  Raw records are dictionaries with
    string keys, as a JSON object decodes; what the builder keeps in its
    buffers and what a [NetworkDetails] object holds is any value.  Calls of
    [LOG] are kept in the plugin, whose properties speak of them, and left
    out of the builders. *)

From Stdlib Require Import ZArith List String Ascii Bool Lia.
From Stdlib Require DecimalString HexadecimalString.
Import ListNotations.

Local Open Scope string_scope.
Local Open Scope list_scope.
#[local] Set Warnings "-register-all".

(* ================================================================= *)
(** ** Exceptions, results and the state-and-error monad *)

(** The exception classes the three modules raise or can meet.
    [OtherError] stands for any exception class that is not one of the
    named ones (for instance what an OS primitive raises). *)
Inductive exn : Type :=
| NetworkDetailsError
| CloudbaseInitException
| TypeError
| KeyError
| AttributeError
| ValueError
| OtherError (what : string).

Inductive res (A : Type) : Type :=
| Ok (a : A)
| Raise (e : exn).
Arguments Ok {A} a.
Arguments Raise {A} e.

Definition is_ok {A} (r : res A) : bool :=
  match r with Ok _ => true | Raise _ => false end.

Definition is_NetworkDetailsError (e : exn) : bool :=
  match e with NetworkDetailsError => true | _ => false end.

Definition is_TypeError (e : exn) : bool :=
  match e with TypeError => true | _ => false end.

(** A computation over a mutable state [S] that returns or raises; what was
    written to the state before an exception stays written. *)
Definition M (S A : Type) : Type := S -> res A * S.

Definition ret {S A} (a : A) : M S A := fun s => (Ok a, s).
Definition raise {S A} (e : exn) : M S A := fun s => (Raise e, s).
Definition lift {S A} (r : res A) : M S A := fun s => (r, s).

Definition bind {S A B} (c : M S A) (k : A -> M S B) : M S B :=
  fun s =>
    match c s with
    | (Ok a, s') => k a s'
    | (Raise e, s') => (Raise e, s')
    end.

Definition gets {S A} (f : S -> A) : M S A := fun s => (Ok (f s), s).
Definition modify {S} (f : S -> S) : M S unit := fun s => (Ok tt, f s).

(** [try: c except catches: h] *)
Definition try_except {S A} (c : M S A) (catches : exn -> bool)
    (h : exn -> M S A) : M S A :=
  fun s =>
    match c s with
    | (Ok a, s') => (Ok a, s')
    | (Raise e, s') => if catches e then h e s' else (Raise e, s')
    end.

(** Running a computation over a part [T] of the state [S]. *)
Definition zoom {S T A} (proj : S -> T) (upd : T -> S -> S) (c : M T A)
    : M S A :=
  fun s => let (r, t') := c (proj s) in (r, upd t' s).

Declare Scope py_scope.
Delimit Scope py_scope with py.
Notation "x <- c ;; k" := (bind c (fun x => k))
  (at level 100, c at next level, right associativity) : py_scope.
Notation "c ;;; k" := (bind c (fun _ => k))
  (at level 100, right associativity) : py_scope.

(* ================================================================= *)
(** ** Python values *)

(** Hashable values, as dictionary keys.  [True] and [1] are the same key,
    so booleans are stored as integers. *)
Inductive key : Type :=
| KNone
| KInt (z : Z)
| KStr (s : string)
| KTuple (ks : list key).

Fixpoint key_eqb (a b : key) {struct a} : bool :=
  match a, b with
  | KNone, KNone => true
  | KInt x, KInt y => Z.eqb x y
  | KStr x, KStr y => String.eqb x y
  | KTuple xs, KTuple ys =>
      (fix go (xs ys : list key) {struct xs} : bool :=
         match xs, ys with
         | [], [] => true
         | x :: xs', y :: ys' => key_eqb x y && go xs' ys'
         | _, _ => false
         end) xs ys
  | _, _ => false
  end.

(** An insertion-ordered dictionary (Python 3.7 and later): assigning to a
    key that is present keeps its position. *)
Definition dict (V : Type) : Type := list (key * V).

Section Dict.
Context {V : Type}.

Fixpoint dict_get (k : key) (d : dict V) : option V :=
  match d with
  | [] => None
  | (k', v) :: d' => if key_eqb k k' then Some v else dict_get k d'
  end.

Definition dict_mem (k : key) (d : dict V) : bool :=
  match dict_get k d with Some _ => true | None => false end.

Fixpoint dict_set (k : key) (v : V) (d : dict V) : dict V :=
  match d with
  | [] => [(k, v)]
  | (k', v') :: d' =>
      if key_eqb k k' then (k', v) :: d' else (k', v') :: dict_set k v d'
  end.

Fixpoint dict_remove (k : key) (d : dict V) : dict V :=
  match d with
  | [] => []
  | (k', v') :: d' =>
      if key_eqb k k' then d' else (k', v') :: dict_remove k d'
  end.

Definition dict_keys (d : dict V) : list key := map fst d.

(** [d.update(e)] *)
Definition dict_update (d e : dict V) : dict V :=
  fold_left (fun acc kv => dict_set (fst kv) (snd kv) acc) e d.
End Dict.

(** The values of the metadata documents (what [json.loads] gives, numbers
    being integers) and tuples. *)
Inductive pyval : Type :=
| PNone
| PBool (b : bool)
| PInt (z : Z)
| PStr (s : string)
| PList (l : list pyval)
| PTuple (l : list pyval)
| PDict (d : list (key * pyval)).

(** [hash(v)]: [None] for the unhashable values (lists, dictionaries and
    the tuples that hold one). *)
Fixpoint key_of (v : pyval) : option key :=
  match v with
  | PNone => Some KNone
  | PBool b => Some (KInt (Z.b2z b))
  | PInt z => Some (KInt z)
  | PStr s => Some (KStr s)
  | PTuple l =>
      option_map KTuple
        ((fix go (l : list pyval) : option (list key) :=
            match l with
            | [] => Some []
            | x :: l' =>
                match key_of x, go l' with
                | Some k, Some ks => Some (k :: ks)
                | _, _ => None
                end
            end) l)
  | PList _ | PDict _ => None
  end.

Fixpoint val_of_key (k : key) : pyval :=
  match k with
  | KNone => PNone
  | KInt z => PInt z
  | KStr s => PStr s
  | KTuple ks => PTuple (map val_of_key ks)
  end.

(** [a == b] *)
Fixpoint py_eq (a b : pyval) {struct a} : bool :=
  match a, b with
  | PNone, PNone => true
  | PBool x, PBool y => Bool.eqb x y
  | PBool x, PInt y => Z.eqb (Z.b2z x) y
  | PInt x, PBool y => Z.eqb x (Z.b2z y)
  | PInt x, PInt y => Z.eqb x y
  | PStr x, PStr y => String.eqb x y
  | PList xs, PList ys | PTuple xs, PTuple ys =>
      (fix go (xs ys : list pyval) {struct xs} : bool :=
         match xs, ys with
         | [], [] => true
         | x :: xs', y :: ys' => py_eq x y && go xs' ys'
         | _, _ => false
         end) xs ys
  | PDict xs, PDict ys =>
      Nat.eqb (List.length xs) (List.length ys) &&
      (fix go (xs : list (key * pyval)) {struct xs} : bool :=
         match xs with
         | [] => true
         | (k, x) :: xs' =>
             match dict_get k ys with
             | Some y => py_eq x y && go xs'
             | None => false
             end
         end) xs
  | _, _ => false
  end.

(** [bool(v)] *)
Definition truthy (v : pyval) : bool :=
  match v with
  | PNone => false
  | PBool b => b
  | PInt z => negb (Z.eqb z 0)
  | PStr s => negb (String.eqb s "")
  | PList l | PTuple l => match l with [] => false | _ => true end
  | PDict d => match d with [] => false | _ => true end
  end.

(** [iter(v)], run to the end. *)
Definition py_iter (v : pyval) : res (list pyval) :=
  match v with
  | PList l | PTuple l => Ok l
  | PDict d => Ok (map val_of_key (dict_keys d))
  | PStr s => Ok (map (fun c => PStr (String c EmptyString))
                      (list_ascii_of_string s))
  | PNone | PBool _ | PInt _ => Raise TypeError
  end.

(** [v[name]] for a string [name]: only a dictionary can be indexed by a
    string. *)
Definition py_getitem (v : pyval) (name : string) : res pyval :=
  match v with
  | PDict d =>
      match dict_get (KStr name) d with
      | Some x => Ok x
      | None => Raise KeyError
      end
  | _ => Raise TypeError
  end.

(** [d[k] = v] on a dictionary *)
Definition dict_setitem {V} (k : pyval) (v : V) (d : dict V) : res (dict V) :=
  match key_of k with
  | Some k' => Ok (dict_set k' v d)
  | None => Raise TypeError
  end.

(** [d.get(k)] *)
Definition dict_lookup {V} (k : pyval) (d : dict V) : res (option V) :=
  match key_of k with
  | Some k' => Ok (dict_get k' d)
  | None => Raise TypeError
  end.

(** [v.get(name, default)]: a method of dictionaries only. *)
Definition py_get (v : pyval) (name : string) (default : pyval) : res pyval :=
  match v with
  | PDict d =>
      match dict_get (KStr name) d with
      | Some x => Ok x
      | None => Ok default
      end
  | _ => Raise AttributeError
  end.

(** [v[k] = x]: a dictionary takes a hashable key; a list would take an
    index within its bounds, written here for integers only. *)
Definition replace_nth {A} (i : nat) (x : A) (l : list A) : list A :=
  firstn i l ++ match skipn i l with [] => [] | _ :: r => x :: r end.

Definition py_setitem (v k x : pyval) : res pyval :=
  match v with
  | PDict d =>
      match key_of k with
      | Some k' => Ok (PDict (dict_set k' x d))
      | None => Raise TypeError
      end
  | PList l =>
      match k with
      | PInt i =>
          let n := Z.of_nat (List.length l) in
          let j := if (i <? 0)%Z then (i + n)%Z else i in
          if ((0 <=? j) && (j <? n))%Z
          then Ok (PList (replace_nth (Z.to_nat j) x l))
          else Raise (OtherError "IndexError")
      | _ => Raise TypeError
      end
  | _ => Raise TypeError
  end.

(** Unpacking [v] as keyword arguments: [v] has to be a mapping whose
    keys are strings. *)
Fixpoint string_keys (d : dict pyval) : option (list (string * pyval)) :=
  match d with
  | [] => Some []
  | (KStr s, x) :: d' =>
      match string_keys d' with
      | Some kw => Some ((s, x) :: kw)
      | None => None
      end
  | _ :: _ => None
  end.

Definition kwargs (v : pyval) : res (list (string * pyval)) :=
  match v with
  | PDict d =>
      match string_keys d with
      | Some kw => Ok kw
      | None => Raise TypeError
      end
  | _ => Raise TypeError
  end.

(** *** [collections.namedtuple] *)

Record namedtuple : Type := {
  nt_typename : string;
  nt_items : list (string * pyval)   (* field name and value, in field order *)
}.

Fixpoint assoc (name : string) (kw : list (string * pyval)) : option pyval :=
  match kw with
  | [] => None
  | (n, x) :: kw' => if String.eqb name n then Some x else assoc name kw'
  end.

Definition mem_string (s : string) (l : list string) : bool :=
  existsb (String.eqb s) l.

(** Calling a named tuple type (one without defaults) with the keyword
    arguments [kw]: every field must be given and nothing else. *)
Definition namedtuple_new (typename : string) (fields : list string)
    (kw : list (string * pyval)) : res namedtuple :=
  if forallb (fun n => mem_string n fields) (map fst kw)
     && forallb (fun f => mem_string f (map fst kw)) fields
  then Ok {| nt_typename := typename;
             nt_items := map (fun f => (f, match assoc f kw with
                                           | Some x => x
                                           | None => PNone
                                           end)) fields |}
  else Raise TypeError.

(** What a [NetworkDetails] mapping can hold: a named tuple ([Link] or
    [Network]) or a list of ids. *)
Inductive obj : Type :=
| Tuple_ (t : namedtuple)
| List_ (l : list pyval).

(** [o.name], where [None] stands for Python's [None]. *)
Definition getattr (o : option obj) (name : string) : res pyval :=
  match o with
  | Some (Tuple_ t) =>
      match assoc name (nt_items t) with
      | Some x => Ok x
      | None => Raise AttributeError
      end
  | Some (List_ _) | None => Raise AttributeError
  end.

(** [iter(o)] *)
Definition iter_obj (o : option obj) : res (list pyval) :=
  match o with
  | Some (Tuple_ t) => Ok (map snd (nt_items t))
  | Some (List_ l) => Ok l
  | None => Raise TypeError
  end.

(* ================================================================= *)
(** ** What the modules use of their environment *)

(** The four attributes of an [ipaddress] interface object that
    [_digest_interface] reads, after [str()] and [int()]. *)
Record IPInterface : Type := {
  if_broadcast_address : string;   (* [str(i.network.broadcast_address)] *)
  if_netmask : string;             (* [str(i.netmask)] *)
  if_ip : string;                  (* [str(i.ip)] *)
  if_version : Z                   (* [int(i.version)] *)
}.

(** The library calls of [basenetworkservice]: [uuid.uuid1], [repr] of a
    container value and [ipaddress.ip_interface]. *)
Class Runtime : Type := {
  world : Type;
  uuid1 : world -> string * world;        (* [str(uuid.uuid1())] *)
  repr_container : pyval -> string;
  ip_interface : pyval -> res IPInterface
}.

(** [str(v)], as ["%s" % v] gives it. *)
Definition py_str `{Runtime} (v : pyval) : string :=
  match v with
  | PNone => "None"
  | PBool true => "True"
  | PBool false => "False"
  | PInt z => DecimalString.NilZero.string_of_int (Z.to_int z)
  | PStr s => s
  | PList _ | PTuple _ | PDict _ => repr_container v
  end.

(* ================================================================= *)
(** ** [cloudbaseinit/metadata/services/basenetworkservice.py] *)

Module basenetworkservice.

(** Network types *)
Definition IPV4 : Z := 4.
Definition IPV6 : Z := 6.

(** Different types of interfaces *)
Definition PHY := "phy".
Definition BOND := "bond".
Definition VIF := "vif".

(** Field names related to network configuration *)
Definition ASSIGNED_TO := "assigned_to".
Definition BOND_LINKS := "bond_links".
Definition BOND_MODE := "bond_mode".
Definition BROADCAST := "broadcast".
Definition DNS := "dns_nameservers".
Definition GATEWAY := "gateway".
Definition ID := "id".
Definition IP_ADDRESS := "ip_address".
Definition NAME := "name".
Definition MAC_ADDRESS := "mac_address".
Definition MTU := "mtu".
Definition NETMASK := "netmask".
Definition TYPE := "type".
Definition VERSION := "version".
Definition VLAN_ID := "vlan_id".
Definition VLAN_LINK := "vlan_link".

(** *** class [NetworkDetails] *)
Module NetworkDetails.

Record t : Type := {
  _assigned_to : dict obj;
  _links : dict obj;
  _networks : dict obj
}.

Definition __init__ (raw_links raw_networks raw_references : dict obj) : t :=
  {| _assigned_to := raw_links;
     _links := raw_networks;
     _networks := raw_references |}.

(** Return all the available information related to the received link. *)
Definition get_link (self : t) (link_id : pyval) : res (option obj) :=
  dict_lookup link_id (_links self).

(** Return a list with the ids of the available links. *)
Definition get_links (self : t) : list pyval :=
  map val_of_key (dict_keys (_links self)).

(** Return all the information related to the received network. *)
Definition get_network (self : t) (network_id : pyval) : res (option obj) :=
  dict_lookup network_id (_networks self).

(** Returns all the network ids assigned to the required link. *)
Definition get_networks (self : t) (link_id : pyval) : res (option obj) :=
  dict_lookup link_id (_assigned_to self).

End NetworkDetails.

(** The fields of the named tuples [_Link] and [_Network]. *)
Definition Link_fields : list string :=
  [ID; NAME; TYPE; MAC_ADDRESS; MTU; BOND_LINKS; BOND_MODE; VLAN_ID;
   VLAN_LINK].

Definition Network_fields : list string :=
  [ID; IP_ADDRESS; VERSION; NETMASK; GATEWAY; BROADCAST; DNS; ASSIGNED_TO].

Definition _Link (raw : pyval) : res namedtuple :=
  match kwargs raw with
  | Ok kw => namedtuple_new "Link" Link_fields kw
  | Raise e => Raise e
  end.

Definition _Network (raw : pyval) : res namedtuple :=
  match kwargs raw with
  | Ok kw => namedtuple_new "Network" Network_fields kw
  | Raise e => Raise e
  end.

(** The attribute [t.name] of a named tuple [t]. *)
Definition field (t : namedtuple) (name : string) : pyval :=
  match assoc name (nt_items t) with
  | Some x => x
  | None => PNone
  end.

Section Builder.
Context `{RT : Runtime}.

(** *** class [_Field] *)

(** [alias]: a string, a list or tuple of strings, or anything else
    (the default [None]), which adds no name. *)
Inductive alias_t : Type :=
| AliasOther
| AliasStr (a : string)
| AliasSeq (l : list string).

(** [default]: a value, or a producer without argument. *)
Inductive default_t : Type :=
| Value (v : pyval)
| Producer (f : world -> pyval * world).

(** [on_error(raw_data, data)] answers whether the record can go on and
    may have written to [data]. *)
Definition on_error_t : Type :=
  dict pyval -> dict pyval -> world -> (bool * dict pyval) * world.

Record _Field : Type := {
  name : string;
  alias : alias_t;
  default : default_t;
  required : bool;
  on_error : option on_error_t
}.

(** [_Field.__new__(cls, name, alias=None, default=None, required=False,
    on_error=None)] *)
Definition Field_new (name : string) : _Field :=
  {| name := name; alias := AliasOther; default := Value PNone;
     required := false; on_error := None |}.

(** *** class [NetworkDetailsBuilder]

    [X] is what a concrete builder adds to the object. *)
Record NetworkDetailsBuilder (X : Type) : Type := {
  _world : world;
  _networks : pyval;
  _links : pyval;
  _network_adapters : list (string * string);
  _link : list (string * _Field);
  _network : list (string * _Field);
  _ext : X
}.
Arguments _world {X}. Arguments _networks {X}. Arguments _links {X}.
Arguments _network_adapters {X}. Arguments _link {X}.
Arguments _network {X}. Arguments _ext {X}.

Definition set_world {X} (w : world) (b : NetworkDetailsBuilder X) :=
  {| _world := w; _networks := _networks b; _links := _links b;
     _network_adapters := _network_adapters b; _link := _link b;
     _network := _network b; _ext := _ext b |}.

Definition set_links {X} (l : pyval) (b : NetworkDetailsBuilder X) :=
  {| _world := _world b; _networks := _networks b; _links := l;
     _network_adapters := _network_adapters b; _link := _link b;
     _network := _network b; _ext := _ext b |}.

Definition set_networks {X} (n : pyval) (b : NetworkDetailsBuilder X) :=
  {| _world := _world b; _networks := n; _links := _links b;
     _network_adapters := _network_adapters b; _link := _link b;
     _network := _network b; _ext := _ext b |}.

Definition set_ext {X} (x : X) (b : NetworkDetailsBuilder X) :=
  {| _world := _world b; _networks := _networks b; _links := _links b;
     _network_adapters := _network_adapters b; _link := _link b;
     _network := _network b; _ext := x |}.

(** Digest the information related to the current interface. *)
Definition _digest_interface (ip_address netmask : pyval)
    : res (dict pyval) :=
  let ip_address :=
    if truthy netmask
    then PStr (py_str ip_address ++ "/" ++ py_str netmask)
    else ip_address in
  match ip_interface ip_address with
  | Raise e => Raise e
  | Ok i =>
      Ok [ (KStr BROADCAST, PStr (if_broadcast_address i));
           (KStr NETMASK, PStr (if_netmask i));
           (KStr IP_ADDRESS, PStr (if_ip i));
           (KStr VERSION, PInt (if_version i)) ]
  end.

(** The names under which [_get_field] looks a field up, in order. *)
Definition aliases (field : _Field) : list string :=
  name field ::
  match alias field with
  | AliasStr a => [a]
  | AliasSeq l => l
  | AliasOther => []
  end.

(** The loop [for alias in aliases: if alias in raw_data: return
    raw_data[alias]]; [None] when it ends without returning. *)
Fixpoint find_alias (aliases : list string) (raw_data : dict pyval)
    : option pyval :=
  match aliases with
  | [] => None
  | alias :: rest =>
      match dict_get (KStr alias) raw_data with
      | Some x => Some x
      | None => find_alias rest raw_data
      end
  end.

(** Find the required information in the raw data. *)
Definition _get_field (field : _Field) (raw_data : dict pyval)
    : M world (string * pyval) :=
  fun w =>
    match find_alias (aliases field) raw_data with
    | Some x => (Ok (name field, x), w)
    | None =>
        if negb (required field) then
          match default field with
          | Producer f => let (x, w') := f w in (Ok (name field, x), w')
          | Value x => (Ok (name field, x), w)
          end
        else (Raise NetworkDetailsError, w)
    end.

(** Get the received fields from the raw data: the loop of [_get_fields]
    from the fields still to resolve and the [data] built so far.  The
    result [None] is the bare [return]. *)
Fixpoint _get_fields_from (fields : list _Field) (raw_data : dict pyval)
    (data : dict pyval) : M world (option (dict pyval)) :=
  match fields with
  | [] => ret (Some data)
  | field :: rest =>
      fun w =>
        match _get_field field raw_data w with
        | (Ok (field_name, field_value), w') =>
            _get_fields_from rest raw_data
              (dict_set (KStr field_name) field_value data) w'
        | (Raise NetworkDetailsError, w') =>
            match on_error field with
            | Some callback =>
                let '((go_on, data'), w'') := callback raw_data data w' in
                if go_on then _get_fields_from rest raw_data data' w''
                else (Ok None, w'')
            | None => (Ok None, w')
            end
        | (Raise e, w') => (Raise e, w')
        end
  end.

Definition _get_fields (fields : list _Field) (raw_data : dict pyval)
    : M world (option (dict pyval)) :=
  _get_fields_from fields raw_data [].

(** Handle the scenario where the mac address is missing from raw data.
    [link_name] is [self._link[NAME]].  What [_get_field] returns, and
    [name] holds, is the pair of the field's name and its value; that
    pair is also what the last message is formatted with, which takes
    two values.  [_get_field] raises nothing but [NetworkDetailsError]. *)
Definition _on_mac_not_found (link_name : _Field)
    (network_adapters : list (string * string)) : on_error_t :=
  fun raw_data output w =>
    match _get_field link_name raw_data w with
    | (Raise _, w') => ((false, output), w')
    | (Ok (field_name, field_value), w') =>
        let name := PTuple [PStr field_name; field_value] in
        match find (fun adapter => py_eq (PStr (fst adapter)) name)
                   network_adapters with
        | Some (_, mac_address) =>
            ((true, dict_set (KStr MAC_ADDRESS) (PStr mac_address) output),
             w')
        | None => ((false, output), w')
        end
    end.

(** [raw_link.update(...)] writes to the record that the buffer holds. *)
Definition store_link {X} (i : nat) (raw_link : pyval)
    (self : NetworkDetailsBuilder X) : NetworkDetailsBuilder X :=
  match _links self with
  | PList l => set_links (PList (replace_nth i raw_link l)) self
  | PTuple l => set_links (PTuple (replace_nth i raw_link l)) self
  | _ => self
  end.

(** Process raw data regarding the links: the loop of [_digest_links]
    from the [i]-th item of the buffer on. *)
Fixpoint _digest_links_from {X} (raw_links : list pyval) (i : nat)
    (links : dict namedtuple)
    : M (NetworkDetailsBuilder X) (dict namedtuple) :=
  match raw_links with
  | [] => ret links
  | raw_link :: rest =>
      match raw_link with
      | PDict d =>
          (ip_address <- lift (py_getitem raw_link IP_ADDRESS) ;;
           netmask <- lift (py_getitem raw_link NETMASK) ;;
           derived <- lift (_digest_interface ip_address netmask) ;;
           let raw_link := PDict (dict_update d derived) in
           modify (store_link i raw_link) ;;;
           link <- try_except (lift (_Link raw_link)) is_TypeError
                     (fun _ => raise NetworkDetailsError) ;;
           links <- lift (dict_setitem (field link ID) link links) ;;
           _digest_links_from rest (S i) links)%py
      | _ => raise AttributeError     (* no method [update] *)
      end
  end.

Definition _digest_links {X}
    : M (NetworkDetailsBuilder X) (dict namedtuple) :=
  (raw_links <- (fun self => (py_iter (_links self), self)) ;;
   _digest_links_from raw_links 0 [])%py.

(** What the handler of [TypeError] in [_digest_networks] raises: the
    message of the [NetworkDetailsError] is made with
    ["Invalid raw network %r provied." % raw_network], and [%] takes a
    tuple for the sequence of its arguments, so a tuple that has not
    exactly one item raises [TypeError] there. *)
Definition invalid_raw_network (raw_network : pyval) : exn :=
  match raw_network with
  | PTuple [_] => NetworkDetailsError
  | PTuple _ => TypeError
  | _ => NetworkDetailsError
  end.

(** Process raw data regarding the networks: the loop of
    [_digest_networks]. *)
Fixpoint _digest_networks_from (raw_networks : list pyval)
    (networks : dict namedtuple) (references : dict (list pyval))
    : res (dict namedtuple * dict (list pyval)) :=
  match raw_networks with
  | [] => Ok (networks, references)
  | raw_network :: rest =>
      match _Network raw_network with
      | Raise TypeError => Raise (invalid_raw_network raw_network)
      | Raise e => Raise e
      | Ok network =>
          match dict_setitem (field network ID) network networks with
          | Raise e => Raise e
          | Ok networks =>
              (* references.setdefault(network.assigned_to, []) *)
              match key_of (field network ASSIGNED_TO) with
              | None => Raise TypeError
              | Some link_id =>
                  let assigned_to :=
                    match dict_get link_id references with
                    | Some l => l
                    | None => []
                    end in
                  _digest_networks_from rest networks
                    (dict_set link_id (assigned_to ++ [field network ID])
                              references)
              end
          end
      end
  end.

Definition _digest_networks {X} (self : NetworkDetailsBuilder X)
    : res (dict namedtuple * dict (list pyval)) :=
  match py_iter (_networks self) with
  | Raise e => Raise e
  | Ok raw_networks => _digest_networks_from raw_networks [] []
  end.

Definition tuples (d : dict namedtuple) : dict obj :=
  map (fun kv => (fst kv, Tuple_ (snd kv))) d.

Definition lists (d : dict (list pyval)) : dict obj :=
  map (fun kv => (fst kv, List_ (snd kv))) d.

(** Create a [NetworkDetails] object using available information.
    [_digest] is the abstract method. *)
Definition get_network_details {X}
    (_digest : M (NetworkDetailsBuilder X) unit)
    : M (NetworkDetailsBuilder X) NetworkDetails.t :=
  (empty <- gets (fun self => negb (truthy (_links self))
                              || negb (truthy (_networks self))) ;;
   (if empty : bool then _digest else ret tt) ;;;
   links <- _digest_links ;;
   nr <- (fun self => (_digest_networks self, self)) ;;
   ret (NetworkDetails.__init__ (tuples links) (tuples (fst nr))
                                (lists (snd nr))))%py.

(** [lambda: str(uuid.uuid1())] *)
Definition new_id : default_t :=
  Producer (fun w => let (s, w') := uuid1 w in (PStr s, w')).

(** [self._link] and [self._network] as [__init__] sets them; the bound
    method [self._on_mac_not_found] reads [self._link[NAME]] when it is
    called, so it is built from the [NAME] entry the object ends with. *)
Definition link_fields (link_name : _Field)
    (network_adapters : list (string * string))
    : list (string * _Field) :=
  [ (ID, {| name := ID; alias := AliasOther; default := new_id;
            required := false; on_error := None |});
    (NAME, {| name := NAME; alias := AliasOther; default := Value PNone;
              required := true; on_error := None |});
    (MAC_ADDRESS,
      {| name := MAC_ADDRESS; alias := AliasOther; default := Value PNone;
         required := true;
         on_error := Some (_on_mac_not_found link_name network_adapters) |});
    (TYPE, {| name := TYPE; alias := AliasOther;
              default := Value (PStr PHY);
              required := false; on_error := None |});
    (MTU, Field_new MTU);
    (BOND_LINKS, Field_new BOND_LINKS);
    (BOND_MODE, Field_new BOND_MODE);
    (VLAN_ID, Field_new VLAN_ID);
    (VLAN_LINK, Field_new VLAN_LINK) ].

Definition network_fields : list (string * _Field) :=
  [ (ID, {| name := ID; alias := AliasOther; default := new_id;
            required := false; on_error := None |});
    (IP_ADDRESS, {| name := IP_ADDRESS; alias := AliasOther;
                    default := Value PNone; required := true;
                    on_error := None |});
    (VERSION, {| name := VERSION; alias := AliasOther;
                 default := Value (PInt 4); required := false;
                 on_error := None |});
    (NETMASK, {| name := NETMASK; alias := AliasOther;
                 default := Value PNone; required := true;
                 on_error := None |});
    (GATEWAY, {| name := GATEWAY; alias := AliasOther;
                 default := Value PNone; required := true;
                 on_error := None |});
    (BROADCAST, Field_new BROADCAST);
    (DNS, {| name := DNS; alias := AliasOther; default := Value (PList []);
             required := false; on_error := None |});
    (ASSIGNED_TO, Field_new ASSIGNED_TO) ].

(** [self._link[NAME]] of the base class. *)
Definition base_link_name : _Field :=
  {| name := NAME; alias := AliasOther; default := Value PNone;
     required := true; on_error := None |}.

(** [NetworkDetailsBuilder.__init__]: [network_adapters] is what
    [osutils.get_network_adapters()] returned. *)
Definition __init__ {X} (w : world)
    (network_adapters : list (string * string)) (ext : X)
    : NetworkDetailsBuilder X :=
  {| _world := w;
     _networks := PDict [];
     _links := PDict [];
     _network_adapters := network_adapters;
     _link := link_fields base_link_name network_adapters;
     _network := network_fields;
     _ext := ext |}.

(** [d.update(e)] and [d.values()] for the dictionaries of fields. *)
Fixpoint fields_set (n : string) (f : _Field) (d : list (string * _Field))
    : list (string * _Field) :=
  match d with
  | [] => [(n, f)]
  | (n', f') :: d' =>
      if String.eqb n n' then (n', f) :: d'
      else (n', f') :: fields_set n f d'
  end.

Definition fields_update (d e : list (string * _Field))
    : list (string * _Field) :=
  fold_left (fun acc nf => fields_set (fst nf) (snd nf) acc) e d.

Definition values (d : list (string * _Field)) : list _Field := map snd d.

End Builder.

Arguments _world {RT X}. Arguments _networks {RT X}.
Arguments _links {RT X}. Arguments _network_adapters {RT X}.
Arguments _link {RT X}. Arguments _network {RT X}. Arguments _ext {RT X}.

End basenetworkservice.

(* ================================================================= *)
(** ** [cloudbaseinit/metadata/services/httpservice.py] *)

Module httpservice.
Import basenetworkservice.

(** The decoded [network_data.json]: an object whose entries [links] and
    [networks], when it has them, are arrays of objects. *)
Record network_data_t : Type := {
  nd_links : option (list (dict pyval));
  nd_networks : option (list (dict pyval))
}.

(** [self._invalid_links]: the list that [__init__] makes, or the keys view
    of [self._links] that [_digest] assigns (a view has the length of its
    dictionary and no method [pop]). *)
Inductive invalid_links_t : Type :=
| InvalidList (l : list pyval)
| KeysView.

Record http_ext : Type := {
  _network_data : network_data_t;
  _invalid_links : invalid_links_t
}.

Section Builder.
Context `{RT : Runtime}.

Definition _NetworkDetailsBuilder : Type := NetworkDetailsBuilder http_ext.

Definition _ASSIGNED_TO := "link".
Definition _MAC_ADDRESS := "ethernet_mac_address".
Definition _NAME := "id".
Definition _VERSION := "type".
Definition _LINKS := "links".
Definition _NETWORKS := "networks".
Definition _ROUTES := "routes".
Definition _IPV4 := "ipv4".

Definition http_link_name : _Field :=
  {| name := NAME; alias := AliasStr _NAME; default := Value PNone;
     required := true; on_error := None |}.

(** [_NetworkDetailsBuilder.__init__] *)
Definition __init__ (w : world) (network_adapters : list (string * string))
    (network_data : network_data_t) : _NetworkDetailsBuilder :=
  let self :=
    basenetworkservice.__init__ w network_adapters
      {| _network_data := network_data; _invalid_links := InvalidList [] |}
  in
  {| _world := _world self;
     _networks := _networks self;
     _links := _links self;
     _network_adapters := _network_adapters self;
     _link :=
       fields_update (_link self)
         [ (NAME, http_link_name);
           (MAC_ADDRESS,
             {| name := MAC_ADDRESS; alias := AliasStr _MAC_ADDRESS;
                default := Value PNone; required := true;
                on_error := Some (_on_mac_not_found http_link_name
                                    network_adapters) |}) ];
     _network :=
       fields_update (_network self)
         [ (VERSION,
             {| name := VERSION; alias := AliasStr _VERSION;
                default := Value (PInt 4); required := true;
                on_error := None |});
           (ASSIGNED_TO,
             {| name := ASSIGNED_TO; alias := AliasStr _ASSIGNED_TO;
                default := Value PNone; required := true;
                on_error := None |}) ];
     _ext := _ext self |}.

Definition set_invalid_links (i : invalid_links_t)
    (self : _NetworkDetailsBuilder) : _NetworkDetailsBuilder :=
  set_ext {| _network_data := _network_data (_ext self);
             _invalid_links := i |} self.

(** [self._get_fields(fields, raw_data)] on the builder's state. *)
Definition get_fields (fields : list _Field) (raw_data : dict pyval)
    : M _NetworkDetailsBuilder (option (dict pyval)) :=
  zoom _world set_world (_get_fields fields raw_data).

(** [d[name]] on a dictionary of resolved fields *)
Definition item (d : dict pyval) (name : string) : res pyval :=
  py_getitem (PDict d) name.

(** The body of the loop over the routes of a network: the builder has
    no attribute [_route]. *)
Definition _digest_raw_route (network : dict pyval) (raw_route : pyval)
    : M _NetworkDetailsBuilder unit :=
  (network_id <- lift (item network ID) ;;
   _ <- lift (py_setitem raw_route (PStr ASSIGNED_TO) network_id) ;;
   raise AttributeError)%py.

(** [for x in l: body(x)] *)
Fixpoint for_each {S A} (l : list A) (body : A -> M S unit) : M S unit :=
  match l with
  | [] => ret tt
  | x :: l' => (body x ;;; for_each l' body)%py
  end.

(** [self._invalid_links.pop(k, None)]: the method is looked up, then the
    argument is evaluated, then the call is made; a list's [pop] takes
    one argument at most. *)
Definition invalid_links_pop_default (k : M _NetworkDetailsBuilder pyval)
    : M _NetworkDetailsBuilder unit :=
  (invalid_links <- gets (fun self => _invalid_links (_ext self)) ;;
   match invalid_links with
   | KeysView => raise AttributeError
   | InvalidList _ => (_ <- k ;; raise TypeError)
   end)%py.

(** The body of the loop of [_digest_raw_networks]; what [_get_fields]
    returned is true when it is a dictionary that is not empty. *)
Definition _digest_raw_network (raw_network : dict pyval)
    : M _NetworkDetailsBuilder unit :=
  (fields <- gets (fun self => values (_network self)) ;;
   network <- get_fields fields raw_network ;;
   match network with
   | Some ((_ :: _) as network) =>
       invalid_links_pop_default (lift (item network ASSIGNED_TO)) ;;;
       routes <- lift (py_get (PDict raw_network) _ROUTES (PList [])) ;;
       raw_routes <- lift (py_iter routes) ;;
       for_each raw_routes (_digest_raw_route network)
   | _ => ret tt                      (* a warning, then [continue] *)
   end)%py.

(** Digest the information related to networks. *)
Definition _digest_raw_networks : M _NetworkDetailsBuilder unit :=
  (raw_networks <- gets (fun self => nd_networks (_network_data (_ext self))) ;;
   match raw_networks with
   | None => raise TypeError          (* [None] is not iterable *)
   | Some raw_networks => for_each raw_networks _digest_raw_network
   end)%py.

(** The body of the first loop of [_digest]. *)
Definition _digest_raw_link (raw_link : dict pyval)
    : M _NetworkDetailsBuilder unit :=
  (fields <- gets (fun self => values (_link self)) ;;
   link <- get_fields fields raw_link ;;
   match link with
   | Some ((_ :: _) as link) =>
       version <- lift (item link VERSION) ;;
       let link :=
         dict_set (KStr VERSION)
           (PInt (if py_eq version (PStr _IPV4) then IPV4 else IPV6)) link in
       link_id <- lift (item link ID) ;;
       links <- gets _links ;;
       links <- lift (py_setitem links link_id (PDict link)) ;;
       modify (set_links links)
   | _ => ret tt                      (* a warning *)
   end)%py.

(** [self._links.pop(k)] *)
Definition links_pop (k : pyval) : M _NetworkDetailsBuilder unit :=
  (links <- gets _links ;;
   match links with
   | PDict d =>
       match key_of k with
       | None => raise TypeError
       | Some k' =>
           if dict_mem k' d then modify (set_links (PDict (dict_remove k' d)))
           else raise KeyError
       end
   | PList l =>
       match k with
       | PInt i =>
           let n := Z.of_nat (List.length l) in
           let j := if (i <? 0)%Z then (i + n)%Z else i in
           if ((0 <=? j) && (j <? n))%Z
           then modify (set_links
                          (PList (firstn (Z.to_nat j) l
                                  ++ skipn (S (Z.to_nat j)) l)))
           else raise (OtherError "IndexError")
       | _ => raise TypeError
       end
   | _ => raise AttributeError
   end)%py.

(** The loop [while self._invalid_links], which pops from the end. *)
Fixpoint prune_list (reversed : list pyval)
    : M _NetworkDetailsBuilder unit :=
  match reversed with
  | [] => ret tt
  | invalid_link :: rest =>
      (modify (set_invalid_links (InvalidList (rev rest))) ;;;
       links_pop invalid_link ;;;
       prune_list rest)%py
  end.

Definition _prune : M _NetworkDetailsBuilder unit :=
  (invalid_links <- gets (fun self => _invalid_links (_ext self)) ;;
   match invalid_links with
   | InvalidList l => prune_list (rev l)
   | KeysView =>
       links <- gets _links ;;
       if truthy links then raise AttributeError else ret tt
   end)%py.

(** Digest the received network information. *)
Definition _digest : M _NetworkDetailsBuilder unit :=
  (raw_links <- gets (fun self =>
                        match nd_links (_network_data (_ext self)) with
                        | Some l => l
                        | None => []
                        end) ;;
   for_each raw_links _digest_raw_link ;;;
   links <- gets _links ;;
   match links with
   | PDict _ => modify (set_invalid_links KeysView)
   | _ => raise AttributeError        (* no method [keys] *)
   end ;;;
   _digest_raw_networks ;;;
   _prune)%py.

Definition get_network_details
    : M _NetworkDetailsBuilder NetworkDetails.t :=
  basenetworkservice.get_network_details _digest.

End Builder.
End httpservice.

(* ================================================================= *)
(** ** [httpservice.py]: class [HttpService], and the method
    [get_network_details] that it has from [BaseNetworkMetadataService]

    The requests go through [urllib]; the superclass
    [BaseOpenStackService] is not part of the three modules, and what the
    service calls of it is a parameter.  Calls of [LOG] are left out. *)

Module HttpService.
Import basenetworkservice.

(** The exceptions that the service tells apart: [urllib.error.HTTPError]
    with its code, [base.NotExistingMetadataException], and the others. *)
Inductive error : Type :=
| HTTPError (code : Z)
| NotExistingMetadataException
| Builtin (e : exn).

Inductive outcome (A : Type) : Type :=
| Returns (a : A)
| Raises (e : error).
Arguments Returns {A} a.
Arguments Raises {A} e.

(** What the service uses of its environment: [request.urlopen] on a
    request for a URL, with data or without, which answers the body that
    [read()] gives; [CONF.metadata_base_url]; and [json.loads], which
    raises [ValueError] on a text that is no JSON document. *)
Class Http : Type := {
  net : Type;
  urlopen : string -> option string -> net -> outcome string * net;
  metadata_base_url : string;
  json_loads : string -> option pyval
}.

Definition _POST_PASSWORD_MD_VER := "2013-04-04".
Definition _NETWORK_DATA_JSON := "openstack/latest/metadata/network_data.json".

Fixpoint endswith (s : string) (c : ascii) : bool :=
  match s with
  | EmptyString => false
  | String c' EmptyString => Ascii.eqb c' c
  | String _ s' => endswith s' c
  end.

(** [posixpath.join(a, b)] *)
Definition posixpath_join (a b : string) : string :=
  if String.prefix "/" b then b
  else if String.eqb a "" || endswith a "/" then a ++ b
  else a ++ "/" ++ b.

Section Service.
Context `{HTTP : Http} {B : Type}.

(** [make_builder network_data] is [_NetworkDetailsBuilder(service=self,
    network_data=network_data)], and [details_of] the method
    [get_network_details] of a builder. *)
Variable make_builder : pyval -> B.
Variable details_of : B -> res NetworkDetails.t * B.

(** The service: the builder it keeps, and the network. *)
Record t : Type := {
  _network_details_builder : option B;
  _net : net
}.

Definition set_net (n : net) (self : t) : t :=
  {| _network_details_builder := _network_details_builder self; _net := n |}.

Definition set_builder (b : option B) (self : t) : t :=
  {| _network_details_builder := b; _net := _net self |}.

(** [super(HttpService, self)._get_network_details_builder()], whose
    result the service does not use. *)
Variable super_get_network_details_builder : t -> outcome unit * t.

Definition _get_response (url : string) (data : option string)
    : net -> outcome string * net :=
  fun n =>
    match urlopen url data n with
    | (Raises (HTTPError code), n') =>
        if (code =? 404)%Z then (Raises NotExistingMetadataException, n')
        else (Raises (HTTPError code), n')
    | r => r
    end.

Definition _get_data (path : string) : net -> outcome string * net :=
  _get_response (posixpath_join metadata_base_url path) None.

Definition _post_data (path data : string) : net -> outcome bool * net :=
  fun n =>
    match _get_response (posixpath_join metadata_base_url path) (Some data) n
    with
    | (Returns _, n') => (Returns true, n')
    | (Raises e, n') => (Raises e, n')
    end.

Definition _get_password_path : string :=
  "openstack/" ++ _POST_PASSWORD_MD_VER ++ "/password".

Definition is_password_set : net -> outcome bool * net :=
  fun n =>
    match _get_data _get_password_path n with
    | (Returns data, n') => (Returns (0 <? String.length data)%nat, n')
    | (Raises e, n') => (Raises e, n')
    end.

(** The end of [_get_network_details_builder] when [network_data] is
    false: the builder of the superclass is asked for, and the builder
    that the service then keeps is returned. *)
Definition or_super (self : t) : outcome (option B) * t :=
  match super_get_network_details_builder self with
  | (Returns _, self') => (Returns (_network_details_builder self'), self')
  | (Raises e, self') => (Raises e, self')
  end.

(** Get the required [NetworkDetailsBuilder] object.  When [json.loads]
    raises, [network_data] is still the text that [_get_data] returned. *)
Definition _get_network_details_builder (self : t) : outcome (option B) * t :=
  match _network_details_builder self with
  | Some builder => (Returns (Some builder), self)
  | None =>
      let (r, n) := _get_data _NETWORK_DATA_JSON (_net self) in
      let self := set_net n self in
      match r with
      | Raises NotExistingMetadataException
      | Raises (Builtin ValueError) => or_super self
      | Raises e => (Raises e, self)
      | Returns text =>
          match json_loads text with
          | None =>
              if truthy (PStr text)
              then (Returns (_network_details_builder self), self)
              else or_super self
          | Some network_data =>
              let self := set_builder (Some (make_builder network_data)) self in
              if truthy network_data
              then (Returns (_network_details_builder self), self)
              else or_super self
          end
      end
  end.

(** [BaseNetworkMetadataService.get_network_details]: the builder is an
    object that the service keeps, so what its method writes to it stays
    written; [None] is returned when there is no builder. *)
Definition get_network_details (self : t)
    : outcome (option NetworkDetails.t) * t :=
  match _get_network_details_builder self with
  | (Raises e, self') => (Raises e, self')
  | (Returns None, self') => (Returns None, self')
  | (Returns (Some builder), self') =>
      let (r, builder') := details_of builder in
      (match r with
       | Ok details => Returns (Some details)
       | Raise e => Raises (Builtin e)
       end,
       set_builder (Some builder') self')
  end.

End Service.
End HttpService.

(* ================================================================= *)
(** ** [cloudbaseinit/plugins/common/networkconfig.py] *)

Module networkconfig.
Import basenetworkservice.

(** The two primitives of [osutils] that the plugin calls, over the state
    of the host; each returns or raises. *)
Class OSUtils : Type := {
  os_state : Type;
  set_static_network_config :
    forall (mac_address address netmask broadcast gateway
            dnsnameservers : pyval), os_state -> res bool * os_state;
  set_static_network_config_v6 :
    forall (mac_address address6 netmask6 gateway6 : pyval),
      os_state -> res unit * os_state
}.

Inductive level : Type := DEBUG | ERROR | EXCEPTION.

(** [plugin_base.PLUGIN_EXECUTION_DONE] *)
Inductive status : Type := PLUGIN_EXECUTION_DONE.

(** What [service.get_network_details()] gave: something false, a
    [NetworkDetails] object, or another object. *)
Inductive details_t : Type :=
| Nothing
| Details (d : NetworkDetails.t)
| Another.

Section Plugin.
Context `{OS : OSUtils}.

(** The host and the records of [LOG]. *)
Record plugin_state : Type := {
  host : os_state;
  logged : list (level * string)
}.

Definition LOG (l : level) (msg : string) : M plugin_state unit :=
  modify (fun s => {| host := host s; logged := logged s ++ [(l, msg)] |}).

Definition os {A} (call : os_state -> res A * os_state)
    : M plugin_state A :=
  fun s => let (r, h) := call (host s) in
           (r, {| host := h; logged := logged s |}).

Definition attr (o : option obj) (name : string) : M plugin_state pyval :=
  lift (getattr o name).

(** Set IPv6 info for a network card. *)
Definition _set_static_network_config_v6 (link network : option obj)
    : M plugin_state bool :=
  (mac_address <- attr link MAC_ADDRESS ;;
   address6 <- attr network IP_ADDRESS ;;
   netmask6 <- attr network NETMASK ;;
   gateway6 <- attr network GATEWAY ;;
   os (set_static_network_config_v6 mac_address address6 netmask6
                                    gateway6) ;;;
   ret false)%py.

(** Set IPv4 info for a network card. *)
Definition _set_static_network_config_v4 (link network : option obj)
    : M plugin_state bool :=
  (mac_address <- attr link MAC_ADDRESS ;;
   address <- attr network IP_ADDRESS ;;
   netmask <- attr network NETMASK ;;
   broadcast <- attr network BROADCAST ;;
   gateway <- attr network GATEWAY ;;
   dnsnameservers <- attr network DNS ;;
   os (set_static_network_config mac_address address netmask broadcast
                                 gateway dnsnameservers))%py.

(** The loop of [_configure_phy]. *)
Fixpoint _configure_phy_from (details : NetworkDetails.t)
    (link : option obj) (network_ids : list pyval) (response : bool)
    : M plugin_state bool :=
  match network_ids with
  | [] => ret response
  | network_id :: rest =>
      (network <- lift (NetworkDetails.get_network details network_id) ;;
       _ <- attr network ID ;;
       LOG DEBUG "Configuring network %(id)r." ;;;
       version <- attr network VERSION ;;
       r <- (if py_eq version (PInt IPV4)
             then _set_static_network_config_v4 link network
             else _set_static_network_config_v6 link network) ;;
       _configure_phy_from details link rest (response || r))%py
  end.

(** Configure physical NICs. *)
Definition _configure_phy (details : NetworkDetails.t) (link : option obj)
    : M plugin_state bool :=
  (link_id <- attr link ID ;;
   networks <- lift (NetworkDetails.get_networks details link_id) ;;
   network_ids <- lift (iter_obj networks) ;;
   _configure_phy_from details link network_ids false)%py.

(** Configure different types of interfaces. *)
Definition _configure_interface (details : NetworkDetails.t)
    (link : option obj) : M plugin_state bool :=
  (_ <- attr link NAME ;;
   _ <- attr link MAC_ADDRESS ;;
   LOG DEBUG "Configuring link %(name)r: %(mac)s" ;;;
   link_type <- attr link TYPE ;;
   if py_eq link_type (PStr PHY) then _configure_phy details link
   else raise NetworkDetailsError)%py.

(** The loop of [execute] over the ids still to visit, from the values
    of [reboot_required] and [configured] so far. *)
Fixpoint execute_from (details : NetworkDetails.t) (link_ids : list pyval)
    (reboot_required configured : bool) : M plugin_state (bool * bool) :=
  match link_ids with
  | [] => ret (reboot_required, configured)
  | link_id :: rest =>
      (link <- lift (NetworkDetails.get_link details link_id) ;;
       rc <- try_except
               (r <- _configure_interface details link ;;
                ret (reboot_required || r, true))
               is_NetworkDetailsError
               (fun exc =>
                  LOG EXCEPTION "exc" ;;;
                  _ <- attr link MAC_ADDRESS ;;
                  LOG ERROR "Failed to configure the interface %r: %s" ;;;
                  ret (reboot_required, configured)) ;;
       execute_from details rest (fst rc) (snd rc))%py
  end.

Definition execute (network_details : details_t)
    : M plugin_state (status * bool) :=
  match network_details with
  | Nothing =>
      (LOG DEBUG "Network information is not available." ;;;
       ret (PLUGIN_EXECUTION_DONE, false))%py
  | Another => raise CloudbaseInitException
  | Details details =>
      (rc <- execute_from details (NetworkDetails.get_links details)
               false false ;;
       (if snd rc : bool then ret tt
        else LOG ERROR "No adapters were configured") ;;;
       ret (PLUGIN_EXECUTION_DONE, fst rc))%py
  end.

End Plugin.
End networkconfig.

(* ================================================================= *)
(** ** A reference model of [ipaddress.ip_interface]

    The library [ipaddress] is imported by the repository and is not part
    of it.  The model follows the library on the textual forms of an
    interface, ["address"], ["address/prefix"] and, for IPv4,
    ["address/netmask"] and ["address/hostmask"].  IPv6 zone identifiers
    are left out. *)

Module ipaddress.
Local Open Scope Z_scope.

Inductive family : Type := V4 | V6.

Definition _version (v : family) : Z :=
  match v with V4 => 4 | V6 => 6 end.

Definition _max_prefixlen (v : family) : Z :=
  match v with V4 => 32 | V6 => 128 end.

Definition _ALL_ONES (v : family) : Z := 2 ^ _max_prefixlen v - 1.

(** [s.split(sep)] *)
Fixpoint split (sep : ascii) (s : string) : list string :=
  match s with
  | EmptyString => [EmptyString]
  | String c s' =>
      if Ascii.eqb c sep then EmptyString :: split sep s'
      else match split sep s' with
           | [] => [String c EmptyString]
           | p :: ps => String c p :: ps
           end
  end.

(** [sep.join(l)] *)
Fixpoint join (sep : string) (l : list string) : string :=
  match l with
  | [] => EmptyString
  | [x] => x
  | x :: l' => (x ++ sep ++ join sep l')%string
  end.

Definition code (c : ascii) : Z := Z.of_N (N_of_ascii c).

Definition decimal_digit (c : ascii) : option Z :=
  let n := code c in
  if (48 <=? n) && (n <=? 57) then Some (n - 48) else None.

Definition hex_digit (c : ascii) : option Z :=
  let n := code c in
  if (48 <=? n) && (n <=? 57) then Some (n - 48)
  else if (97 <=? n) && (n <=? 102) then Some (n - 87)
  else if (65 <=? n) && (n <=? 70) then Some (n - 55)
  else None.

Fixpoint digits (digit : ascii -> option Z) (base : Z) (s : string) (acc : Z)
    : option Z :=
  match s with
  | EmptyString => Some acc
  | String c s' =>
      match digit c with
      | Some d => digits digit base s' (acc * base + d)
      | None => None
      end
  end.

(** [int(s, base)] for a string of digits of the base: [None] when the
    string is empty or holds another character. *)
Definition int_of (digit : ascii -> option Z) (base : Z) (s : string)
    : option Z :=
  match s with
  | EmptyString => None
  | _ => digits digit base s 0
  end.

(** [str(n)] and ['%x' % n] for a natural number *)
Definition decimal (n : Z) : string :=
  DecimalString.NilZero.string_of_uint (N.to_uint (Z.to_N n)).

Definition hexadecimal (n : Z) : string :=
  HexadecimalString.NilZero.string_of_uint (N.to_hex_uint (Z.to_N n)).

(** *** IPv4 text *)

Definition _parse_octet (octet_str : string) : option Z :=
  match int_of decimal_digit 10 octet_str with
  | None => None
  | Some octet_int =>
      if (3 <? String.length octet_str)%nat then None
      else if negb (String.eqb octet_str "0") && String.prefix "0" octet_str
      then None
      else if 255 <? octet_int then None
      else Some octet_int
  end.

Fixpoint from_bytes (l : list (option Z)) (acc : Z) : option Z :=
  match l with
  | [] => Some acc
  | Some b :: l' => from_bytes l' (acc * 256 + b)
  | None :: _ => None
  end.

Definition _ip_int_from_string4 (ip_str : string) : option Z :=
  let octets := split "." ip_str in
  if negb (Nat.eqb (List.length octets) 4) then None
  else from_bytes (map _parse_octet octets) 0.

Definition _string_from_ip_int4 (ip_int : Z) : string :=
  join "." (map (fun i => decimal (Z.shiftr ip_int (8 * i) mod 256))
                [3; 2; 1; 0]).

(** *** IPv6 text *)

Definition _parse_hextet (hextet_str : string) : option Z :=
  match int_of hex_digit 16 hextet_str with
  | None => None
  | Some n => if (4 <? String.length hextet_str)%nat then None else Some n
  end.

Fixpoint contains (c : ascii) (s : string) : bool :=
  match s with
  | EmptyString => false
  | String c' s' => Ascii.eqb c c' || contains c s'
  end.

Definition is_empty (s : string) : bool :=
  match s with EmptyString => true | _ => false end.

(** The parts of the address, a dotted suffix turned into two hextets. *)
Definition _ipv4_suffix (parts : list string) : option (list string) :=
  match rev parts with
  | [] => Some parts
  | last :: others =>
      if contains "." last then
        match _ip_int_from_string4 last with
        | None => None
        | Some ipv4_int =>
            Some (rev others
                  ++ [hexadecimal (Z.land (Z.shiftr ipv4_int 16) 65535);
                      hexadecimal (Z.land ipv4_int 65535)])
        end
      else Some parts
  end.

(** Shifting the hextets in, as the two loops of the library do. *)
Fixpoint hextets_in (l : list string) (ip_int : Z) : option Z :=
  match l with
  | [] => Some ip_int
  | h :: l' =>
      match _parse_hextet h with
      | Some n => hextets_in l' (Z.lor (Z.shiftl ip_int 16) n)
      | None => None
      end
  end.

Definition _ip_int_from_string6 (ip_str : string) : option Z :=
  let parts := split ":" ip_str in
  if (List.length parts <? 3)%nat then None
  else
    match _ipv4_suffix parts with
    | None => None
    | Some parts =>
        let n := List.length parts in
        if (9 <? n)%nat then None
        else
          let skips :=
            filter (fun i => is_empty (nth i parts "x"%string))
                   (seq 1 (n - 2)) in
          let first_empty := is_empty (nth 0 parts "x"%string) in
          let last_empty := is_empty (nth (n - 1) parts "x"%string) in
          let shape :=          (* parts_hi, parts_lo, parts_skipped *)
            match skips with
            | [] =>
                if negb (Nat.eqb n 8) || first_empty || last_empty then None
                else Some (n, 0%nat, 0%nat)
            | [skip_index] =>
                let hi := skip_index in
                let lo := (n - skip_index - 1)%nat in
                let hi' := if first_empty then (hi - 1)%nat else hi in
                let lo' := if last_empty then (lo - 1)%nat else lo in
                if first_empty && negb (Nat.eqb hi' 0) then None
                else if last_empty && negb (Nat.eqb lo' 0) then None
                else if (8 <=? hi' + lo')%nat then None
                else Some (hi', lo', (8 - (hi' + lo'))%nat)
            | _ => None
            end in
          match shape with
          | None => None
          | Some (hi, lo, skipped) =>
              match hextets_in (firstn hi parts) 0 with
              | None => None
              | Some ip_int =>
                  hextets_in (skipn (n - lo) parts)
                             (Z.shiftl ip_int (16 * Z.of_nat skipped))
              end
          end
    end.

(** The longest run of ["0"] hextets, the first of the longest: its start
    and its length, from the index [i] on and the run [cur_len] long that
    ends before it. *)
Fixpoint best_run (hextets : list string) (i cur_len best_start best_len : nat)
    : nat * nat :=
  match hextets with
  | [] => (best_start, best_len)
  | h :: rest =>
      if String.eqb h "0" then
        let cur_len := S cur_len in
        if (best_len <? cur_len)%nat
        then best_run rest (S i) cur_len (S i - cur_len)%nat cur_len
        else best_run rest (S i) cur_len best_start best_len
      else best_run rest (S i) 0%nat best_start best_len
  end.

Definition _compress_hextets (hextets : list string) : list string :=
  let (start, len) := best_run hextets 0 0 0 0 in
  if (1 <? len)%nat then
    let stop := (start + len)%nat in
    let hextets :=
      if Nat.eqb stop (List.length hextets) then hextets ++ [""%string]
      else hextets in
    let hextets := firstn start hextets ++ [""%string] ++ skipn stop hextets in
    if Nat.eqb start 0 then ""%string :: hextets else hextets
  else hextets.

Definition _string_from_ip_int6 (ip_int : Z) : string :=
  join ":" (_compress_hextets
              (map (fun i => hexadecimal (Z.shiftr ip_int (16 * i) mod 65536))
                   [7; 6; 5; 4; 3; 2; 1; 0])).

(** *** Addresses, netmasks and interfaces *)

Definition _ip_int_from_string (v : family) (ip_str : string) : option Z :=
  match v with
  | V4 => _ip_int_from_string4 ip_str
  | V6 => _ip_int_from_string6 ip_str
  end.

Definition _string_from_ip_int (v : family) (ip_int : Z) : string :=
  match v with
  | V4 => _string_from_ip_int4 ip_int
  | V6 => _string_from_ip_int6 ip_int
  end.

Definition _ip_int_from_prefix (v : family) (prefixlen : Z) : Z :=
  Z.lxor (_ALL_ONES v) (Z.shiftr (_ALL_ONES v) prefixlen).

Fixpoint zero_bits (fuel : nat) (n : Z) : Z :=
  match fuel with
  | O => 0
  | S fuel' => if Z.odd n then 0 else 1 + zero_bits fuel' (Z.div2 n)
  end.

Definition _count_righthand_zero_bits (number bits : Z) : Z :=
  if number =? 0 then bits
  else Z.min bits (zero_bits (Z.to_nat bits) number).

Definition _prefix_from_ip_int (v : family) (ip_int : Z) : option Z :=
  let trailing_zeroes :=
    _count_righthand_zero_bits ip_int (_max_prefixlen v) in
  let prefixlen := _max_prefixlen v - trailing_zeroes in
  let leading_ones := Z.shiftr ip_int trailing_zeroes in
  let all_ones := Z.shiftl 1 prefixlen - 1 in
  if leading_ones =? all_ones then Some prefixlen else None.

Definition _prefix_from_prefix_string (v : family) (prefixlen_str : string)
    : option Z :=
  match int_of decimal_digit 10 prefixlen_str with
  | Some prefixlen =>
      if (0 <=? prefixlen) && (prefixlen <=? _max_prefixlen v)
      then Some prefixlen else None
  | None => None
  end.

Definition _prefix_from_ip_string (v : family) (ip_str : string) : option Z :=
  match _ip_int_from_string v ip_str with
  | None => None
  | Some ip_int =>
      match _prefix_from_ip_int v ip_int with
      | Some prefixlen => Some prefixlen
      | None => _prefix_from_ip_int v (Z.lxor ip_int (_ALL_ONES v))
      end
  end.

(** The prefix length of [_make_netmask(arg)] for a string [arg]. *)
Definition _make_netmask (v : family) (arg : string) : option Z :=
  match _prefix_from_prefix_string v arg with
  | Some prefixlen => Some prefixlen
  | None =>
      match v with
      | V4 => _prefix_from_ip_string V4 arg
      | V6 => None
      end
  end.

(** The interface of the address [ip] in the network of prefix length
    [prefixlen]. *)
Definition interface (v : family) (ip prefixlen : Z) : IPInterface :=
  let netmask := _ip_int_from_prefix v prefixlen in
  let hostmask := Z.lxor netmask (_ALL_ONES v) in
  let network_address := Z.land ip netmask in
  {| if_broadcast_address :=
       _string_from_ip_int v (Z.lor network_address hostmask);
     if_netmask := _string_from_ip_int v netmask;
     if_ip := _string_from_ip_int v ip;
     if_version := _version v |}.

(** [IPv4Interface(address)] and [IPv6Interface(address)]: [None] for
    [AddressValueError] and [NetmaskValueError]. *)
Definition _Interface (v : family) (address : string) : option IPInterface :=
  match split "/" address with
  | [addr] =>
      match _ip_int_from_string v addr with
      | Some ip => Some (interface v ip (_max_prefixlen v))
      | None => None
      end
  | [addr; mask] =>
      match _ip_int_from_string v addr, _make_netmask v mask with
      | Some ip, Some prefixlen => Some (interface v ip prefixlen)
      | _, _ => None
      end
  | _ => None
  end.

(** Modelled from the spec: the function [ip_interface] of the library
    [ipaddress], which the repository imports and does not contain, on a
    string.  The specification asks for the standard IP-interface
    arithmetic: the text is read as an IPv4 interface, then as an IPv6
    one, and is refused with [ValueError] when it is neither. *)
Definition ip_interface (address : string) : res IPInterface :=
  match _Interface V4 address with
  | Some i => Ok i
  | None =>
      match _Interface V6 address with
      | Some i => Ok i
      | None => Raise ValueError
      end
  end.

(** [ip_interface(address)] for an integer: an IPv4 address below [2**32]. *)
Definition ip_interface_int (address : Z) : res IPInterface :=
  if (0 <=? address) && (address <=? _ALL_ONES V4)
  then Ok (interface V4 address 32)
  else if (0 <=? address) && (address <=? _ALL_ONES V6)
  then Ok (interface V6 address 128)
  else Raise ValueError.

End ipaddress.

(* ================================================================= *)
(** ** A reference runtime

    Identifiers come from a counter, so that no two are the same, and
    [ip_interface] is the reference model: on a string, on an integer, and
    on the [str()] of [None] and of a list or dictionary, as the library
    proceeds.  The tuple form [(address, prefix)], which no value of a
    metadata document has, is refused. *)

Definition counter_uuid1 (n : nat) : string * nat :=
  (("uuid-" ++ ipaddress.decimal (Z.of_nat n))%string, S n).

Definition reference_repr (v : pyval) : string :=
  match v with
  | PList _ => "[...]"
  | PTuple _ => "(...)"
  | _ => "{...}"
  end.

Definition reference_ip_interface (address : pyval) : res IPInterface :=
  match address with
  | PStr s => ipaddress.ip_interface s
  | PInt z => ipaddress.ip_interface_int z
  | PBool b => ipaddress.ip_interface_int (Z.b2z b)
  | PNone => ipaddress.ip_interface "None"
  | PList _ | PDict _ => ipaddress.ip_interface (reference_repr address)
  | PTuple _ => Raise ValueError
  end.

#[export] Instance reference_runtime : Runtime := {|
  world := nat;
  uuid1 := counter_uuid1;
  repr_container := reference_repr;
  ip_interface := reference_ip_interface
|}.

(** An operating system that configures nothing and asks for a reboot
    when the address is ["10.0.0.5"], that fails with [OtherError] on the
    adapter ["bad"], and that counts its calls. *)
Definition reference_v4 (mac_address address netmask broadcast gateway
    dnsnameservers : pyval) (calls : nat) : res bool * nat :=
  if py_eq mac_address (PStr "bad")
  then (Raise (OtherError "ConfigurationFailure"), S calls)
  else (Ok (py_eq address (PStr "10.0.0.5")), S calls).

Definition reference_v6 (mac_address address6 netmask6 gateway6 : pyval)
    (calls : nat) : res unit * nat :=
  if py_eq mac_address (PStr "bad")
  then (Raise (OtherError "ConfigurationFailure"), S calls)
  else (Ok tt, S calls).

#[export] Instance reference_os : networkconfig.OSUtils := {|
  networkconfig.os_state := nat;
  networkconfig.set_static_network_config := reference_v4;
  networkconfig.set_static_network_config_v6 := reference_v6
|}.

(* ================================================================= *)
(** ** Sample documents *)

Import basenetworkservice.

(** A JSON object. *)
Definition json_object (l : list (string * pyval)) : dict pyval :=
  map (fun kv => (KStr (fst kv), snd kv)) l.

(** The adapters of the host: one, called ["eth0"]. *)
Definition sample_adapters : list (string * string) :=
  [("eth0", "aa:bb:cc:dd:ee:01")].

(** A raw link that names the adapter ["eth0"] and carries no MAC
    address. *)
Definition link_without_mac : dict pyval :=
  json_object [("name", PStr "eth0")].

(** A raw network without an address. *)
Definition network_without_address : dict pyval :=
  json_object [("id", PStr "n1"); ("netmask", PStr "255.255.255.0")].

(** Two raw links without an id. *)
Definition link_a : dict pyval :=
  json_object [("name", PStr "eth0"); ("mac_address", PStr "aa:bb:cc:dd:ee:01")].

Definition link_b : dict pyval :=
  json_object [("name", PStr "eth1"); ("mac_address", PStr "aa:bb:cc:dd:ee:02")].

(** What [_get_fields] makes of a raw link on the reference runtime whose
    counter stands at [n]. *)
Definition resolved_link (raw_link : dict pyval) (n : nat) : dict pyval :=
  match fst (_get_fields (RT := reference_runtime)
               (values (link_fields base_link_name sample_adapters))
               raw_link n) with
  | Ok (Some data) => data
  | _ => []
  end.

(** A raw network that is complete, assigned to the link ["l1"]. *)
Definition sample_network : pyval :=
  PDict (json_object
    [ ("id", PStr "n1"); ("ip_address", PStr "10.0.0.5"); ("version", PInt 4);
      ("netmask", PStr "255.255.255.0"); ("gateway", PStr "10.0.0.1");
      ("broadcast", PStr "10.0.0.255"); ("dns_nameservers", PList []);
      ("assigned_to", PStr "l1") ]).

(** The named tuple it makes. *)
Definition sample_Network : namedtuple :=
  {| nt_typename := "Network";
     nt_items :=
       [ ("id", PStr "n1"); ("ip_address", PStr "10.0.0.5");
         ("version", PInt 4); ("netmask", PStr "255.255.255.0");
         ("gateway", PStr "10.0.0.1"); ("broadcast", PStr "10.0.0.255");
         ("dns_nameservers", PList []); ("assigned_to", PStr "l1") ] |}.

(** The fields of a complete link ["l1"]. *)
Definition sample_link_items : list (string * pyval) :=
  [ ("id", PStr "l1"); ("name", PStr "eth0"); ("type", PStr "phy");
    ("mac_address", PStr "aa:bb:cc:dd:ee:01"); ("mtu", PNone);
    ("bond_links", PNone); ("bond_mode", PNone); ("vlan_id", PNone);
    ("vlan_link", PNone) ].

(** A raw link with a key that [Link] has not. *)
Definition link_with_leftover : pyval :=
  PDict (json_object (sample_link_items ++ [("leftover", PInt 1)])).

(** A raw network with a key that [Network] has not. *)
Definition network_with_leftover : pyval :=
  PDict (json_object
    [ ("id", PStr "n2"); ("ip_address", PStr "10.0.0.6"); ("version", PInt 4);
      ("netmask", PStr "255.255.255.0"); ("gateway", PStr "10.0.0.1");
      ("broadcast", PStr "10.0.0.255"); ("dns_nameservers", PList []);
      ("assigned_to", PStr "l1"); ("leftover", PInt 1) ]).

(** A raw link with the address and the netmask that [_digest_links]
    reads. *)
Definition link_with_address : pyval :=
  PDict (json_object
    (sample_link_items
     ++ [("ip_address", PStr "10.0.0.5"); ("netmask", PStr "255.255.255.0")])).

(** Builders of the base class on the reference runtime, with the raw
    buffers given. *)
Definition builder_with (links networks : pyval) : NetworkDetailsBuilder unit :=
  set_networks networks
    (set_links links
       (basenetworkservice.__init__ (RT := reference_runtime) 0%nat
          sample_adapters tt)).

(** A [_digest] that tells it was called. *)
Definition digest_called : M (NetworkDetailsBuilder unit) unit :=
  raise (OtherError "_digest was called").

(** Two raw networks with the id ["n1"], the first assigned to ["l1"] and
    the second to ["l2"]. *)
Definition network_n1_on (link_id : string) : pyval :=
  PDict (json_object
    [ ("id", PStr "n1"); ("ip_address", PStr "10.0.0.5"); ("version", PInt 4);
      ("netmask", PStr "255.255.255.0"); ("gateway", PStr "10.0.0.1");
      ("broadcast", PStr "10.0.0.255"); ("dns_nameservers", PList []);
      ("assigned_to", PStr link_id) ]).

(** What [_digest_networks] makes of [sample_network] alone. *)
Definition sample_networks : dict namedtuple := [(KStr "n1", sample_Network)].
Definition sample_references : dict (list pyval) := [(KStr "l1", [PStr "n1"])].

(** A raw network of the OpenStack service that refers to a link no raw
    link declares. *)
Definition dangling_network : dict pyval :=
  json_object
    [ ("id", PStr "n1"); ("type", PStr "ipv4"); ("link", PStr "ghost");
      ("ip_address", PStr "10.0.0.5"); ("netmask", PStr "255.255.255.0");
      ("gateway", PStr "10.0.0.1") ].

(** A raw link of the OpenStack service. *)
Definition openstack_link : dict pyval :=
  json_object
    [ ("id", PStr "eth0"); ("ethernet_mac_address", PStr "aa:bb:cc:dd:ee:01") ].

(** The builder of the OpenStack service on the reference runtime. *)
Definition http_builder (links networks : list (dict pyval))
    : httpservice._NetworkDetailsBuilder :=
  httpservice.__init__ (RT := reference_runtime) 0%nat sample_adapters
    {| httpservice.nd_links := Some links;
       httpservice.nd_networks := Some networks |}.

(** A snapshot as the plugin reads it: the links [l1], [l2] and [l3], each
    a physical one with the network of its number, an IPv4 one; the adapter
    of [l2] is [mac2]. *)
Definition plugin_link (link_id mac : string) : obj :=
  Tuple_ {| nt_typename := "Link";
            nt_items :=
              [ ("id", PStr link_id); ("name", PStr link_id);
                ("type", PStr "phy"); ("mac_address", PStr mac);
                ("mtu", PNone); ("bond_links", PNone); ("bond_mode", PNone);
                ("vlan_id", PNone); ("vlan_link", PNone) ] |}.

Definition plugin_network (network_id address link_id : string) : obj :=
  Tuple_ {| nt_typename := "Network";
            nt_items :=
              [ ("id", PStr network_id); ("ip_address", PStr address);
                ("version", PInt 4); ("netmask", PStr "255.255.255.0");
                ("gateway", PStr "10.0.0.1");
                ("broadcast", PStr "10.0.0.255");
                ("dns_nameservers", PList []);
                ("assigned_to", PStr link_id) ] |}.

Definition three_links (mac2 : string) : NetworkDetails.t :=
  {| NetworkDetails._assigned_to :=
       [ (KStr "l1", List_ [PStr "n1"]); (KStr "l2", List_ [PStr "n2"]);
         (KStr "l3", List_ [PStr "n3"]) ];
     NetworkDetails._links :=
       [ (KStr "l1", plugin_link "l1" "aa:01");
         (KStr "l2", plugin_link "l2" mac2);
         (KStr "l3", plugin_link "l3" "aa:03") ];
     NetworkDetails._networks :=
       [ (KStr "n1", plugin_network "n1" "10.0.0.7" "l1");
         (KStr "n2", plugin_network "n2" "10.0.0.8" "l2");
         (KStr "n3", plugin_network "n3" "10.0.0.9" "l3") ] |}.

(** A snapshot with a physical link, whose network asks for a reboot, and
    a bond.  *)
Definition phy_and_bond : NetworkDetails.t :=
  {| NetworkDetails._assigned_to := [ (KStr "l1", List_ [PStr "n1"]) ];
     NetworkDetails._links :=
       [ (KStr "l1", plugin_link "l1" "aa:01");
         (KStr "b0",
          Tuple_ {| nt_typename := "Link";
                    nt_items :=
                      [ ("id", PStr "b0"); ("name", PStr "bond0");
                        ("type", PStr "bond"); ("mac_address", PStr "aa:0b");
                        ("mtu", PNone); ("bond_links", PList [PStr "l1"]);
                        ("bond_mode", PNone); ("vlan_id", PNone);
                        ("vlan_link", PNone) ] |}) ];
     NetworkDetails._networks :=
       [ (KStr "n1", plugin_network "n1" "10.0.0.5" "l1") ] |}.

(** The plugin before it has logged anything, on the reference host. *)
Definition fresh_plugin : networkconfig.plugin_state (OS := reference_os) :=
  {| networkconfig.host := 0%nat; networkconfig.logged := [] |}.

(* ================================================================= *)
(** ** Vocabulary of the statements *)

(** The networks, among those built, that are assigned to the link
    [link_id], and their ids in the order they were built. *)
Definition is_assigned (link_id : key) (network : namedtuple) : bool :=
  match key_of (field network ASSIGNED_TO) with
  | Some k => key_eqb link_id k
  | None => false
  end.

Definition assigned (link_id : key) (built : list namedtuple) : list pyval :=
  map (fun network => field network ID) (filter (is_assigned link_id) built).

(** The entry of a dictionary of lists that holds [l]: none for the empty
    list. *)
Definition bucket (l : list pyval) : option (list pyval) :=
  match l with
  | [] => None
  | _ => Some l
  end.

(** The key of the id of a network. *)
Definition id_key (network : namedtuple) : option key :=
  key_of (field network ID).

(** The network stored under a key: the last one built with that id. *)
Fixpoint stored (k : key) (built : list namedtuple) : option namedtuple :=
  match built with
  | [] => None
  | network :: rest =>
      match stored k rest with
      | Some later => Some later
      | None =>
          match id_key network with
          | Some k' => if key_eqb k k' then Some network else None
          | None => None
          end
      end
  end.

Definition or_nil (o : option (list pyval)) : list pyval :=
  match o with
  | Some l => l
  | None => []
  end.

(** The first statements of the body of the loop of [execute]: the link
    is fetched and configured. *)
Definition configure_link `{OS : networkconfig.OSUtils}
    (details : NetworkDetails.t) (link_id : pyval)
    : M networkconfig.plugin_state bool :=
  (link <- lift (NetworkDetails.get_link details link_id) ;;
   networkconfig._configure_interface details link)%py.


Definition rebooting (o : option bool) : bool :=
  match o with Some true => true | _ => false end.

Definition succeeded (o : option bool) : bool :=
  match o with Some _ => true | None => false end.

(** The records of the failure of a link, and of no link configured. *)
Definition is_failure (entry : networkconfig.level * string) : bool :=
  match entry with
  | (networkconfig.ERROR, msg) =>
      String.eqb msg "Failed to configure the interface %r: %s"
  | _ => false
  end.

Definition is_no_adapters (entry : networkconfig.level * string) : bool :=
  match entry with
  | (networkconfig.ERROR, msg) => String.eqb msg "No adapters were configured"
  | _ => false
  end.

Definition count (p : networkconfig.level * string -> bool)
    (log : list (networkconfig.level * string)) : nat :=
  List.length (filter p log).

(** A computation of the plugin that adds nothing to the log but records of
    level [DEBUG]. *)
Definition quiet `{OS : networkconfig.OSUtils} {A}
    (c : M networkconfig.plugin_state A) : Prop :=
  forall s r s',
    c s = (r, s') ->
    exists extra,
      networkconfig.logged s' = networkconfig.logged s ++ extra
      /\ Forall (fun entry => fst entry = networkconfig.DEBUG) extra.

(** The text that [_digest_interface] hands to [ip_interface] for an
    address that is a string. *)
Definition interface_text `{RT : Runtime} (ip_address : string)
    (netmask : pyval) : string :=
  if truthy netmask then (ip_address ++ "/" ++ py_str netmask)%string
  else ip_address.

(** The text denotes the address [a] with the prefix length [p] in the
    family [v]: an address alone, with the whole length, or an address and
    a prefix or mask after one ["/"]. *)
Definition denotes (v : ipaddress.family) (text : string) (a p : Z) : Prop :=
  match ipaddress.split "/" text with
  | [addr] =>
      ipaddress._ip_int_from_string v addr = Some a
      /\ p = ipaddress._max_prefixlen v
  | [addr; mask] =>
      ipaddress._ip_int_from_string v addr = Some a
      /\ ipaddress._make_netmask v mask = Some p
  | _ => False
  end.

(** The netmask of a prefix length and the last address of the network of
    an address, as numbers. *)
Definition host_bits (v : ipaddress.family) (p : Z) : Z :=
  (ipaddress._max_prefixlen v - p)%Z.

Definition netmask_of (v : ipaddress.family) (p : Z) : Z :=
  (2 ^ ipaddress._max_prefixlen v - 2 ^ host_bits v p)%Z.

Definition broadcast_of (v : ipaddress.family) (a p : Z) : Z :=
  (a - a mod 2 ^ host_bits v p + 2 ^ host_bits v p - 1)%Z.

(** Induction on keys, with the hypothesis on the items of a tuple. *)
Section KeyInduction.
Variable P : key -> Prop.
Hypothesis HNone : P KNone.
Hypothesis HInt : forall z, P (KInt z).
Hypothesis HStr : forall s, P (KStr s).
Hypothesis HTuple : forall ks, Forall P ks -> P (KTuple ks).

Fixpoint key_nested_ind (k : key) : P k :=
  match k with
  | KNone => HNone
  | KInt z => HInt z
  | KStr s => HStr s
  | KTuple ks =>
      HTuple ks
        ((fix go (l : list key) : Forall P l :=
            match l with
            | [] => Forall_nil P
            | x :: l' => Forall_cons x (key_nested_ind x) (go l')
            end) ks)
  end.
End KeyInduction.

(** A computation of the builder of the OpenStack service that leaves
    [self._networks] as it is. *)
Definition keeps_networks `{RT : Runtime} {A}
    (c : M httpservice._NetworkDetailsBuilder A) : Prop :=
  forall self r self', c self = (r, self') -> _networks self' = _networks self.

(* ================================================================= *)
(** ** More sample documents and vocabulary *)

(** A raw network that is complete and has a key more. *)
Definition leftover_record : dict pyval :=
  json_object
    [ ("id", PStr "n1"); ("ip_address", PStr "10.0.0.5"); ("version", PInt 4);
      ("netmask", PStr "255.255.255.0"); ("gateway", PStr "10.0.0.1");
      ("broadcast", PStr "10.0.0.255"); ("dns_nameservers", PList []);
      ("assigned_to", PStr "l1"); ("leftover", PInt 1) ].

(** [raw_data.get(name, default)] and [name in raw_data] *)
Definition get_or (name : string) (raw_data : dict pyval) (default : pyval)
    : pyval :=
  match dict_get (KStr name) raw_data with
  | Some x => x
  | None => default
  end.

Definition has (name : string) (raw_data : dict pyval) : bool :=
  dict_mem (KStr name) raw_data.

(** The number of ids that the buckets of a mapping of references hold. *)
Definition total (references : dict (list pyval)) : nat :=
  List.length (List.concat (map snd references)).

(** The raw links of a document: none when it has no entry ["links"]. *)
Definition links_of (network_data : httpservice.network_data_t)
    : list (dict pyval) :=
  match httpservice.nd_links network_data with
  | Some raw_links => raw_links
  | None => []
  end.

(** A raw link of the OpenStack service has a name and a MAC address, each
    under the name of the field or its alias; a raw network has the five
    keys that its fields require. *)
Definition openstack_link_resolves (raw_link : dict pyval) : bool :=
  (has NAME raw_link || has httpservice._NAME raw_link)
  && (has MAC_ADDRESS raw_link || has httpservice._MAC_ADDRESS raw_link).

Definition openstack_network_resolves (raw_network : dict pyval) : bool :=
  has IP_ADDRESS raw_network
  && (has VERSION raw_network || has httpservice._VERSION raw_network)
  && has NETMASK raw_network && has GATEWAY raw_network
  && (has ASSIGNED_TO raw_network || has httpservice._ASSIGNED_TO raw_network).

(** A snapshot with the physical link ["l1"] and no list of networks for
    it, and a snapshot with a bond alone. *)
Definition link_without_bucket : NetworkDetails.t :=
  {| NetworkDetails._assigned_to := [];
     NetworkDetails._links := [ (KStr "l1", plugin_link "l1" "aa:01") ];
     NetworkDetails._networks := [] |}.

Definition bond_alone : NetworkDetails.t :=
  {| NetworkDetails._assigned_to := [];
     NetworkDetails._links :=
       [ (KStr "b0",
          Tuple_ {| nt_typename := "Link";
                    nt_items :=
                      [ ("id", PStr "b0"); ("name", PStr "bond0");
                        ("type", PStr "bond"); ("mac_address", PStr "aa:0b");
                        ("mtu", PNone); ("bond_links", PList [PStr "l1"]);
                        ("bond_mode", PNone); ("vlan_id", PNone);
                        ("vlan_link", PNone) ] |}) ];
     NetworkDetails._networks := [] |}.

(** A server that has the network document alone, and counts the
    requests; a decoder that knows that document. *)
Definition reference_urlopen (url : string) (data : option string)
    (requests : nat) : HttpService.outcome string * nat :=
  if String.eqb url
       "http://169.254.169.254/openstack/latest/metadata/network_data.json"
  then (HttpService.Returns "{'links': [], 'networks': []}", S requests)
  else (HttpService.Raises (HttpService.HTTPError 404), S requests).

Definition reference_json_loads (text : string) : option pyval :=
  if String.eqb text "{'links': [], 'networks': []}"
  then Some (PDict (json_object [("links", PList []); ("networks", PList [])]))
  else None.

#[export] Instance reference_http : HttpService.Http := {|
  HttpService.net := nat;
  HttpService.urlopen := reference_urlopen;
  HttpService.metadata_base_url := "http://169.254.169.254/";
  HttpService.json_loads := reference_json_loads
|}.

(** Builders that are the documents they were made of, and that all give
    the same details; a superclass that has no builder. *)
Definition sample_details_of (builder : pyval) : res NetworkDetails.t * pyval :=
  (Ok (three_links "aa:02"), builder).

Definition no_super
    (self : HttpService.t (HTTP := reference_http) (B := pyval))
    : HttpService.outcome unit
      * HttpService.t (HTTP := reference_http) (B := pyval) :=
  (HttpService.Returns tt, self).

Definition fresh_service
    : HttpService.t (HTTP := reference_http) (B := pyval) :=
  {| HttpService._network_details_builder := None;
     HttpService._net := 0%nat |}.

Definition service_with_builder
    : HttpService.t (HTTP := reference_http) (B := pyval) :=
  {| HttpService._network_details_builder := Some (PStr "builder");
     HttpService._net := 7%nat |}.

(** A server that answers every request with a page that is no
    document. *)
Definition html_urlopen (url : string) (data : option string)
    (requests : nat) : HttpService.outcome string * nat :=
  (HttpService.Returns "<html>", S requests).

Definition html_http : HttpService.Http := {|
  HttpService.net := nat;
  HttpService.urlopen := html_urlopen;
  HttpService.metadata_base_url := "http://169.254.169.254/";
  HttpService.json_loads := reference_json_loads
|}.

Definition html_service : HttpService.t (HTTP := html_http) (B := pyval) :=
  @HttpService.Build_t html_http pyval None 0%nat.

Definition html_no_super
    (self : HttpService.t (HTTP := html_http) (B := pyval))
    : HttpService.outcome unit
      * HttpService.t (HTTP := html_http) (B := pyval) :=
  (HttpService.Returns tt, self).

(** The builders of the OpenStack service that there can be for a
    document: the one that [__init__] makes, and what a call of [_digest]
    or of [get_network_details] leaves of such a builder, however the call
    ends. *)
Inductive openstack_builder `{RT : Runtime} (w0 : world)
    (network_adapters : list (string * string))
    (network_data : httpservice.network_data_t)
    : httpservice._NetworkDetailsBuilder -> Prop :=
| builder_made :
    openstack_builder w0 network_adapters network_data
      (httpservice.__init__ w0 network_adapters network_data)
| builder_digested : forall self r self',
    openstack_builder w0 network_adapters network_data self ->
    httpservice._digest self = (r, self') ->
    openstack_builder w0 network_adapters network_data self'
| builder_asked : forall self r self',
    openstack_builder w0 network_adapters network_data self ->
    httpservice.get_network_details self = (r, self') ->
    openstack_builder w0 network_adapters network_data self'.

(** A snapshot with a bond and then a physical link whose adapter the
    host fails on. *)
Definition bond_then_bad : NetworkDetails.t :=
  {| NetworkDetails._assigned_to := [ (KStr "l2", List_ [PStr "n2"]) ];
     NetworkDetails._links :=
       [ (KStr "b0",
          Tuple_ {| nt_typename := "Link";
                    nt_items :=
                      [ ("id", PStr "b0"); ("name", PStr "bond0");
                        ("type", PStr "bond"); ("mac_address", PStr "aa:0b");
                        ("mtu", PNone); ("bond_links", PList [PStr "l2"]);
                        ("bond_mode", PNone); ("vlan_id", PNone);
                        ("vlan_link", PNone) ] |});
         (KStr "l2", plugin_link "l2" "bad") ];
     NetworkDetails._networks :=
       [ (KStr "n2", plugin_network "n2" "10.0.0.8" "l2") ] |}.

(** The state of the plugin once the handler of [execute] has logged the
    failure of a link, and once [execute] has logged that no adapter was
    configured. *)
Definition failure_logged `{OS : networkconfig.OSUtils}
    (s : networkconfig.plugin_state) : networkconfig.plugin_state :=
  {| networkconfig.host := networkconfig.host s;
     networkconfig.logged :=
       networkconfig.logged s
       ++ [ (networkconfig.EXCEPTION, "exc");
            (networkconfig.ERROR,
             "Failed to configure the interface %r: %s") ] |}.

Definition no_adapters_logged `{OS : networkconfig.OSUtils}
    (s : networkconfig.plugin_state) : networkconfig.plugin_state :=
  {| networkconfig.host := networkconfig.host s;
     networkconfig.logged :=
       networkconfig.logged s
       ++ [ (networkconfig.ERROR, "No adapters were configured") ] |}.

(** The course of the loop of [execute] over the links [link_ids] from
    the state [s]: each link is configured in the state that the links
    before it have left.  A link that is configured has the outcome
    [Some r], [r] being the answer of the host; a link whose configuration
    raises [NetworkDetailsError] has the outcome [None], its failure is
    logged and the loop goes on with the next link; a link whose
    configuration raises another exception [e] ends the course, which then
    stops with [Some e] in the state that the configuration left.  The
    course that reaches the end of the links stops with [None]. *)
Inductive visited `{OS : networkconfig.OSUtils} (details : NetworkDetails.t)
    : list pyval -> networkconfig.plugin_state -> list (option bool)
      -> option exn -> networkconfig.plugin_state -> Prop :=
| visited_all : forall s, visited details [] s [] None s
| visited_configured : forall link_id rest s r s1 outcomes stop s2,
    configure_link details link_id s = (Ok r, s1) ->
    visited details rest s1 outcomes stop s2 ->
    visited details (link_id :: rest) s (Some r :: outcomes) stop s2
| visited_failed : forall link_id rest s s1 outcomes stop s2,
    configure_link details link_id s = (Raise NetworkDetailsError, s1) ->
    visited details rest (failure_logged s1) outcomes stop s2 ->
    visited details (link_id :: rest) s (None :: outcomes) stop s2
| visited_raised : forall link_id rest s e s1,
    configure_link details link_id s = (Raise e, s1) ->
    is_NetworkDetailsError e = false ->
    visited details (link_id :: rest) s [] (Some e) s1.

(* ================================================================= *)
(** * Properties *)

(** ** Keys and dictionaries *)


Lemma key_eqb_eq : forall a b, key_eqb a b = true <-> a = b.
Proof.
  induction a as [ | z | s | ks IH] using key_nested_ind;
    destruct b as [ | z' | s' | ks']; simpl;
    try (split; [discriminate | discriminate]); try tauto.
  - rewrite Z.eqb_eq. split; congruence.
  - rewrite String.eqb_eq. split; congruence.
  - revert ks'. induction IH as [ | k ks Hk _ IHks]; intros [ | k' ks'];
      try (split; [discriminate | discriminate]); try tauto.
    rewrite andb_true_iff, Hk, IHks. split.
    + intros [-> H]. congruence.
    + intros H. injection H as -> ->. auto.
Qed.

Lemma key_eqb_refl : forall k, key_eqb k k = true.
Proof. intros k. now apply key_eqb_eq. Qed.

Lemma key_eqb_neq : forall a b, a <> b -> key_eqb a b = false.
Proof.
  intros a b H. destruct (key_eqb a b) eqn:E; [ | reflexivity].
  apply key_eqb_eq in E. contradiction.
Qed.

Lemma key_eq_dec : forall a b : key, {a = b} + {a <> b}.
Proof.
  intros a b. destruct (key_eqb a b) eqn:E.
  - left. now apply key_eqb_eq.
  - right. intros ->. now rewrite key_eqb_refl in E.
Qed.

Section DictFacts.
Context {V : Type}.
Implicit Types (d : dict V) (k : key) (v : V).

Lemma dict_get_set_eq : forall d k v, dict_get k (dict_set k v d) = Some v.
Proof.
  induction d as [ | [k' v'] d IH]; intros k v; simpl.
  - now rewrite key_eqb_refl.
  - destruct (key_eqb k k') eqn:E; simpl; rewrite E; auto.
Qed.

Lemma dict_get_set_neq : forall d k k' v,
  k <> k' -> dict_get k (dict_set k' v d) = dict_get k d.
Proof.
  induction d as [ | [k0 v0] d IH]; intros k k' v Hne; simpl.
  - now rewrite (key_eqb_neq k k').
  - destruct (key_eqb k' k0) eqn:E; simpl.
    + apply key_eqb_eq in E. subst k0. now rewrite (key_eqb_neq k k').
    + destruct (key_eqb k k0); auto.
Qed.

Lemma dict_get_set : forall d k k' v,
  dict_get k (dict_set k' v d)
  = if key_eqb k k' then Some v else dict_get k d.
Proof.
  intros d k k' v. destruct (key_eqb k k') eqn:E.
  - apply key_eqb_eq in E. subst. apply dict_get_set_eq.
  - apply dict_get_set_neq. intros ->. now rewrite key_eqb_refl in E.
Qed.

Lemma dict_get_In : forall d k v, dict_get k d = Some v -> In (k, v) d.
Proof.
  induction d as [ | [k' v'] d IH]; intros k v; simpl; [discriminate | ].
  destruct (key_eqb k k') eqn:E.
  - apply key_eqb_eq in E. intros [= ->]. subst. now left.
  - intros H. right. auto.
Qed.

Lemma dict_get_keys : forall d k,
  dict_get k d <> None <-> In k (dict_keys d).
Proof.
  induction d as [ | [k' v'] d IH]; intros k; simpl; [tauto | ].
  destruct (key_eqb k k') eqn:E.
  - apply key_eqb_eq in E. subst. split; [auto | discriminate].
  - rewrite IH. split; [auto | ]. intros [-> | H]; [ | exact H].
    now rewrite key_eqb_refl in E.
Qed.
End DictFacts.

(** Mapping the values of a dictionary keeps its keys. *)
Lemma dict_get_map : forall (A B : Type) (f : A -> B) (d : dict A) k,
  dict_get k (map (fun kv => (fst kv, f (snd kv))) d)
  = option_map f (dict_get k d).
Proof.
  induction d as [ | [k' v] d IH]; intros k; simpl; [reflexivity | ].
  destruct (key_eqb k k'); auto.
Qed.

(** ** The field resolver *)

Section Resolver.
Context `{RT : Runtime}.

Lemma find_alias_None : forall names raw_data,
  find_alias names raw_data = None <->
  (forall a, In a names -> dict_mem (KStr a) raw_data = false).
Proof.
  unfold dict_mem. induction names as [ | a names IH]; intros raw; simpl.
  - split; [intros _ a [] | reflexivity].
  - destruct (dict_get (KStr a) raw) eqn:E.
    + split; [discriminate | ]. intros H.
      specialize (H a (or_introl eq_refl)). now rewrite E in H.
    + rewrite IH. split.
      * intros H b [<- | Hb]; [now rewrite E | auto].
      * intros H b Hb. auto.
Qed.

(** [_get_field] raises nothing but [NetworkDetailsError], and then it
    has called no producer. *)
Lemma _get_field_raises : forall f raw_data w e w',
  _get_field f raw_data w = (Raise e, w') ->
  e = NetworkDetailsError /\ w' = w.
Proof.
  unfold _get_field. intros f raw w e w'.
  destruct (find_alias (aliases f) raw); [discriminate | ].
  destruct (required f); simpl.
  - intros [= <- <-]. auto.
  - destruct (default f) as [x | p]; [discriminate | ].
    destruct (p w). discriminate.
Qed.


(** A producer is called once for each resolution of its absent field. *)
Lemma _get_field_producer : forall f p raw_data w,
  default f = Producer p ->
  required f = false ->
  find_alias (aliases f) raw_data = None ->
  _get_field f raw_data w = (Ok (name f, fst (p w)), snd (p w)).
Proof.
  unfold _get_field. intros f p raw w Hdef Hreq Habs.
  rewrite Habs, Hreq, Hdef. simpl. now destruct (p w).
Qed.


(** A string is equal to no tuple. *)
Lemma find_adapter_None : forall (adapters : list (string * string)) l,
  find (fun adapter => py_eq (PStr (fst adapter)) (PTuple l)) adapters
  = None.
Proof.
  induction adapters as [ | a adapters IH]; intros l; [reflexivity | ].
  cbn. exact (IH l).
Qed.

(** [_on_mac_not_found] answers [False] whatever the adapters are, and
    writes nothing. *)
Lemma _on_mac_not_found_False :
  forall link_name network_adapters raw_data output w,
    fst (_on_mac_not_found link_name network_adapters raw_data output w)
    = (false, output).
Proof.
  intros link_name adapters raw output w. unfold _on_mac_not_found.
  destruct (_get_field link_name raw w) as [[[n x] | e] w1]; [ | reflexivity].
  now rewrite find_adapter_None.
Qed.
End Resolver.



(** C5.  The host has an adapter called ["eth0"], and the raw link names
    ["eth0"] and has no MAC address: [_on_mac_not_found] answers [False]
    and writes no MAC address, and [_get_fields] drops the record.  (The
    name is compared as the pair that [_get_field] returned.) *)
Theorem C5_mac_recovery_never_matches :
  _on_mac_not_found base_link_name sample_adapters link_without_mac
      [(KStr NAME, PStr "eth0")] (0%nat : world)
    = ((false, [(KStr NAME, PStr "eth0")]), 0%nat)
  /\ fst (_get_fields (values (link_fields base_link_name sample_adapters))
            link_without_mac (0%nat : world)) = Ok None.
Proof. split; reflexivity. Qed.

(** C9.  A field that is not required and whose default is a producer:
    each resolution of the field, when the raw record has it under no name,
    calls the producer on the state of that moment and leaves the state the
    producer returns.  So two raw link records that lack an id and resolve
    one after the other get their ids from two calls of the generator, the
    second on the state the first left; the ids differ as soon as two
    successive outputs of the generator do. *)
Theorem C9_producer_default_invoked_per_call :
  forall (RT : Runtime) (network_adapters : list (string * string))
         (raw1 raw2 d1 d2 : dict pyval) (w w1 w2 : world),
    dict_mem (KStr ID) raw1 = false ->
    dict_mem (KStr ID) raw2 = false ->
    fst (uuid1 (snd (uuid1 w))) <> fst (uuid1 w) ->
    _get_fields (values (link_fields base_link_name network_adapters)) raw1 w
      = (Ok (Some d1), w1) ->
    _get_fields (values (link_fields base_link_name network_adapters)) raw2 w1
      = (Ok (Some d2), w2) ->
    (forall (f : _Field) (p : world -> pyval * world) raw_data w0,
        default f = Producer p ->
        required f = false ->
        (forall a, In a (aliases f) -> dict_mem (KStr a) raw_data = false) ->
        _get_field f raw_data w0 = (Ok (name f, fst (p w0)), snd (p w0)))
    /\ dict_get (KStr ID) d1 = Some (PStr (fst (uuid1 w)))
    /\ dict_get (KStr ID) d2 = Some (PStr (fst (uuid1 w1)))
    /\ w1 = snd (uuid1 w)
    /\ dict_get (KStr ID) d1 <> dict_get (KStr ID) d2.
Proof.
  intros RT adapters raw1 raw2 d1 d2 w w1 w2 H1 H2 Hfresh E1 E2.
  assert (G : forall raw d u u',
             dict_mem (KStr ID) raw = false ->
             _get_fields (values (link_fields base_link_name adapters)) raw u
               = (Ok (Some d), u') ->
             dict_get (KStr ID) d = Some (PStr (fst (uuid1 u)))
             /\ u' = snd (uuid1 u)).
  { clear. intros raw d u u' Hid. unfold dict_mem in Hid.
    unfold _get_fields, values, link_fields. cbn -[dict_get uuid1].
    unfold _get_field at 1. cbn -[dict_get uuid1].
    destruct (dict_get (KStr ID) raw); [discriminate | ].
    destruct (uuid1 u) as [s u1]. cbn -[dict_get].
    unfold _get_field; cbn -[dict_get].
    repeat match goal with
           | |- context [dict_get ?k raw] =>
               destruct (dict_get k raw); cbn -[dict_get]
           end;
      intros E; cbv [ret] in E; try discriminate E;
      try (injection E as <- <-; split; reflexivity).
    all: match type of E with
         | context [_on_mac_not_found ?n ?a ?r ?o ?x] =>
             pose proof (_on_mac_not_found_False n a r o x) as F;
             destruct (_on_mac_not_found n a r o x) as [[go_on o'] x'];
             injection F as -> ->; discriminate E
         end. }
  destruct (G _ _ _ _ H1 E1) as [I1 ->].
  destruct (G _ _ _ _ H2 E2) as [I2 _].
  split; [ | repeat split; auto; rewrite I1, I2; congruence].
  intros f p raw w0 Hdef Hreq Habs.
  apply _get_field_producer; auto. now apply find_alias_None.
Qed.

Lemma C9_witness :
  dict_get (KStr ID) (resolved_link link_a 0) = Some (PStr "uuid-0")
  /\ dict_get (KStr ID) (resolved_link link_b 1) = Some (PStr "uuid-1")
  /\ dict_get (KStr ID) (resolved_link link_a 0)
     <> dict_get (KStr ID) (resolved_link link_b 1).
Proof.
  assert (Hfresh : fst (uuid1 (snd (uuid1 (0%nat : world))))
                   <> fst (uuid1 (0%nat : world)))
    by (vm_compute; discriminate).
  destruct (C9_producer_default_invoked_per_call reference_runtime
              sample_adapters link_a link_b
              (resolved_link link_a 0) (resolved_link link_b 1)
              0%nat 1%nat 2%nat eq_refl eq_refl Hfresh eq_refl eq_refl)
    as (_ & I1 & I2 & _ & I3).
  split; [exact I1 | split; [exact I2 | exact I3]].
Defined.

(** ** The builder *)

Ltac run := unfold bind, lift, gets, modify, raise, ret, try_except.

Section BuilderFacts.
Context `{RT : Runtime}.

(** The snapshot holds the three digested mappings, each under the
    attribute of [__init__]'s parameter of the same position. *)
Lemma get_network_details_snapshot :
  forall X (_digest : M (NetworkDetailsBuilder X) unit) self snapshot self',
    get_network_details _digest self = (Ok snapshot, self') ->
    exists links networks references,
      snapshot = {| NetworkDetails._assigned_to := tuples links;
                    NetworkDetails._links := tuples networks;
                    NetworkDetails._networks := lists references |}.
Proof.
  intros X dg self snapshot self'. unfold get_network_details. run.
  destruct (negb (truthy (_links self)) || negb (truthy (_networks self))).
  - destruct (dg self) as [[[] | e] s1]; [ | discriminate].
    destruct (_digest_links s1) as [[links | e] s2]; [ | discriminate].
    destruct (_digest_networks s2) as [[networks references] | e];
      [ | discriminate].
    intros [= <- <-]. now exists links, networks, references.
  - destruct (_digest_links self) as [[links | e] s2]; [ | discriminate].
    destruct (_digest_networks s2) as [[networks references] | e];
      [ | discriminate].
    intros [= <- <-]. now exists links, networks, references.
Qed.

(** [_digest] runs exactly when one of the raw buffers is false. *)
Lemma get_network_details_lazy :
  forall X (_digest : M (NetworkDetailsBuilder X) unit) self,
    truthy (_links self) = true ->
    truthy (_networks self) = true ->
    get_network_details _digest self = get_network_details (ret tt) self.
Proof.
  intros X dg self Hl Hn. unfold get_network_details. run.
  now rewrite Hl, Hn.
Qed.

Lemma get_network_details_digests :
  forall X (_digest : M (NetworkDetailsBuilder X) unit) self,
    truthy (_links self) = false \/ truthy (_networks self) = false ->
    get_network_details _digest self
    = match _digest self with
      | (Ok _, self') =>
          (links <- _digest_links ;;
           nr <- (fun self => (_digest_networks self, self)) ;;
           ret (NetworkDetails.__init__ (tuples links) (tuples (fst nr))
                                        (lists (snd nr))))%py self'
      | (Raise e, self') => (Raise e, self')
      end.
Proof.
  intros X dg self H. unfold get_network_details. run.
  assert (E : negb (truthy (_links self)) || negb (truthy (_networks self))
              = true).
  { destruct H as [-> | ->]; [reflexivity | apply orb_true_r]. }
  rewrite E. destruct (dg self) as [[[] | e] s1]; reflexivity.
Qed.

(** What [_digest_interface] returns has the four derived keys. *)
Lemma _digest_interface_keys : forall ip_address netmask derived,
  _digest_interface ip_address netmask = Ok derived ->
  exists a b c d,
    derived = [ (KStr BROADCAST, a); (KStr NETMASK, b);
                (KStr IP_ADDRESS, c); (KStr VERSION, d) ].
Proof.
  unfold _digest_interface. intros ip nm derived.
  destruct (ip_interface _) as [i | e]; [ | discriminate].
  intros [= <-]. eauto.
Qed.

Lemma string_keys_In : forall (d : dict pyval) kw s,
  string_keys d = Some kw ->
  dict_mem (KStr s) d = true ->
  In s (map fst kw).
Proof.
  unfold dict_mem.
  induction d as [ | [k x] d IH]; intros kw s; simpl; [discriminate | ].
  destruct k as [ | z | s' | ks]; try discriminate.
  destruct (string_keys d) as [kw' | ] eqn:E; [ | discriminate].
  intros [= <-]. simpl. destruct (String.eqb s s') eqn:Es.
  - apply String.eqb_eq in Es. auto.
  - intros H. right. eapply IH; eauto.
Qed.

(** A record with a key that is not a field of [Link] makes no [Link]. *)
Lemma _Link_leftover : forall (d : dict pyval) s,
  dict_mem (KStr s) d = true ->
  mem_string s Link_fields = false ->
  _Link (PDict d) = Raise TypeError.
Proof.
  intros d s Hs Hnot. unfold _Link, kwargs.
  destruct (string_keys d) as [kw | ] eqn:E; [ | reflexivity].
  unfold namedtuple_new.
  destruct (forallb (fun n => mem_string n Link_fields) (map fst kw)) eqn:F;
    [ | reflexivity].
  rewrite forallb_forall in F.
  rewrite (F s (string_keys_In d kw s E Hs)) in Hnot. discriminate.
Qed.

Lemma _Network_leftover : forall (d : dict pyval) s,
  dict_mem (KStr s) d = true ->
  mem_string s Network_fields = false ->
  _Network (PDict d) = Raise TypeError.
Proof.
  intros d s Hs Hnot. unfold _Network, kwargs.
  destruct (string_keys d) as [kw | ] eqn:E; [ | reflexivity].
  unfold namedtuple_new.
  destruct (forallb (fun n => mem_string n Network_fields) (map fst kw))
    eqn:F; [ | reflexivity].
  rewrite forallb_forall in F.
  rewrite (F s (string_keys_In d kw s E Hs)) in Hnot. discriminate.
Qed.

(** [_Network] raises nothing but [TypeError]. *)
Lemma _Network_raises : forall raw e, _Network raw = Raise e -> e = TypeError.
Proof.
  intros raw e. unfold _Network, kwargs, namedtuple_new.
  destruct raw; try (intros [= <-]; reflexivity).
  destruct (string_keys d); [ | intros [= <-]; reflexivity].
  destruct (_ && _); [discriminate | intros [= <-]; reflexivity].
Qed.

(** After [raw_link.update(...)] the record has the key ["broadcast"]. *)
Lemma updated_link_has_broadcast : forall (d : dict pyval) a b c v,
  dict_mem (KStr BROADCAST)
    (dict_update d [ (KStr BROADCAST, a); (KStr NETMASK, b);
                     (KStr IP_ADDRESS, c); (KStr VERSION, v) ]) = true.
Proof.
  intros d a b c v. unfold dict_mem, dict_update. simpl.
  rewrite !dict_get_set. reflexivity.
Qed.

(** The first record of the buffer always ends [_digest_links]: with
    [KeyError] when it has no address or netmask, with what
    [ip_interface] raises, or with [NetworkDetailsError] once the derived
    keys are in the record. *)
Lemma _digest_links_from_raises :
  forall X raw_link rest i links (self : NetworkDetailsBuilder X),
  exists e self',
    _digest_links_from (raw_link :: rest) i links self = (Raise e, self').
Proof.
  intros X raw_link rest i links self. simpl.
  destruct raw_link as [ | b | z | s | l | l | d];
    try (run; eauto; fail).
  run. simpl.
  destruct (dict_get (KStr IP_ADDRESS) d) as [ip_address | ]; [ | eauto].
  destruct (dict_get (KStr NETMASK) d) as [netmask | ]; [ | eauto].
  destruct (_digest_interface ip_address netmask) as [derived | e] eqn:E;
    [ | eauto].
  destruct (_digest_interface_keys _ _ _ E) as (a & b & c & v & ->).
  rewrite (_Link_leftover _ BROADCAST (updated_link_has_broadcast d a b c v)
             eq_refl).
  simpl. eauto.
Qed.

(** A buffer of links that is true yields no links. *)
Lemma _digest_links_populated :
  forall X (self : NetworkDetailsBuilder X),
    truthy (_links self) = true ->
    exists e self', _digest_links self = (Raise e, self').
Proof.
  intros X self H. unfold _digest_links. unfold bind at 1.
  destruct (_links self) as [ | b | z | s | l | l | d]; simpl in *;
    try discriminate; try (eauto; fail).
  - destruct s as [ | c s]; [discriminate | ].
    cbn [list_ascii_of_string map]. apply _digest_links_from_raises.
  - destruct l as [ | x l]; [discriminate | ].
    apply _digest_links_from_raises.
  - destruct l as [ | x l]; [discriminate | ].
    apply _digest_links_from_raises.
  - destruct d as [ | [k x] d]; [discriminate | ].
    apply _digest_links_from_raises.
Qed.

(** With both raw buffers true, [get_network_details] gives no
    snapshot. *)
Lemma get_network_details_populated :
  forall X (_digest : M (NetworkDetailsBuilder X) unit) self,
    truthy (_links self) = true ->
    truthy (_networks self) = true ->
    exists e self', get_network_details _digest self = (Raise e, self').
Proof.
  intros X dg self Hl Hn. unfold get_network_details. run.
  rewrite Hl, Hn. simpl.
  destruct (_digest_links_populated X self Hl) as (e & s' & ->). eauto.
Qed.

(** A raw network that makes no [Network] ends [_digest_networks],
    wherever it stands after records that were digested: with
    [NetworkDetailsError], or with [TypeError] when the record is a tuple
    that the message cannot be made of. *)
Lemma _digest_networks_from_malformed :
  forall before raw_network rest e networks references,
    _Network raw_network = Raise e ->
    is_ok (_digest_networks_from before networks references) = true ->
    _digest_networks_from (before ++ raw_network :: rest) networks
      references = Raise (invalid_raw_network raw_network).
Proof.
  induction before as [ | raw before IH];
    intros bad rest e networks references Hbad Hok; simpl in *.
  - rewrite Hbad. now rewrite (_Network_raises _ _ Hbad).
  - destruct (_Network raw) as [network | e']; [ | destruct e'; discriminate].
    destruct (dict_setitem _ _ _) as [networks' | e']; [ | discriminate].
    destruct (key_of _) as [link_id | ]; [ | discriminate].
    eapply IH; eauto.
Qed.
End BuilderFacts.

(** C1.  A builder whose buffer of links is empty and whose buffer of
    networks holds the network ["n1"], assigned to the link ["l1"]: no link
    is digested, yet the snapshot gives the network for [get_link("n1")]
    and ["n1"] among [get_links()]; [get_network("n1")] gives nothing and
    [get_networks("l1")] gives nothing. *)
Theorem C1_get_network_details_swaps_mappings :
  exists snapshot,
    fst (get_network_details (ret tt)
           (builder_with (PList []) (PList [sample_network]))) = Ok snapshot
    /\ fst (_digest_links
              (builder_with (PList []) (PList [sample_network]))) = Ok []
    /\ NetworkDetails.get_link snapshot (PStr "n1")
       = Ok (Some (Tuple_ sample_Network))
    /\ NetworkDetails.get_links snapshot = [PStr "n1"]
    /\ NetworkDetails.get_network snapshot (PStr "n1") = Ok None
    /\ NetworkDetails.get_networks snapshot (PStr "l1") = Ok None.
Proof. eexists. repeat split. Qed.

(** C6.  A raw network with a leftover key ends the digest with
    [NetworkDetailsError]; a raw link with a leftover key ends it with
    [KeyError], raised where [_digest_links] reads the address of the
    link. *)
Theorem C6_malformed_link_raises_KeyError :
  _digest_networks
    (builder_with (PList []) (PList [sample_network; network_with_leftover]))
    = Raise NetworkDetailsError
  /\ fst (_digest_links
            (builder_with (PList [link_with_leftover])
                          (PList [sample_network])))
     = Raise KeyError.
Proof. split; reflexivity. Qed.

(** C8.  With both raw buffers populated [_digest] is not called, and the
    call gives no snapshot: it ends with [NetworkDetailsError]. *)
Theorem C8_populated_buffers_give_no_snapshot :
  fst (get_network_details digest_called
         (builder_with (PList [link_with_address]) (PList [sample_network])))
  = Raise NetworkDetailsError.
Proof. reflexivity. Qed.

(** ** The references of [_digest_networks] *)

Section References.

(** What the loop leaves, from any mappings it starts with. *)
Lemma _digest_networks_from_spec :
  forall raw_networks networks references networks' references',
    _digest_networks_from raw_networks networks references
      = Ok (networks', references') ->
    exists built,
      Forall2 (fun raw network => _Network raw = Ok network)
              raw_networks built
      /\ Forall (fun network => id_key network <> None) built
      /\ (forall k, dict_get k networks'
                    = match stored k built with
                      | Some network => Some network
                      | None => dict_get k networks
                      end)
      /\ (forall k, dict_get k references'
                    = match dict_get k references, assigned k built with
                      | None, [] => None
                      | o, l => Some (or_nil o ++ l)
                      end).
Proof.
  induction raw_networks as [ | raw raw_networks IH];
    intros networks references networks' references'; simpl.
  - intros [= <- <-]. exists []. repeat split; auto.
    intros k. simpl. destruct (dict_get k references); simpl;
      [now rewrite app_nil_r | reflexivity].
  - destruct (_Network raw) as [network | e] eqn:En;
      [ | destruct e; discriminate].
    unfold dict_setitem.
    destruct (key_of (field network ID)) as [ki | ] eqn:Ei; [ | discriminate].
    destruct (key_of (field network ASSIGNED_TO)) as [kl | ] eqn:Ea;
      [ | discriminate].
    intros H. destruct (IH _ _ _ _ H) as (built & F2 & Fh & Hn & Hr).
    exists (network :: built). repeat split.
    + now constructor.
    + constructor; [unfold id_key; congruence | exact Fh].
    + intros k. rewrite Hn. simpl. destruct (stored k built); [reflexivity | ].
      unfold id_key. rewrite Ei, dict_get_set.
      now destruct (key_eqb k ki).
    + intros k. rewrite Hr, dict_get_set.
      assert (E : assigned k (network :: built)
                  = if key_eqb k kl
                    then field network ID :: assigned k built
                    else assigned k built).
      { unfold assigned. simpl. unfold is_assigned at 1. rewrite Ea.
        now destruct (key_eqb k kl). }
      rewrite E. destruct (key_eqb k kl) eqn:Ek; [ | reflexivity].
      apply key_eqb_eq in Ek. subst kl.
      destruct (dict_get k references) as [old | ]; simpl;
        [now rewrite <- app_assoc | reflexivity].
Qed.

Lemma stored_In : forall built network k,
  In network built -> id_key network = Some k -> stored k built <> None.
Proof.
  induction built as [ | n built IH]; intros network k Hin Hk; simpl;
    [destruct Hin | ].
  destruct Hin as [-> | Hin].
  - destruct (stored k built); [discriminate | ].
    rewrite Hk, key_eqb_refl. discriminate.
  - specialize (IH _ _ Hin Hk). destruct (stored k built);
      [discriminate | contradiction].
Qed.

Lemma stored_absent : forall built k,
  ~ In (Some k) (map id_key built) -> stored k built = None.
Proof.
  induction built as [ | n built IH]; intros k Hk; simpl in *; [reflexivity | ].
  rewrite IH by tauto.
  destruct (id_key n) as [k' | ]; [ | reflexivity].
  destruct (key_eqb k k') eqn:E; [ | reflexivity].
  apply key_eqb_eq in E. subst. tauto.
Qed.

Lemma stored_NoDup : forall built network k,
  NoDup (map id_key built) ->
  In network built -> id_key network = Some k ->
  stored k built = Some network.
Proof.
  induction built as [ | n built IH]; intros network k Hnd Hin Hk;
    [destruct Hin | ].
  simpl in *. inversion Hnd as [ | ? ? Hnotin Hnd']; subst.
  destruct Hin as [-> | Hin].
  - rewrite stored_absent by (now rewrite <- Hk).
    now rewrite Hk, key_eqb_refl.
  - now rewrite (IH _ _ Hnd' Hin Hk).
Qed.

Lemma NoDup_map_eq : forall (A B : Type) (f : A -> B) (l : list A) x y,
  NoDup (map f l) -> In x l -> In y l -> f x = f y -> x = y.
Proof.
  induction l as [ | a l IH]; intros x y Hnd Hx Hy Hf; [destruct Hx | ].
  simpl in *. inversion Hnd as [ | ? ? Hnotin Hnd']; subst.
  destruct Hx as [-> | Hx], Hy as [-> | Hy]; auto.
  - exfalso. apply Hnotin. rewrite Hf. now apply in_map.
  - exfalso. apply Hnotin. rewrite <- Hf. now apply in_map.
Qed.

Lemma assigned_In : forall built k i,
  In i (assigned k built) ->
  exists network,
    In network built /\ is_assigned k network = true
    /\ field network ID = i.
Proof.
  unfold assigned. intros built k i H. apply in_map_iff in H.
  destruct H as (n & Hi & Hn). apply filter_In in Hn.
  exists n. tauto.
Qed.
End References.

(** The mappings that the loop of [_digest_networks] leaves from empty
    ones. *)
Lemma _digest_networks_from_references :
  forall (raw_networks : list pyval) (networks : dict namedtuple)
         (references : dict (list pyval)),
    _digest_networks_from raw_networks [] [] = Ok (networks, references) ->
    exists built,
      Forall2 (fun raw network => _Network raw = Ok network)
              raw_networks built
      /\ (forall link_id,
            dict_get link_id references = bucket (assigned link_id built))
      /\ (forall link_id ids i,
            dict_get link_id references = Some ids -> In i ids ->
            exists k, key_of i = Some k /\ dict_mem k networks = true)
      /\ (NoDup (map id_key built) ->
          forall network, In network built ->
            exists k link_id,
              key_of (field network ID) = Some k
              /\ dict_get k networks = Some network
              /\ key_of (field network ASSIGNED_TO) = Some link_id
              /\ forall link_id',
                   In (field network ID) (assigned link_id' built)
                   <-> link_id' = link_id).
Proof.
  intros raws networks references H.
  destruct (_digest_networks_from_spec _ _ _ _ _ H)
    as (built & F2 & Fh & Hn & Hr).
  assert (Hb : forall link_id,
             dict_get link_id references = bucket (assigned link_id built)).
  { intros k. rewrite Hr. simpl. now destruct (assigned k built). }
  exists built. repeat split; auto.
  - intros link_id ids i Hids Hi. rewrite Hb in Hids.
    assert (Hin : In i (assigned link_id built)).
    { destruct (assigned link_id built); [discriminate | ].
      injection Hids as <-. exact Hi. }
    destruct (assigned_In _ _ _ Hin) as (n & Hnb & _ & <-).
    rewrite Forall_forall in Fh. specialize (Fh n Hnb).
    unfold id_key in Fh.
    destruct (key_of (field n ID)) as [k | ] eqn:Ek; [ | contradiction].
    exists k. split; [reflexivity | ].
    unfold dict_mem. rewrite Hn.
    pose proof (stored_In built n k Hnb Ek) as Hs.
    destruct (stored k built); [reflexivity | contradiction].
  - intros Hnd n Hnb.
    rewrite Forall_forall in Fh. pose proof (Fh n Hnb) as Hk.
    unfold id_key in Hk.
    destruct (key_of (field n ID)) as [k | ] eqn:Ek; [ | contradiction].
    assert (Ha : exists link_id, key_of (field n ASSIGNED_TO) = Some link_id).
    { clear - F2 H Hnb. revert networks references H.
      generalize (@nil (key * namedtuple)) (@nil (key * list pyval)).
      induction F2 as [ | raw m raws built Hm F2 IH];
        intros nets refs nets' refs' H; [destruct Hnb | ].
      simpl in H. rewrite Hm in H. unfold dict_setitem in H.
      destruct (key_of (field m ID)); [ | discriminate].
      destruct (key_of (field m ASSIGNED_TO)) as [kl | ] eqn:Ea;
        [ | discriminate].
      destruct Hnb as [<- | Hnb]; [eauto | eapply IH; eauto]. }
    destruct Ha as (link_id & Ea).
    exists k, link_id. repeat split; auto.
    + rewrite Hn. now rewrite (stored_NoDup built n k Hnd Hnb Ek).
    + intros Hin. destruct (assigned_In _ _ _ Hin) as (m & Hmb & Hm & Hid).
      assert (m = n).
      { apply (NoDup_map_eq _ _ id_key built); auto.
        unfold id_key. now rewrite Hid. }
      subst m. unfold is_assigned in Hm. rewrite Ea in Hm.
      now apply key_eqb_eq in Hm.
    + intros ->. unfold assigned. apply in_map_iff. exists n.
      split; [reflexivity | ]. apply filter_In. split; [exact Hnb | ].
      unfold is_assigned. now rewrite Ea, key_eqb_refl.
Qed.

(** C10, amended.  When [_digest_networks] completes, every id in a bucket
    of [references] is a key of [networks]; the bucket of a link holds, in
    the order the raw records were digested, the ids of exactly the networks
    built with that [assigned_to], and a link of no network has no bucket;
    and when the ids of the raw records are pairwise distinct, each network
    is stored under its id and its id is in the bucket of its own
    [assigned_to] and in no other. *)
Theorem C10_references_follow_assigned_to :
  forall (RT : Runtime) (X : Type) (self : NetworkDetailsBuilder X)
         (networks : dict namedtuple) (references : dict (list pyval)),
    _digest_networks self = Ok (networks, references) ->
    exists raw_networks built,
      py_iter (_networks self) = Ok raw_networks
      /\ Forall2 (fun raw network => _Network raw = Ok network)
                 raw_networks built
      /\ (forall link_id,
            dict_get link_id references = bucket (assigned link_id built))
      /\ (forall link_id ids i,
            dict_get link_id references = Some ids -> In i ids ->
            exists k, key_of i = Some k /\ dict_mem k networks = true)
      /\ (NoDup (map id_key built) ->
          forall network, In network built ->
            exists k link_id,
              key_of (field network ID) = Some k
              /\ dict_get k networks = Some network
              /\ key_of (field network ASSIGNED_TO) = Some link_id
              /\ forall link_id',
                   In (field network ID) (assigned link_id' built)
                   <-> link_id' = link_id).
Proof.
  intros RT X self networks references. unfold _digest_networks.
  destruct (py_iter (_networks self)) as [raw_networks | e]; [ | discriminate].
  intros H.
  destruct (_digest_networks_from_references _ _ _ H) as (built & Hbuilt).
  exists raw_networks, built. split; [reflexivity | exact Hbuilt].
Qed.

Lemma C10_witness :
  exists raw_networks built,
    py_iter (_networks (builder_with (PList []) (PList [sample_network])))
      = Ok raw_networks
    /\ Forall2 (fun raw network => _Network raw = Ok network)
               raw_networks built
    /\ dict_get (KStr "l1") sample_references
       = bucket (assigned (KStr "l1") built).
Proof.
  destruct (C10_references_follow_assigned_to reference_runtime unit
              (builder_with (PList []) (PList [sample_network]))
              sample_networks sample_references eq_refl)
    as (raw_networks & built & Hraw & F2 & Hb & _).
  exists raw_networks, built.
  split; [exact Hraw | split; [exact F2 | apply Hb]].
Defined.

(** Two raw networks with the same id, assigned to two links: the id is in
    the bucket of the first link, and the network stored under the id is
    the one assigned to the second. *)
Lemma C10_counterexample :
  exists networks references network,
    _digest_networks
      (builder_with (PList [])
                    (PList [network_n1_on "l1"; network_n1_on "l2"]))
      = Ok (networks, references)
    /\ dict_get (KStr "l1") references = Some [PStr "n1"]
    /\ dict_get (KStr "n1") networks = Some network
    /\ field network ASSIGNED_TO = PStr "l2".
Proof. do 3 eexists. repeat split. Qed.

(** ** The builder of the OpenStack service *)

Section HttpFacts.
Context `{RT : Runtime}.

(** A raw network that resolves ends [_digest_raw_networks]: the call of
    [pop] on [self._invalid_links] raises. *)
Lemma _digest_raw_network_resolved :
  forall (self : httpservice._NetworkDetailsBuilder) raw_network k data self1,
    httpservice.get_fields (values (_network self)) raw_network self
      = (Ok (Some (k :: data)), self1) ->
    exists e self',
      httpservice._digest_raw_network raw_network self = (Raise e, self').
Proof.
  intros self raw k data self1 H.
  unfold httpservice._digest_raw_network,
    httpservice.invalid_links_pop_default.
  run. rewrite H.
  destruct (httpservice._invalid_links (_ext self1)) as [l | ]; [ | eauto].
  destruct (httpservice.item (k :: data) ASSIGNED_TO) as [x | e]; eauto.
Qed.

(** What the link fields of the service resolve has no version. *)
Lemma http_link_without_version :
  forall w0 network_adapters network_data raw_link w data w',
    _get_fields
      (values (_link (httpservice.__init__ w0 network_adapters network_data)))
      raw_link w = (Ok (Some data), w') ->
    httpservice.item data VERSION = Raise KeyError.
Proof.
  intros w0 adapters nd raw w data w'.
  assert (G : forall first u,
             _get_fields_from
               (map snd
                  (tl (_link (httpservice.__init__ w0 adapters nd))))
               raw [(KStr ID, first)] u = (Ok (Some data), w') ->
             httpservice.item data VERSION = Raise KeyError).
  { clear. intros first u. cbn -[dict_get _on_mac_not_found].
    unfold _get_field; cbn -[dict_get _on_mac_not_found].
    repeat match goal with
           | |- context [dict_get ?k raw] =>
               destruct (dict_get k raw); cbn -[dict_get _on_mac_not_found]
           end;
      intros E; cbv [ret] in E; try discriminate E;
      try (injection E as <- <-; reflexivity).
    all: match type of E with
         | context [_on_mac_not_found ?n ?a ?r ?o ?x] =>
             pose proof (_on_mac_not_found_False n a r o x) as F;
             destruct (_on_mac_not_found n a r o x) as [[go_on o'] x'];
             injection F as -> ->; discriminate E
         end. }
  unfold _get_fields, values.
  change (_link (httpservice.__init__ w0 adapters nd))
    with ((ID, {| name := ID; alias := AliasOther; default := new_id;
                  required := false; on_error := None |})
          :: tl (_link (httpservice.__init__ w0 adapters nd))).
  cbn [map snd _get_fields_from]. unfold _get_field at 1.
  cbn -[dict_get uuid1 _get_fields_from httpservice.__init__].
  destruct (dict_get (KStr ID) raw) as [first | ].
  - apply G.
  - destruct (uuid1 w) as [s u1]. apply G.
Qed.

(** A raw link that resolves ends [_digest]: reading its version raises
    [KeyError]. *)
Lemma _digest_raw_link_resolved :
  forall w0 network_adapters network_data
         (self : httpservice._NetworkDetailsBuilder) raw_link k data self1,
    _link self = _link (httpservice.__init__ w0 network_adapters network_data) ->
    httpservice.get_fields (values (_link self)) raw_link self
      = (Ok (Some (k :: data)), self1) ->
    httpservice._digest_raw_link raw_link self = (Raise KeyError, self1).
Proof.
  intros w0 adapters nd self raw k data self1 Hl H.
  unfold httpservice._digest_raw_link. run. rewrite H.
  unfold httpservice.get_fields, zoom in H. rewrite Hl in H.
  destruct (_get_fields _ raw (_world self)) as [r u] eqn:E.
  injection H as -> _.
  now rewrite (http_link_without_version _ _ _ _ _ _ _ E).
Qed.

Lemma keeps_ret : forall A (a : A), keeps_networks (ret a).
Proof. intros A a self r self' [= _ <-]. reflexivity. Qed.

Lemma keeps_raise : forall A e,
  keeps_networks (@raise httpservice._NetworkDetailsBuilder A e).
Proof. intros A e self r self' [= _ <-]. reflexivity. Qed.

Lemma keeps_lift : forall A (x : res A), keeps_networks (lift x).
Proof. intros A x self r self' [= _ <-]. reflexivity. Qed.

Lemma keeps_gets : forall A (f : httpservice._NetworkDetailsBuilder -> A),
  keeps_networks (gets f).
Proof. intros A f self r self' [= _ <-]. reflexivity. Qed.

Lemma keeps_modify : forall f,
  (forall self, _networks (f self) = _networks self) ->
  keeps_networks (modify f).
Proof. intros f Hf self r self' [= _ <-]. apply Hf. Qed.

Lemma keeps_bind :
  forall A B (c : M httpservice._NetworkDetailsBuilder A)
         (k : A -> M httpservice._NetworkDetailsBuilder B),
    keeps_networks c -> (forall a, keeps_networks (k a)) ->
    keeps_networks (bind c k).
Proof.
  intros A B c k Hc Hk self r self'. unfold bind.
  destruct (c self) as [[a | e] s1] eqn:Ec.
  - intros Ek. rewrite (Hk a _ _ _ Ek). eapply Hc; eauto.
  - intros [= _ <-]. eapply Hc; eauto.
Qed.

Lemma keeps_get_fields : forall fields raw_data,
  keeps_networks (httpservice.get_fields fields raw_data).
Proof.
  intros fields raw self r self'. unfold httpservice.get_fields, zoom.
  destruct (_get_fields fields raw (_world self)) as [x u].
  intros [= _ <-]. reflexivity.
Qed.

Lemma keeps_for_each :
  forall A (l : list A) (body : A -> M httpservice._NetworkDetailsBuilder unit),
    (forall x, keeps_networks (body x)) ->
    keeps_networks (httpservice.for_each l body).
Proof.
  intros A l body Hb. induction l as [ | x l IH]; simpl.
  - apply keeps_ret.
  - apply keeps_bind; auto.
Qed.

Ltac keeps_steps :=
  repeat first
    [ apply keeps_ret | apply keeps_raise | apply keeps_lift
    | apply keeps_gets | apply keeps_get_fields
    | apply keeps_modify; intros ?; reflexivity
    | apply keeps_for_each; intros ?
    | apply keeps_bind; [ | intros ? ] ].

Ltac keeps_case :=
  match goal with
  | |- keeps_networks (match ?a with _ => _ end) => destruct a
  end.

Lemma keeps_links_pop : forall k, keeps_networks (httpservice.links_pop k).
Proof.
  intros k. unfold httpservice.links_pop.
  repeat first [progress keeps_steps | keeps_case].
Qed.

Lemma keeps_prune_list : forall reversed,
  keeps_networks (httpservice.prune_list reversed).
Proof.
  induction reversed as [ | x l IH]; cbn [httpservice.prune_list].
  - apply keeps_ret.
  - apply keeps_bind; [apply keeps_modify; reflexivity | intros _].
    apply keeps_bind; [apply keeps_links_pop | intros _; exact IH].
Qed.

(** [_digest] never writes to [self._networks]: the networks of the
    document reach no buffer, and the buffer that [__init__] left empty
    stays empty, so that every call of [get_network_details] calls
    [_digest] again. *)
Lemma _digest_keeps_networks : keeps_networks httpservice._digest.
Proof.
  unfold httpservice._digest.
  repeat first [ apply keeps_prune_list | progress keeps_steps | keeps_case ].
Qed.

Lemma http_buffer_of_networks_stays_empty :
  forall w network_adapters network_data r self',
    httpservice._digest (httpservice.__init__ w network_adapters network_data)
      = (r, self') ->
    truthy (_networks self') = false.
Proof.
  intros w adapters nd r self' H.
  now rewrite (_digest_keeps_networks _ _ _ H).
Qed.

(** A raw record that [_get_fields] rejects is passed over: the loops of
    [_digest] go on with the next one. *)
Lemma _digest_raw_link_rejected :
  forall (self self1 : httpservice._NetworkDetailsBuilder) raw_link,
    httpservice.get_fields (values (_link self)) raw_link self
      = (Ok None, self1) ->
    httpservice._digest_raw_link raw_link self = (Ok tt, self1).
Proof.
  intros self self1 raw H. unfold httpservice._digest_raw_link. run.
  now rewrite H.
Qed.

Lemma _digest_raw_network_rejected :
  forall (self self1 : httpservice._NetworkDetailsBuilder) raw_network,
    httpservice.get_fields (values (_network self)) raw_network self
      = (Ok None, self1) ->
    httpservice._digest_raw_network raw_network self = (Ok tt, self1).
Proof.
  intros self self1 raw H. unfold httpservice._digest_raw_network. run.
  now rewrite H.
Qed.
End HttpFacts.

(** C3.  A document with no link and one network that refers to the link
    ["ghost"]: the network resolves, and [_digest] ends with
    [AttributeError], raised by the call of [pop] on the keys of
    [self._links].  A document with one link that resolves: [_digest] ends
    with [KeyError], raised where it reads the version of the link. *)
Theorem C3_digest_raises_on_resolved_network :
  fst (httpservice._digest (http_builder [] [dangling_network]))
    = Raise AttributeError
  /\ is_ok (fst (httpservice.get_fields
                   (values (_network (http_builder [] [dangling_network])))
                   dangling_network (http_builder [] [dangling_network])))
     = true
  /\ fst (httpservice._digest (http_builder [openstack_link] []))
     = Raise KeyError.
Proof. repeat split. Qed.

(** ** The plugin *)

Section PluginFacts.
Import networkconfig.
Context `{OS : OSUtils}.

Lemma quiet_ret : forall A (a : A), quiet (ret a).
Proof.
  intros A a s r s' [= <- <-]. exists []. now rewrite app_nil_r.
Qed.

Lemma quiet_raise : forall A e, quiet (@raise plugin_state A e).
Proof.
  intros A e s r s' [= <- <-]. exists []. now rewrite app_nil_r.
Qed.

Lemma quiet_lift : forall A (x : res A), quiet (lift x).
Proof.
  intros A x s r s' [= <- <-]. exists []. now rewrite app_nil_r.
Qed.

Lemma quiet_attr : forall o n, quiet (attr o n).
Proof. intros o n. apply quiet_lift. Qed.

Lemma quiet_debug : forall msg, quiet (LOG DEBUG msg).
Proof.
  intros msg s r s' [= <- <-]. exists [(DEBUG, msg)]. simpl. auto.
Qed.

Lemma quiet_os : forall A (call : os_state -> res A * os_state),
  quiet (os call).
Proof.
  intros A call s r s'. unfold os. destruct (call (host s)) as [x h].
  intros [= <- <-]. exists []. simpl. now rewrite app_nil_r.
Qed.

Lemma quiet_bind : forall A B (c : M plugin_state A) (k : A -> M plugin_state B),
  quiet c -> (forall a, quiet (k a)) -> quiet (bind c k).
Proof.
  intros A B c k Hc Hk s r s'. unfold bind.
  destruct (c s) as [[a | e] s1] eqn:Ec.
  - intros Ek. destruct (Hc _ _ _ Ec) as (x1 & E1 & F1).
    destruct (Hk a _ _ _ Ek) as (x2 & E2 & F2).
    exists (x1 ++ x2). rewrite E2, E1, app_assoc. split; [reflexivity | ].
    apply Forall_app; auto.
  - intros [= <- <-]. eapply Hc; eauto.
Qed.

Ltac quiet_steps :=
  repeat first
    [ apply quiet_ret | apply quiet_raise | apply quiet_lift
    | apply quiet_attr | apply quiet_debug | apply quiet_os
    | apply quiet_bind; [ | intros ? ] ].

Lemma quiet_v4 : forall link network,
  quiet (_set_static_network_config_v4 link network).
Proof. intros. unfold _set_static_network_config_v4. quiet_steps. Qed.

Lemma quiet_v6 : forall link network,
  quiet (_set_static_network_config_v6 link network).
Proof. intros. unfold _set_static_network_config_v6. quiet_steps. Qed.

Lemma quiet_phy_from : forall details link network_ids response,
  quiet (_configure_phy_from details link network_ids response).
Proof.
  intros details link ids. induction ids as [ | network_id ids IH];
    intros response; simpl; quiet_steps.
  - destruct (py_eq _ _); [apply quiet_v4 | apply quiet_v6].
  - apply IH.
Qed.

Lemma quiet_configure_interface : forall details link,
  quiet (_configure_interface details link).
Proof.
  intros. unfold _configure_interface. quiet_steps.
  destruct (py_eq _ _); [ | apply quiet_raise].
  unfold _configure_phy. quiet_steps. apply quiet_phy_from.
Qed.

Lemma count_app : forall p l l', count p (l ++ l') = (count p l + count p l')%nat.
Proof.
  intros p l l'. unfold count. now rewrite filter_app, length_app.
Qed.

Lemma count_debug : forall p extra,
  (forall msg, p (DEBUG, msg) = false) ->
  Forall (fun entry => fst entry = DEBUG) extra ->
  count p extra = 0%nat.
Proof.
  intros p extra Hp F. unfold count.
  induction F as [ | [l msg] extra Hl _ IH]; [reflexivity | ].
  simpl in *. subst l. now rewrite Hp.
Qed.

Lemma getattr_raises : forall o n e, getattr o n = Raise e -> e = AttributeError.
Proof.
  intros o n e. unfold getattr. destruct o as [[t | l] | ];
    try (intros [= <-]; reflexivity).
  destruct (assoc n (nt_items t)); [discriminate | intros [= <-]; reflexivity].
Qed.

(** A link whose configuration raised [NetworkDetailsError] has a MAC
    address to log. *)
Lemma failed_link_has_mac : forall details link s s',
  _configure_interface details link s = (Raise NetworkDetailsError, s') ->
  exists mac, getattr link MAC_ADDRESS = Ok mac.
Proof.
  intros details link s s'. unfold _configure_interface, attr. run.
  destruct (getattr link NAME) as [n | e] eqn:En.
  - destruct (getattr link MAC_ADDRESS) as [m | e] eqn:Em; [eauto | ].
    intros [= -> _]. apply getattr_raises in Em. discriminate.
  - intros [= -> _]. apply getattr_raises in En. discriminate.
Qed.


(** An exception that is not [NetworkDetailsError] ends the loop and the
    call. *)
Lemma execute_from_propagates :
  forall details link_id rest reboot_required configured s e s1,
    configure_link details link_id s = (Raise e, s1) ->
    is_NetworkDetailsError e = false ->
    execute_from details (link_id :: rest) reboot_required configured s
    = (Raise e, s1).
Proof.
  intros details link_id rest reboot configured s e s1.
  unfold configure_link. simpl. run.
  destruct (NetworkDetails.get_link details link_id) as [link | e0].
  - destruct (_configure_interface details link s) as [[r | e0] s0];
      [discriminate | ].
    intros [= -> ->] He. now rewrite He.
  - intros [= -> ->] _. reflexivity.
Qed.
(** The loop of [execute] follows the course of the links, whatever the
    links raise. *)
Lemma execute_from_visits :
  forall details link_ids reboot_required configured s,
  exists outcomes stop s1,
    visited details link_ids s outcomes stop s1
    /\ execute_from details link_ids reboot_required configured s
       = match stop with
         | Some e => (Raise e, s1)
         | None =>
             (Ok (reboot_required || existsb rebooting outcomes,
                  configured || existsb succeeded outcomes), s1)
         end
    /\ (stop = None -> List.length outcomes = List.length link_ids)
    /\ count is_failure (logged s1)
       = (count is_failure (logged s)
          + List.length (filter (fun o => negb (succeeded o)) outcomes))%nat
    /\ count is_no_adapters (logged s1) = count is_no_adapters (logged s).
Proof.
  intros details ids. induction ids as [ | link_id ids IH];
    intros reboot configured s.
  - exists [], None, s. simpl. unfold ret. rewrite !orb_false_r.
    repeat split; auto. constructor.
  - simpl. run.
    destruct (NetworkDetails.get_link details link_id) as [link | e] eqn:El.
    2:{ exists [], (Some e), s. simpl. repeat split; auto; try discriminate.
        apply visited_raised.
        - unfold configure_link. run. now rewrite El.
        - unfold NetworkDetails.get_link, dict_lookup in El.
          destruct (key_of link_id); [discriminate | ].
          now injection El as <-. }
    destruct (_configure_interface details link s) as [[r | e] s1] eqn:Ec.
    + destruct (quiet_configure_interface details link _ _ _ Ec)
        as (extra & Elog & Fextra).
      destruct (IH (reboot || r) true s1)
        as (outcomes & stop & s2 & V & Eloop & Hlen & Hfail & Hnone).
      exists (Some r :: outcomes), stop, s2. simpl. rewrite Eloop.
      split; [ | split; [ | split; [ | split]]].
      * eapply visited_configured; [ | exact V].
        unfold configure_link. run. rewrite El. exact Ec.
      * destruct stop; [reflexivity | ].
        rewrite ?orb_true_r, <- ?orb_assoc. now destruct r.
      * intros Hs. now rewrite (Hlen Hs).
      * rewrite Hfail, Elog, count_app.
        rewrite (count_debug is_failure extra) by auto. lia.
      * rewrite Hnone, Elog, count_app.
        rewrite (count_debug is_no_adapters extra) by auto. lia.
    + destruct (is_NetworkDetailsError e) eqn:Ee.
      * destruct e; try discriminate Ee. simpl.
        destruct (quiet_configure_interface details link _ _ _ Ec)
          as (extra & Elog & Fextra).
        destruct (failed_link_has_mac _ _ _ _ Ec) as (mac & Emac).
        unfold LOG, attr. run. rewrite Emac. simpl.
        rewrite <- app_assoc. simpl.
        change {| host := host s1;
                  logged := logged s1
                            ++ [(EXCEPTION, "exc");
                                (ERROR,
                                 "Failed to configure the interface %r: %s")] |}
          with (failure_logged s1).
        destruct (IH reboot configured (failure_logged s1))
          as (outcomes & stop & s2 & V & Eloop & Hlen & Hfail & Hnone).
        exists (None :: outcomes), stop, s2. simpl. rewrite Eloop.
        split; [ | split; [ | split; [ | split]]].
        -- eapply visited_failed; [ | exact V].
           unfold configure_link. run. rewrite El. exact Ec.
        -- reflexivity.
        -- intros Hs. now rewrite (Hlen Hs).
        -- rewrite Hfail. simpl. rewrite Elog, !count_app.
           rewrite (count_debug is_failure extra) by auto.
           unfold count. simpl. lia.
        -- rewrite Hnone. simpl. rewrite Elog, !count_app.
           rewrite (count_debug is_no_adapters extra) by auto.
           unfold count. simpl. lia.
      * destruct (quiet_configure_interface details link _ _ _ Ec)
          as (extra & Elog & Fextra).
        exists [], (Some e), s1. simpl.
        split; [ | split; [reflexivity | split; [discriminate | split]]].
        -- apply visited_raised; [ | exact Ee].
           unfold configure_link. run. rewrite El. exact Ec.
        -- rewrite Elog, count_app.
           rewrite (count_debug is_failure extra) by auto. lia.
        -- rewrite Elog, count_app.
           rewrite (count_debug is_no_adapters extra) by auto. lia.
Qed.
End PluginFacts.

(** C2, amended.  For every snapshot and every state of the plugin,
    [execute] follows the course of the links: a link whose configuration
    raises [NetworkDetailsError] is caught, its failure is logged and the
    next link is configured in the state so left; the first link whose
    configuration raises another exception ends the call, which raises
    that exception.  When no link does, every link has an outcome, the
    call returns with [reboot_required] the disjunction of the answers of
    the configured links, and "No adapters were configured" is logged
    exactly when no link was configured.  One failure is logged for each
    link that failed. *)
Theorem C2_execute_isolates_NetworkDetailsError :
  forall (OS : networkconfig.OSUtils) (details : NetworkDetails.t)
         (s : networkconfig.plugin_state),
    exists outcomes stop s1,
      visited details (NetworkDetails.get_links details) s outcomes stop s1
      /\ networkconfig.execute (networkconfig.Details details) s
         = match stop with
           | Some e => (Raise e, s1)
           | None =>
               (Ok (networkconfig.PLUGIN_EXECUTION_DONE,
                    existsb rebooting outcomes),
                if existsb succeeded outcomes then s1
                else no_adapters_logged s1)
           end
      /\ (stop = None ->
          List.length outcomes
          = List.length (NetworkDetails.get_links details))
      /\ count is_failure (networkconfig.logged s1)
         = (count is_failure (networkconfig.logged s)
            + List.length (filter (fun o => negb (succeeded o)) outcomes))%nat
      /\ count is_no_adapters (networkconfig.logged s1)
         = count is_no_adapters (networkconfig.logged s).
Proof.
  intros OS details s.
  destruct (execute_from_visits details (NetworkDetails.get_links details)
              false false s)
    as (outcomes & stop & s1 & V & Eloop & Hlen & Hfail & Hnone).
  exists outcomes, stop, s1. split; [exact V | ].
  split; [ | split; [exact Hlen | split; [exact Hfail | exact Hnone]]].
  unfold networkconfig.execute. run. rewrite Eloop.
  destruct stop as [e | ]; [reflexivity | ]. simpl.
  destruct (existsb succeeded outcomes); reflexivity.
Qed.

(** A bond and then a physical link on which the host fails with another
    exception: the failure of the bond is logged, and the call raises the
    exception of the host. *)
Lemma C2_witness :
  exists outcomes s1,
    networkconfig.execute (networkconfig.Details bond_then_bad) fresh_plugin
      = (Raise (OtherError "ConfigurationFailure"), s1)
    /\ List.length (filter (fun o => negb (succeeded o)) outcomes) = 1%nat
    /\ count is_failure (networkconfig.logged s1) = 1%nat.
Proof.
  destruct (C2_execute_isolates_NetworkDetailsError reference_os
              bond_then_bad fresh_plugin)
    as (outcomes & stop & s1 & _ & E & _ & Hfail & _).
  assert (Ex : exists s2,
             networkconfig.execute (networkconfig.Details bond_then_bad)
               fresh_plugin
             = (Raise (OtherError "ConfigurationFailure"), s2)
             /\ count is_failure (networkconfig.logged s2) = 1%nat)
    by (eexists; split; reflexivity).
  destruct Ex as (s2 & E2 & C2). rewrite E2 in E.
  destruct stop as [e | ]; [ | discriminate E].
  injection E as <- <-.
  exists outcomes, s2. split; [exact E2 | ].
  rewrite C2 in Hfail. simpl in Hfail. split; [now rewrite <- Hfail | exact C2].
Defined.

(** Three physical links, the primitive of the host failing on the second
    with an exception that is not [NetworkDetailsError]: [execute] raises
    it. *)
Lemma C2_counterexample :
  fst (networkconfig.execute (networkconfig.Details (three_links "bad"))
         fresh_plugin)
  = Raise (OtherError "ConfigurationFailure").
Proof. reflexivity. Qed.

(** ** The arithmetic of an interface *)

Section InterfaceArithmetic.
Local Open Scope Z_scope.


Lemma testbit_above : forall a W i, 0 <= a < 2 ^ W -> W <= i -> Z.testbit a i = false.
Proof.
  intros a W i [Ha Hb] Hi.
  destruct (Z.eq_dec a 0) as [-> | Hne]; [apply Z.bits_0 | ].
  apply Z.bits_above_log2; [lia | ].
  assert (Z.log2 a < W) by (apply Z.log2_lt_pow2; lia). lia.
Qed.

Lemma netmask_value : forall W p, 0 <= p <= W ->
  Z.lxor (2 ^ W - 1) (Z.shiftr (2 ^ W - 1) p) = 2 ^ W - 2 ^ (W - p).
Proof.
  intros W p Hp.
  replace (2 ^ W - 1) with (Z.ones W) by (rewrite Z.ones_equiv; lia).
  rewrite Z.shiftr_div_pow2, Z.ones_div_pow2 by lia.
  replace (2 ^ W - 2 ^ (W - p)) with (Z.shiftl (Z.ones p) (W - p)).
  2:{ rewrite Z.shiftl_mul_pow2, Z.ones_equiv by lia.
      replace W with (p + (W - p)) at 2 by lia.
      rewrite Z.pow_add_r by lia. lia. }
  apply Z.bits_inj'. intros i Hi.
  rewrite Z.lxor_spec, !Z.testbit_ones_nonneg by lia.
  destruct (Z.ltb_spec i (W - p)).
  - rewrite Z.shiftl_spec_low by lia.
    destruct (Z.ltb_spec i W); [reflexivity | lia].
  - rewrite Z.shiftl_spec by lia. rewrite Z.testbit_ones_nonneg by lia.
    destruct (Z.ltb_spec i W), (Z.ltb_spec (i - (W - p)) p); try reflexivity; lia.
Qed.

Lemma hostmask_value : forall W h, 0 <= h <= W ->
  Z.lxor (2 ^ W - 2 ^ h) (2 ^ W - 1) = 2 ^ h - 1.
Proof.
  intros W h Hh.
  replace (2 ^ W - 2 ^ h) with (Z.shiftl (Z.ones (W - h)) h).
  2:{ rewrite Z.shiftl_mul_pow2, Z.ones_equiv by lia.
      replace W with ((W - h) + h) at 2 by lia.
      rewrite Z.pow_add_r by lia. lia. }
  replace (2 ^ W - 1) with (Z.ones W) by (rewrite Z.ones_equiv; lia).
  replace (2 ^ h - 1) with (Z.ones h) by (rewrite Z.ones_equiv; lia).
  apply Z.bits_inj'. intros i Hi.
  rewrite Z.lxor_spec, !Z.testbit_ones_nonneg by lia.
  destruct (Z.ltb_spec i h).
  - rewrite Z.shiftl_spec_low by lia.
    destruct (Z.ltb_spec i W); [reflexivity | lia].
  - rewrite Z.shiftl_spec by lia. rewrite Z.testbit_ones_nonneg by lia.
    destruct (Z.ltb_spec i W), (Z.ltb_spec (i - h) (W - h)); try reflexivity; lia.
Qed.

Lemma broadcast_value : forall W h a, 0 <= h <= W -> 0 <= a < 2 ^ W ->
  Z.lor (Z.land a (2 ^ W - 2 ^ h)) (2 ^ h - 1) = a - a mod 2 ^ h + 2 ^ h - 1.
Proof.
  intros W h a Hh Ha.
  assert (E : Z.land a (2 ^ W - 2 ^ h) = Z.ldiff a (Z.ones h)).
  { replace (2 ^ W - 2 ^ h) with (Z.shiftl (Z.ones (W - h)) h).
    2:{ rewrite Z.shiftl_mul_pow2, Z.ones_equiv by lia.
        replace W with ((W - h) + h) at 2 by lia.
        rewrite Z.pow_add_r by lia. lia. }
    apply Z.bits_inj'. intros i Hi.
    rewrite Z.land_spec, Z.ldiff_spec, Z.testbit_ones_nonneg by lia.
    destruct (Z.ltb_spec i h).
    - rewrite Z.shiftl_spec_low by lia. simpl. now rewrite !andb_false_r.
    - rewrite Z.shiftl_spec, Z.testbit_ones_nonneg by lia.
      destruct (Z.ltb_spec (i - h) (W - h)); [reflexivity | ].
      rewrite (testbit_above a W i) by lia. reflexivity. }
  rewrite E.
  replace (2 ^ h - 1) with (Z.ones h) by (rewrite Z.ones_equiv; lia).
  assert (D : Z.ldiff a (Z.ones h) = a - a mod 2 ^ h).
  { rewrite Z.ldiff_ones_r, Z.shiftl_mul_pow2, Z.shiftr_div_pow2 by lia.
    pose proof (Z.div_mod a (2 ^ h)). 
    assert (2 ^ h <> 0) by (apply Z.pow_nonzero; lia). lia. }
  assert (N : Z.land (Z.ldiff a (Z.ones h)) (Z.ones h) = 0).
  { apply Z.bits_inj'. intros i Hi.
    rewrite Z.land_spec, Z.ldiff_spec, Z.bits_0.
    destruct (Z.testbit (Z.ones h) i), (Z.testbit a i); reflexivity. }
  rewrite <- Z.lxor_lor by exact N.
  rewrite <- Z.add_nocarry_lxor by exact N.
  rewrite D, Z.ones_equiv. lia.
Qed.
End InterfaceArithmetic.

(** ** The reference model of [ip_interface] *)

Section IpaddressFacts.
Import ipaddress.
Local Open Scope Z_scope.

Lemma _ALL_ONES_eq : forall v, _ALL_ONES v = 2 ^ _max_prefixlen v - 1.
Proof. reflexivity. Qed.

Lemma _max_prefixlen_pos : forall v, 0 < _max_prefixlen v.
Proof. intros []; reflexivity. Qed.

Lemma zero_bits_nonneg : forall fuel n, 0 <= zero_bits fuel n.
Proof.
  induction fuel as [ | fuel IH]; intros n; cbn [zero_bits]; [lia | ].
  destruct (Z.odd n); [lia | ]. specialize (IH (Z.div2 n)). lia.
Qed.

Lemma _prefix_from_ip_int_range : forall v ip_int p,
  _prefix_from_ip_int v ip_int = Some p -> 0 <= p <= _max_prefixlen v.
Proof.
  intros v n p. unfold _prefix_from_ip_int, _count_righthand_zero_bits.
  pose proof (_max_prefixlen_pos v).
  pose proof (zero_bits_nonneg (Z.to_nat (_max_prefixlen v)) n).
  destruct (n =? 0);
    match goal with
    | |- (if ?c then _ else _) = _ -> _ => destruct c; [ | discriminate]
    end; intros [= <-]; lia.
Qed.

(** The prefix length that [_make_netmask] gives is one of the family. *)
Lemma _make_netmask_range : forall v mask p,
  _make_netmask v mask = Some p -> 0 <= p <= _max_prefixlen v.
Proof.
  intros v mask p. unfold _make_netmask, _prefix_from_prefix_string.
  destruct (int_of decimal_digit 10 mask) as [n | ].
  - destruct ((0 <=? n) && (n <=? _max_prefixlen v)) eqn:E.
    + intros [= <-]. apply andb_true_iff in E. lia.
    + destruct v; [ | discriminate]. unfold _prefix_from_ip_string.
      destruct (_ip_int_from_string V4 mask) as [m | ]; [ | discriminate].
      destruct (_prefix_from_ip_int V4 m) as [q | ] eqn:Eq.
      * intros [= <-]. eapply _prefix_from_ip_int_range; eauto.
      * apply _prefix_from_ip_int_range.
  - destruct v; [ | discriminate]. unfold _prefix_from_ip_string.
    destruct (_ip_int_from_string V4 mask) as [m | ]; [ | discriminate].
    destruct (_prefix_from_ip_int V4 m) as [q | ] eqn:Eq.
    + intros [= <-]. eapply _prefix_from_ip_int_range; eauto.
    + apply _prefix_from_ip_int_range.
Qed.

Lemma split_without : forall sep s,
  contains sep s = false -> split sep s = [s].
Proof.
  induction s as [ | c s IH]; simpl; [reflexivity | ].
  rewrite Ascii.eqb_sym. destruct (Ascii.eqb c sep); [discriminate | ].
  simpl. intros H. now rewrite IH.
Qed.

Lemma split_keeps : forall sep c s,
  Ascii.eqb c sep = false ->
  contains c s = true ->
  exists part, In part (split sep s) /\ contains c part = true.
Proof.
  intros sep c. induction s as [ | c' s IH]; simpl; [discriminate | ].
  intros Hsep H. destruct (Ascii.eqb c' sep) eqn:Ec'.
  - destruct (Ascii.eqb c c') eqn:Ecc.
    + apply Ascii.eqb_eq in Ecc, Ec'. subst.
      now rewrite Ascii.eqb_refl in Hsep.
    + destruct (IH Hsep H) as (part & Hin & Hp). exists part.
      split; [now right | exact Hp].
  - destruct (split sep s) as [ | p ps] eqn:Es.
    + exists (String c' EmptyString). split; [now left | ].
      simpl. destruct (Ascii.eqb c c'); [reflexivity | ].
      simpl in H. destruct (IH Hsep H) as (part & [] & _).
    + destruct (Ascii.eqb c c') eqn:Ecc.
      * exists (String c' p). split; [now left | ]. simpl. now rewrite Ecc.
      * destruct (IH Hsep H) as (part & [<- | Hin] & Hp).
        -- exists (String c' p). split; [now left | ]. simpl.
           now rewrite Ecc.
        -- exists part. split; [now right | exact Hp].
Qed.

Lemma digits_reject : forall digit base c s acc,
  digit c = None -> contains c s = true -> digits digit base s acc = None.
Proof.
  intros digit base c. induction s as [ | c' s IH]; intros acc Hc H;
    simpl in *; [discriminate | ].
  destruct (Ascii.eqb c c') eqn:E.
  - apply Ascii.eqb_eq in E. subst. now rewrite Hc.
  - destruct (digit c'); [ | reflexivity]. now apply IH.
Qed.

Lemma _parse_octet_colon : forall octet_str,
  contains ":" octet_str = true -> _parse_octet octet_str = None.
Proof.
  intros s H. unfold _parse_octet, int_of.
  destruct s as [ | c s]; [reflexivity | ].
  now rewrite (digits_reject decimal_digit 10 ":"%char _ 0 eq_refl H).
Qed.

Lemma from_bytes_None : forall l acc, In None l -> from_bytes l acc = None.
Proof.
  induction l as [ | [b | ] l IH]; intros acc H; simpl; [destruct H | | reflexivity].
  destruct H as [H | H]; [discriminate | auto].
Qed.

(** An address with a colon is no IPv4 address, and an IPv6 address has
    one. *)
Lemma _ip_int_from_string4_colon : forall ip_str,
  contains ":" ip_str = true -> _ip_int_from_string4 ip_str = None.
Proof.
  intros s H. unfold _ip_int_from_string4.
  destruct (negb _); [reflexivity | ].
  apply from_bytes_None.
  destruct (split_keeps "."%char ":"%char s eq_refl H) as (part & Hin & Hp).
  apply in_map_iff. exists part. split; [ | exact Hin].
  now apply _parse_octet_colon.
Qed.

Lemma _ip_int_from_string6_colon : forall ip_str a,
  _ip_int_from_string6 ip_str = Some a -> contains ":" ip_str = true.
Proof.
  intros s a. unfold _ip_int_from_string6.
  destruct (contains ":" s) eqn:E; [reflexivity | ].
  now rewrite (split_without _ _ E).
Qed.

Lemma denotes_V6_not_V4 : forall text a p,
  denotes V6 text a p -> _Interface V4 text = None.
Proof.
  intros text a p. unfold denotes, _Interface.
  destruct (split "/" text) as [ | addr [ | mask [ | ? ?]]]; try tauto;
    intros [Ha _]; simpl in Ha;
    apply _ip_int_from_string6_colon in Ha;
    simpl; now rewrite (_ip_int_from_string4_colon _ Ha).
Qed.

Lemma denotes_Interface : forall v text a p,
  denotes v text a p -> _Interface v text = Some (interface v a p).
Proof.
  intros v text a p. unfold denotes, _Interface.
  destruct (split "/" text) as [ | addr [ | mask [ | ? ?]]]; try tauto.
  - intros [-> ->]. reflexivity.
  - intros [-> ->]. reflexivity.
Qed.

Lemma denotes_range : forall v text a p,
  denotes v text a p -> 0 <= p <= _max_prefixlen v.
Proof.
  intros v text a p. unfold denotes.
  destruct (split "/" text) as [ | addr [ | mask [ | ? ?]]]; try tauto.
  - intros [_ ->]. pose proof (_max_prefixlen_pos v). lia.
  - intros [_ H]. eapply _make_netmask_range; eauto.
Qed.

Lemma decimal_digit_range : forall c d, decimal_digit c = Some d -> 0 <= d < 10.
Proof.
  intros c d. unfold decimal_digit.
  destruct ((48 <=? code c) && (code c <=? 57)) eqn:E; [ | discriminate].
  intros [= <-]. apply andb_true_iff in E. lia.
Qed.

Lemma hex_digit_range : forall c d, hex_digit c = Some d -> 0 <= d < 16.
Proof.
  intros c d. unfold hex_digit.
  destruct ((48 <=? code c) && (code c <=? 57)) eqn:E1.
  { intros [= <-]. apply andb_true_iff in E1. lia. }
  destruct ((97 <=? code c) && (code c <=? 102)) eqn:E2.
  { intros [= <-]. apply andb_true_iff in E2. lia. }
  destruct ((65 <=? code c) && (code c <=? 70)) eqn:E3; [ | discriminate].
  intros [= <-]. apply andb_true_iff in E3. lia.
Qed.

Lemma digits_bound : forall digit base,
  0 < base ->
  (forall c d, digit c = Some d -> 0 <= d < base) ->
  forall s acc r,
    0 <= acc -> digits digit base s acc = Some r ->
    0 <= r < (acc + 1) * base ^ Z.of_nat (String.length s).
Proof.
  intros digit base Hb Hd. induction s as [ | c s IH]; intros acc r Hacc.
  - simpl. intros [= <-]. lia.
  - cbn [digits String.length]. destruct (digit c) as [d | ] eqn:Ed; [ | discriminate].
    intros H. specialize (Hd _ _ Ed).
    assert (Hacc' : 0 <= acc * base + d) by nia.
    specialize (IH _ _ Hacc' H).
    rewrite Nat2Z.inj_succ, Z.pow_succ_r by lia.
    assert (0 < base ^ Z.of_nat (String.length s)) by (apply Z.pow_pos_nonneg; lia).
    nia.
Qed.

Lemma _parse_octet_range : forall s n, _parse_octet s = Some n -> 0 <= n <= 255.
Proof.
  intros s n. unfold _parse_octet, int_of.
  destruct s as [ | c s]; [discriminate | ].
  destruct (digits decimal_digit 10 (String c s) 0) as [m | ] eqn:E; [ | discriminate].
  pose proof (digits_bound decimal_digit 10 eq_refl decimal_digit_range _ _ _ (Z.le_refl 0) E).
  destruct (_ <? _)%nat; [discriminate | ].
  destruct (_ && _); [discriminate | ].
  destruct (255 <? m) eqn:L; [discriminate | ].
  intros [= <-]. apply Z.ltb_ge in L. lia.
Qed.

Lemma from_bytes_bound : forall l acc r,
  0 <= acc ->
  (forall b, In (Some b) l -> 0 <= b <= 255) ->
  from_bytes l acc = Some r ->
  0 <= r < (acc + 1) * 256 ^ Z.of_nat (List.length l).
Proof.
  induction l as [ | [b | ] l IH]; intros acc r Hacc Hl; cbn [from_bytes List.length].
  - intros [= <-]. lia.
  - intros H. assert (Hb : 0 <= b <= 255) by (apply Hl; now left).
    assert (Hacc' : 0 <= acc * 256 + b) by lia.
    assert (Hl' : forall b, In (Some b) l -> 0 <= b <= 255)
      by (intros; apply Hl; now right).
    specialize (IH _ _ Hacc' Hl' H).
    rewrite Nat2Z.inj_succ, Z.pow_succ_r by lia.
    assert (0 < 256 ^ Z.of_nat (List.length l)) by (apply Z.pow_pos_nonneg; lia).
    nia.
  - discriminate.
Qed.

Lemma _ip_int_from_string4_range : forall s a,
  _ip_int_from_string4 s = Some a -> 0 <= a <= _ALL_ONES V4.
Proof.
  intros s a. unfold _ip_int_from_string4.
  destruct (Nat.eqb (List.length (split "." s)) 4) eqn:E; [ | discriminate].
  apply Nat.eqb_eq in E. simpl. intros H.
  apply from_bytes_bound in H; [ | lia | ].
  - rewrite length_map, E in H. change (_ALL_ONES V4) with 4294967295.
    change (256 ^ Z.of_nat 4) with 4294967296 in H. lia.
  - intros b Hb. apply in_map_iff in Hb. destruct Hb as (o & Ho & _).
    eapply _parse_octet_range; eauto.
Qed.

Lemma lor_bound : forall m x y,
  0 <= m -> 0 <= x < 2 ^ m -> 0 <= y < 2 ^ m -> 0 <= Z.lor x y < 2 ^ m.
Proof.
  intros m x y Hm Hx Hy.
  assert (E : Z.lor x y = Z.lor x y mod 2 ^ m).
  { rewrite <- Z.land_ones, Z.land_lor_distr_l, !Z.land_ones by lia.
    now rewrite !Z.mod_small by lia. }
  rewrite E. apply Z.mod_pos_bound. apply Z.pow_pos_nonneg; lia.
Qed.

Lemma _parse_hextet_range : forall s n, _parse_hextet s = Some n -> 0 <= n < 2 ^ 16.
Proof.
  intros s n. unfold _parse_hextet, int_of.
  destruct s as [ | c s]; [discriminate | ].
  destruct (digits hex_digit 16 (String c s) 0) as [m | ] eqn:E; [ | discriminate].
  pose proof (digits_bound hex_digit 16 eq_refl hex_digit_range _ _ _ (Z.le_refl 0) E) as B.
  destruct (4 <? String.length (String c s))%nat eqn:L; [discriminate | ].
  intros [= <-]. apply Nat.ltb_ge in L.
  assert (16 ^ Z.of_nat (String.length (String c s)) <= 16 ^ 4)
    by (apply Z.pow_le_mono_r; lia).
  change (2 ^ 16) with (16 ^ 4). lia.
Qed.

Lemma hextets_in_bound : forall l acc r k,
  0 <= k -> 0 <= acc < 2 ^ k ->
  hextets_in l acc = Some r ->
  0 <= r < 2 ^ (k + 16 * Z.of_nat (List.length l)).
Proof.
  induction l as [ | h l IH]; intros acc r k Hk Hacc; cbn [hextets_in List.length].
  - intros [= <-]. now rewrite Z.mul_0_r, Z.add_0_r.
  - destruct (_parse_hextet h) as [n | ] eqn:En; [ | discriminate].
    apply _parse_hextet_range in En. intros H.
    assert (B : 0 <= Z.lor (Z.shiftl acc 16) n < 2 ^ (k + 16)).
    { apply lor_bound; [lia | | ].
      - rewrite Z.shiftl_mul_pow2, Z.pow_add_r by lia. nia.
      - assert (2 ^ 16 <= 2 ^ (k + 16)) by (apply Z.pow_le_mono_r; lia). lia. }
    apply (IH _ _ (k + 16)) in H; [ | lia | exact B].
    replace (k + 16 * Z.of_nat (S (List.length l)))
      with (k + 16 + 16 * Z.of_nat (List.length l)) by lia.
    exact H.
Qed.

Lemma _ip_int_from_string6_range : forall s a,
  _ip_int_from_string6 s = Some a -> 0 <= a <= _ALL_ONES V6.
Proof.
  intros s a. unfold _ip_int_from_string6.
  destruct (_ <? 3)%nat; [discriminate | ].
  destruct (_ipv4_suffix (split ":" s)) as [parts | ]; [ | discriminate].
  set (n := List.length parts).
  destruct (9 <? n)%nat; [discriminate | ].
  match goal with
  | |- match ?shape with _ => _ end = _ -> _ =>
      assert (S : forall hi lo skipped,
                 shape = Some (hi, lo, skipped) ->
                 (hi + lo + skipped <= 8)%nat /\ (lo <= n)%nat);
      [ | destruct shape as [[[hi lo] skipped] | ]; [ | discriminate] ]
  end.
  { intros hi lo skipped.
    destruct (filter _ _) as [ | skip_index [ | ? ?]]; [ | | discriminate].
    - destruct (Nat.eqb n 8) eqn:E8; simpl; [ | discriminate].
      destruct (_ || _); [discriminate | ].
      apply Nat.eqb_eq in E8. intros [= <- <- <-]. lia.
    - remember (if is_empty (nth 0 parts "x"%string)
                then (skip_index - 1)%nat else skip_index) as hi' eqn:Hhi.
      remember (if is_empty (nth (n - 1) parts "x"%string)
                then (n - skip_index - 1 - 1)%nat
                else (n - skip_index - 1)%nat) as lo' eqn:Hlo.
      destruct (_ && negb _); [discriminate | ].
      destruct (_ && negb _); [discriminate | ].
      destruct (8 <=? hi' + lo')%nat eqn:L; [discriminate | ].
      apply Nat.leb_gt in L.
      remember (8 - (hi' + lo'))%nat as skipped' eqn:Hsk.
      intros [= <- <- <-].
      split; [lia | ].
      destruct (is_empty (nth (n - 1) parts "x"%string)); lia. }
  destruct (S _ _ _ eq_refl) as [Hsum Hlo].
  destruct (hextets_in (firstn hi parts) 0) as [r1 | ] eqn:E1; [ | discriminate].
  intros E2.
  apply (hextets_in_bound _ _ _ 0) in E1; [ | lia | simpl; lia].
  assert (L1 : (List.length (firstn hi parts) <= hi)%nat) by apply firstn_le_length.
  assert (L2 : (List.length (skipn (n - lo) parts) <= lo)%nat)
    by (rewrite length_skipn; fold n; lia).
  set (k1 := 16 * Z.of_nat (List.length (firstn hi parts))) in *.
  assert (B : 0 <= Z.shiftl r1 (16 * Z.of_nat skipped)
              < 2 ^ (k1 + 16 * Z.of_nat skipped)).
  { rewrite Z.shiftl_mul_pow2, Z.pow_add_r by lia.
    assert (0 < 2 ^ (16 * Z.of_nat skipped)) by (apply Z.pow_pos_nonneg; lia).
    simpl in E1. nia. }
  apply (hextets_in_bound _ _ _ (k1 + 16 * Z.of_nat skipped)) in E2;
    [ | lia | exact B].
  assert (2 ^ (k1 + 16 * Z.of_nat skipped
               + 16 * Z.of_nat (List.length (skipn (n - lo) parts)))
          <= 2 ^ 128) by (apply Z.pow_le_mono_r; lia).
  unfold _ALL_ONES. simpl _max_prefixlen. lia.
Qed.

(** An address that a text denotes is one of the family. *)
Lemma denotes_address : forall v text a p,
  denotes v text a p -> 0 <= a <= _ALL_ONES v.
Proof.
  intros v text a p. unfold denotes.
  destruct (split "/" text) as [ | addr [ | mask [ | ? ?]]]; try tauto;
    intros [Ha _]; destruct v; simpl in Ha;
    first [ now apply _ip_int_from_string4_range in Ha
          | now apply _ip_int_from_string6_range in Ha ].
Qed.

(** The interface of an address of the family, in numbers. *)
Lemma interface_value : forall v a p,
  0 <= a <= _ALL_ONES v ->
  0 <= p <= _max_prefixlen v ->
  interface v a p
  = {| if_broadcast_address := _string_from_ip_int v (broadcast_of v a p);
       if_netmask := _string_from_ip_int v (netmask_of v p);
       if_ip := _string_from_ip_int v a;
       if_version := _version v |}.
Proof.
  intros v a p Ha Hp. unfold interface, _ip_int_from_prefix.
  rewrite _ALL_ONES_eq in *.
  rewrite (netmask_value (_max_prefixlen v) p Hp).
  rewrite (hostmask_value (_max_prefixlen v) (_max_prefixlen v - p)) by lia.
  rewrite (broadcast_value (_max_prefixlen v) (_max_prefixlen v - p) a)
    by lia.
  reflexivity.
Qed.
End IpaddressFacts.

(** C7, amended.  On a runtime whose [ip_interface] is the reference model
    on strings: when the text made of the address, and of the netmask after
    a ["/"] if one is given, denotes the address [a] with the prefix length
    [p], in IPv4 or IPv6, [_digest_interface] returns the last address of
    the network of [a], the netmask of [p], the address [a] in its normal
    form and the version.  (An address that already has its prefix takes no
    netmask: the text would have two ["/"].) *)
Theorem C7_digest_interface_exact :
  forall (RT : Runtime) (ip_address : string) (netmask : pyval)
         (v : ipaddress.family) (a p : Z),
    (forall s, ip_interface (PStr s) = ipaddress.ip_interface s) ->
    denotes v (interface_text ip_address netmask) a p ->
    _digest_interface (PStr ip_address) netmask
    = Ok [ (KStr BROADCAST,
            PStr (ipaddress._string_from_ip_int v (broadcast_of v a p)));
           (KStr NETMASK,
            PStr (ipaddress._string_from_ip_int v (netmask_of v p)));
           (KStr IP_ADDRESS, PStr (ipaddress._string_from_ip_int v a));
           (KStr VERSION, PInt (ipaddress._version v)) ].
Proof.
  intros RT ip netmask v a p Hlib Hden.
  unfold _digest_interface.
  assert (E : (if truthy netmask
               then PStr (py_str (PStr ip) ++ "/" ++ py_str netmask)
               else PStr ip) = PStr (interface_text ip netmask)).
  { unfold interface_text. now destruct (truthy netmask). }
  rewrite E, Hlib. unfold ipaddress.ip_interface.
  pose proof (denotes_Interface _ _ _ _ Hden) as Hi.
  pose proof (denotes_range _ _ _ _ Hden) as Hp.
  pose proof (denotes_address _ _ _ _ Hden) as Ha.
  destruct v.
  - rewrite Hi, (interface_value _ _ _ Ha Hp). reflexivity.
  - rewrite (denotes_V6_not_V4 _ _ _ Hden), Hi,
      (interface_value _ _ _ Ha Hp). reflexivity.
Qed.

Lemma C7_witness :
  _digest_interface (RT := reference_runtime) (PStr "10.0.0.5")
    (PStr "255.255.255.0")
  = Ok [ (KStr BROADCAST, PStr "10.0.0.255");
         (KStr NETMASK, PStr "255.255.255.0");
         (KStr IP_ADDRESS, PStr "10.0.0.5");
         (KStr VERSION, PInt 4) ].
Proof.
  apply (C7_digest_interface_exact reference_runtime "10.0.0.5"
           (PStr "255.255.255.0") ipaddress.V4 167772165 24).
  - reflexivity.
  - vm_compute. split; reflexivity.
Defined.

(** The address ["10.0.0.5/24"] with the netmask ["255.255.255.0"]: each
    is accepted without the other, and together they are refused. *)
Lemma C7_counterexample :
  _digest_interface (RT := reference_runtime) (PStr "10.0.0.5/24")
    (PStr "255.255.255.0") = Raise ValueError
  /\ is_ok (_digest_interface (RT := reference_runtime) (PStr "10.0.0.5/24")
              PNone) = true
  /\ is_ok (_digest_interface (RT := reference_runtime) (PStr "10.0.0.5")
              (PStr "255.255.255.0")) = true.
Proof. repeat split. Qed.

(** The same derivation for an IPv6 address with its prefix. *)
Example digest_interface_ipv6 :
  _digest_interface (RT := reference_runtime) (PStr "2001:db8::1/64") PNone
  = Ok [ (KStr BROADCAST, PStr "2001:db8::ffff:ffff:ffff:ffff");
         (KStr NETMASK, PStr "ffff:ffff:ffff:ffff::");
         (KStr IP_ADDRESS, PStr "2001:db8::1");
         (KStr VERSION, PInt 6) ].
Proof. vm_compute. reflexivity. Qed.

(* ================================================================= *)
(** * More properties of the three modules *)

(** ** More on the field resolver *)

Section ResolverMore.
Context `{RT : Runtime}.

Lemma find_alias_first : forall before a after raw_data v,
  (forall b, In b before -> dict_mem (KStr b) raw_data = false) ->
  dict_get (KStr a) raw_data = Some v ->
  find_alias (before ++ a :: after) raw_data = Some v.
Proof.
  induction before as [ | b before IH]; intros a after raw v Habs Hv; simpl.
  - now rewrite Hv.
  - pose proof (Habs b (or_introl eq_refl)) as Hb. unfold dict_mem in Hb.
    destruct (dict_get (KStr b) raw); [discriminate | ].
    apply IH; auto. intros c Hc. apply Habs. now right.
Qed.

(** What [_get_field] returns is keyed by the name of the field. *)
Lemma _get_field_name : forall f raw_data w n x w',
  _get_field f raw_data w = (Ok (n, x), w') -> n = name f.
Proof.
  unfold _get_field. intros f raw w n x w'.
  destruct (find_alias (aliases f) raw); [now intros [= <- _ _] | ].
  destruct (required f); simpl; [discriminate | ].
  destruct (default f) as [d | p]; [now intros [= <- _ _] | ].
  destruct (p w). now intros [= <- _ _].
Qed.

Lemma _get_field_found : forall f raw_data w v,
  find_alias (aliases f) raw_data = Some v ->
  _get_field f raw_data w = (Ok (name f, v), w).
Proof. unfold _get_field. intros f raw w v H. now rewrite H. Qed.

Lemma dict_mem_set : forall (d : dict pyval) k k' v,
  dict_mem k (dict_set k' v d) = key_eqb k k' || dict_mem k d.
Proof.
  intros d k k' v. unfold dict_mem. rewrite dict_get_set.
  now destruct (key_eqb k k').
Qed.

(** The loop of [_get_fields] over fields that the raw record all has:
    no producer and no callback is called. *)
Lemma _get_fields_from_complete : forall fields raw_data,
  (forall f, In f fields -> find_alias (aliases f) raw_data <> None) ->
  forall data w, exists data',
    _get_fields_from fields raw_data data w = (Ok (Some data'), w)
    /\ (forall k, dict_mem k data' = true <->
                  dict_mem k data = true
                  \/ exists f, In f fields /\ k = KStr (name f))
    /\ (forall f, In f fields -> NoDup (map name fields) ->
                  dict_get (KStr (name f)) data'
                  = find_alias (aliases f) raw_data)
    /\ (forall k, ~ In k (map (fun f => KStr (name f)) fields) ->
                  dict_get k data' = dict_get k data).
Proof.
  induction fields as [ | g fields IH]; intros raw Hall data w.
  - exists data. simpl. repeat split; auto.
    + intros [H | (f & [] & _)]. exact H.
    + intros f [].
  - assert (Hg : find_alias (aliases g) raw <> None) by (apply Hall; now left).
    destruct (find_alias (aliases g) raw) as [v | ] eqn:Eg; [ | contradiction].
    simpl. rewrite (_get_field_found g raw w v Eg).
    destruct (IH raw (fun f Hf => Hall f (or_intror Hf))
                 (dict_set (KStr (name g)) v data) w)
      as (data' & E & Hkeys & Hvals & Hrest).
    exists data'. split; [exact E | ]. split; [ | split].
    + intros k. rewrite Hkeys, dict_mem_set, orb_true_iff, key_eqb_eq.
      split.
      * intros [[-> | H] | (f & Hf & ->)]; eauto 6.
      * intros [H | (f & [<- | Hf] & ->)]; eauto 6.
    + intros f [<- | Hf] Hnd; inversion Hnd as [ | ? ? Hnotin Hnd']; subst.
      * rewrite Hrest; [rewrite dict_get_set_eq; exact (eq_sym Eg) | ].
        intros Hin. apply Hnotin. apply in_map_iff in Hin.
        destruct Hin as (f & [= Hf] & Hin). rewrite <- Hf. now apply in_map.
      * now apply Hvals.
    + intros k Hk. rewrite Hrest.
      * apply dict_get_set_neq. intros ->. apply Hk. now left.
      * intros Hin. apply Hk. now right.
Qed.

(** The loop of [_get_fields] over fields that are not required: no field
    raises, so no record is rejected. *)
Lemma _get_fields_from_optional : forall fields raw_data,
  Forall (fun f => required f = false) fields ->
  forall data w, exists data' w',
    _get_fields_from fields raw_data data w = (Ok (Some data'), w')
    /\ (forall k, dict_mem k data' = true <->
                  dict_mem k data = true
                  \/ exists f, In f fields /\ k = KStr (name f)).
Proof.
  induction fields as [ | g fields IH]; intros raw Hall data w.
  - exists data, w. simpl. split; [reflexivity | ]. intros k. split; auto.
    intros [H | (f & [] & _)]. exact H.
  - inversion Hall as [ | ? ? Hg Hrest]; subst. simpl.
    destruct (_get_field g raw w) as [[[n x] | e] w1] eqn:Eg.
    + pose proof (_get_field_name _ _ _ _ _ _ Eg) as ->.
      destruct (IH raw Hrest (dict_set (KStr (name g)) x data) w1)
        as (data' & w' & E & Hkeys).
      exists data', w'. split; [exact E | ].
      intros k. rewrite Hkeys, dict_mem_set, orb_true_iff, key_eqb_eq.
      split.
      * intros [[-> | H] | (f & Hf & ->)]; eauto 6.
      * intros [H | (f & [<- | Hf] & ->)]; eauto 6.
    + exfalso. revert Eg. unfold _get_field.
      destruct (find_alias (aliases g) raw); [discriminate | ].
      rewrite Hg. simpl. destruct (default g) as [d | p]; [discriminate | ].
      destruct (p w). discriminate.
Qed.
End ResolverMore.

(** X1.  [_get_field] returns the value that the raw record holds under the
    first of the names of the field that it has, the name of the field
    coming before its aliases; the value is returned under the name of the
    field, and nothing is produced: the state is left as it was. *)
Theorem X1_get_field_first_name_wins :
  forall (RT : Runtime) (f : _Field) (raw_data : dict pyval)
         (before : list string) (a : string) (after : list string)
         (v : pyval) (w : world),
    aliases f = before ++ a :: after ->
    (forall b, In b before -> dict_mem (KStr b) raw_data = false) ->
    dict_get (KStr a) raw_data = Some v ->
    _get_field f raw_data w = (Ok (name f, v), w).
Proof.
  intros RT f raw before a after v w Ha Habs Hv.
  apply _get_field_found. rewrite Ha. now apply find_alias_first.
Qed.

Lemma X1_witness :
  _get_field (RT := reference_runtime)
    {| name := ASSIGNED_TO; alias := AliasStr httpservice._ASSIGNED_TO;
       default := Value PNone; required := true; on_error := None |}
    dangling_network (0%nat : world)
  = (Ok (ASSIGNED_TO, PStr "ghost"), 0%nat).
Proof.
  apply (X1_get_field_first_name_wins reference_runtime
           {| name := ASSIGNED_TO; alias := AliasStr httpservice._ASSIGNED_TO;
              default := Value PNone; required := true; on_error := None |}
           dangling_network [ASSIGNED_TO] httpservice._ASSIGNED_TO []
           (PStr "ghost") 0%nat).
  - reflexivity.
  - intros b [<- | []]. reflexivity.
  - reflexivity.
Defined.

(** X2.  A raw record that has every field of the sequence, under its name
    or an alias, always resolves: [_get_fields] returns a dictionary whose
    keys are the names of the fields and nothing else (what else the raw
    record holds is left behind), each with the value found, and neither a
    producer nor a callback has run. *)
Theorem X2_get_fields_complete_record :
  forall (RT : Runtime) (fields : list _Field) (raw_data : dict pyval)
         (w : world),
    NoDup (map name fields) ->
    (forall f, In f fields -> find_alias (aliases f) raw_data <> None) ->
    exists data,
      _get_fields fields raw_data w = (Ok (Some data), w)
      /\ (forall f, In f fields ->
            dict_get (KStr (name f)) data = find_alias (aliases f) raw_data)
      /\ (forall k, dict_mem k data = true <->
                    exists f, In f fields /\ k = KStr (name f)).
Proof.
  intros RT fields raw w Hnd Hall.
  destruct (_get_fields_from_complete fields raw Hall [] w)
    as (data & E & Hkeys & Hvals & _).
  exists data. split; [exact E | ]. split; [auto | ].
  intros k. rewrite Hkeys. split; [ | auto].
  intros [H | H]; [discriminate | exact H].
Qed.

Lemma X2_witness :
  exists data,
    _get_fields (RT := reference_runtime) (values network_fields)
      leftover_record (0%nat : world)
    = (Ok (Some data), 0%nat)
    /\ dict_mem (KStr "leftover") data = false.
Proof.
  destruct (X2_get_fields_complete_record reference_runtime
              (values network_fields) leftover_record 0%nat)
    as (data & E & _ & Hkeys).
  - repeat constructor; simpl; intuition discriminate.
  - intros f Hf. simpl in Hf.
    repeat (destruct Hf as [<- | Hf]; [discriminate | ]). destruct Hf.
  - exists data. split; [exact E | ].
    destruct (dict_mem (KStr "leftover") data) eqn:Em; [ | reflexivity].
    apply Hkeys in Em. destruct Em as (f & Hf & Hk). simpl in Hf.
    repeat (destruct Hf as [<- | Hf]; [discriminate Hk | ]). destruct Hf.
Defined.

(** X3.  When no field of the sequence is required, [_get_fields] rejects
    no record and raises nothing: it returns a dictionary that has the
    name of every field, and no other key, whatever the raw record is. *)
Theorem X3_optional_fields_never_reject :
  forall (RT : Runtime) (fields : list _Field) (raw_data : dict pyval)
         (w : world),
    Forall (fun f => required f = false) fields ->
    exists data w',
      _get_fields fields raw_data w = (Ok (Some data), w')
      /\ (forall k, dict_mem k data = true <->
                    exists f, In f fields /\ k = KStr (name f)).
Proof.
  intros RT fields raw w Hall.
  destruct (_get_fields_from_optional fields raw Hall [] w)
    as (data & w' & E & Hkeys).
  exists data, w'. split; [exact E | ].
  intros k. rewrite Hkeys. split; [ | auto].
  intros [H | H]; [discriminate | exact H].
Qed.

Lemma X3_witness :
  exists data w',
    _get_fields (RT := reference_runtime)
      [Field_new MTU; Field_new VLAN_ID] [] (0%nat : world)
    = (Ok (Some data), w')
    /\ dict_mem (KStr MTU) data = true.
Proof.
  destruct (X3_optional_fields_never_reject reference_runtime
              [Field_new MTU; Field_new VLAN_ID] [] 0%nat)
    as (data & w' & E & Hkeys).
  - repeat constructor.
  - exists data, w'. split; [exact E | ].
    apply Hkeys. exists (Field_new MTU). split; [now left | reflexivity].
Defined.

(** ** What a raw record needs to resolve *)

Section RequiredFields.
Context `{RT : Runtime}.

(** With a link name that is required, [_on_mac_not_found] answers [False]
    and leaves the output and the state as they are. *)
Lemma _on_mac_not_found_required :
  forall link_name network_adapters raw_data output w,
    required link_name = true ->
    _on_mac_not_found link_name network_adapters raw_data output w
    = ((false, output), w).
Proof.
  intros link_name adapters raw output w Hreq.
  pose proof (_on_mac_not_found_False link_name adapters raw output w) as F.
  unfold _on_mac_not_found in *.
  destruct (_get_field link_name raw w) as [[[n x] | e] w1] eqn:E.
  - rewrite find_adapter_None. f_equal.
    revert E. unfold _get_field.
    destruct (find_alias (aliases link_name) raw); [now intros [= _ _ <-] | ].
    rewrite Hreq. discriminate.
  - now destruct (_get_field_raises _ _ _ _ _ E) as [_ ->].
Qed.
End RequiredFields.

Ltac resolve_record raw :=
  repeat match goal with
         | |- context [dict_get ?k raw] =>
             destruct (dict_get k raw); cbn -[dict_get uuid1 _on_mac_not_found]
         end;
  rewrite ?_on_mac_not_found_required by reflexivity;
  try reflexivity.

(** What the link fields of the OpenStack builder make of a raw link. *)
Lemma openstack_link_fields_spec :
  forall (RT : Runtime) (w0 : world)
         (network_adapters : list (string * string))
         (network_data : httpservice.network_data_t)
         (raw_link : dict pyval) (w : world),
    _get_fields
      (values (_link (httpservice.__init__ w0 network_adapters network_data)))
      raw_link w
    = (if openstack_link_resolves raw_link
       then Ok (Some
              [ (KStr ID, get_or ID raw_link (PStr (fst (uuid1 w))));
                (KStr NAME,
                 get_or NAME raw_link (get_or httpservice._NAME raw_link PNone));
                (KStr MAC_ADDRESS,
                 get_or MAC_ADDRESS raw_link
                   (get_or httpservice._MAC_ADDRESS raw_link PNone));
                (KStr TYPE, get_or TYPE raw_link (PStr PHY));
                (KStr MTU, get_or MTU raw_link PNone);
                (KStr BOND_LINKS, get_or BOND_LINKS raw_link PNone);
                (KStr BOND_MODE, get_or BOND_MODE raw_link PNone);
                (KStr VLAN_ID, get_or VLAN_ID raw_link PNone);
                (KStr VLAN_LINK, get_or VLAN_LINK raw_link PNone) ])
       else Ok None,
       if has ID raw_link then w else snd (uuid1 w)).
Proof.
  intros RT w0 adapters nd raw w.
  unfold _get_fields, values, openstack_link_resolves,
    openstack_network_resolves, has, get_or, dict_mem.
  cbn -[dict_get uuid1 _on_mac_not_found].
  unfold _get_field; cbn -[dict_get uuid1 _on_mac_not_found].
  destruct (uuid1 w) as [s u1].
  resolve_record raw.
Qed.


(** What the network fields of the OpenStack builder make of a raw
    network. *)
Lemma openstack_network_fields_spec :
  forall (RT : Runtime) (w0 : world)
         (network_adapters : list (string * string))
         (network_data : httpservice.network_data_t)
         (raw_network : dict pyval) (w : world),
    _get_fields
      (values (_network
                 (httpservice.__init__ w0 network_adapters network_data)))
      raw_network w
    = (if openstack_network_resolves raw_network
       then Ok (Some
              [ (KStr ID, get_or ID raw_network (PStr (fst (uuid1 w))));
                (KStr IP_ADDRESS, get_or IP_ADDRESS raw_network PNone);
                (KStr VERSION,
                 get_or VERSION raw_network
                   (get_or httpservice._VERSION raw_network PNone));
                (KStr NETMASK, get_or NETMASK raw_network PNone);
                (KStr GATEWAY, get_or GATEWAY raw_network PNone);
                (KStr BROADCAST, get_or BROADCAST raw_network PNone);
                (KStr DNS, get_or DNS raw_network (PList []));
                (KStr ASSIGNED_TO,
                 get_or ASSIGNED_TO raw_network
                   (get_or httpservice._ASSIGNED_TO raw_network PNone)) ])
       else Ok None,
       if has ID raw_network then w else snd (uuid1 w)).
Proof.
  intros RT w0 adapters nd raw w.
  unfold _get_fields, values, openstack_link_resolves,
    openstack_network_resolves, has, get_or, dict_mem.
  cbn -[dict_get uuid1 _on_mac_not_found].
  unfold _get_field; cbn -[dict_get uuid1 _on_mac_not_found].
  destruct (uuid1 w) as [s u1].
  resolve_record raw.
Qed.


(** X4.  What the link fields of the base builder make of a raw link: the
    record resolves exactly when it has a name and a MAC address (the
    adapters of the host never supply one); then each field has the value
    of the record, or its default, and the id is a fresh one when the
    record has none.  A fresh id is produced before the record is
    rejected, and nothing is raised. *)
Theorem X4_base_link_resolution :
  forall (RT : Runtime) (network_adapters : list (string * string))
         (raw_link : dict pyval) (w : world),
    _get_fields (values (link_fields base_link_name network_adapters))
      raw_link w
    = (if has NAME raw_link && has MAC_ADDRESS raw_link
       then Ok (Some
              [ (KStr ID, get_or ID raw_link (PStr (fst (uuid1 w))));
                (KStr NAME, get_or NAME raw_link PNone);
                (KStr MAC_ADDRESS, get_or MAC_ADDRESS raw_link PNone);
                (KStr TYPE, get_or TYPE raw_link (PStr PHY));
                (KStr MTU, get_or MTU raw_link PNone);
                (KStr BOND_LINKS, get_or BOND_LINKS raw_link PNone);
                (KStr BOND_MODE, get_or BOND_MODE raw_link PNone);
                (KStr VLAN_ID, get_or VLAN_ID raw_link PNone);
                (KStr VLAN_LINK, get_or VLAN_LINK raw_link PNone) ])
       else Ok None,
       if has ID raw_link then w else snd (uuid1 w)).
Proof.
  intros RT adapters raw w.
  unfold _get_fields, values, link_fields, has, get_or, dict_mem.
  cbn -[dict_get uuid1 _on_mac_not_found].
  unfold _get_field; cbn -[dict_get uuid1 _on_mac_not_found].
  destruct (uuid1 w) as [s u1].
  resolve_record raw.
Qed.

(** X5.  What the link fields of the OpenStack builder make of a raw link:
    the record resolves exactly when it has a name, under ["name"] or
    ["id"], and a MAC address, under ["mac_address"] or
    ["ethernet_mac_address"]; the name of the field comes before its
    alias.  What it resolves to has no key ["version"]. *)
Theorem X5_openstack_link_resolution :
  forall (RT : Runtime) (w0 : world)
         (network_adapters : list (string * string))
         (network_data : httpservice.network_data_t)
         (raw_link : dict pyval) (w : world),
    _get_fields
      (values (_link (httpservice.__init__ w0 network_adapters network_data)))
      raw_link w
    = (if openstack_link_resolves raw_link
       then Ok (Some
              [ (KStr ID, get_or ID raw_link (PStr (fst (uuid1 w))));
                (KStr NAME,
                 get_or NAME raw_link (get_or httpservice._NAME raw_link PNone));
                (KStr MAC_ADDRESS,
                 get_or MAC_ADDRESS raw_link
                   (get_or httpservice._MAC_ADDRESS raw_link PNone));
                (KStr TYPE, get_or TYPE raw_link (PStr PHY));
                (KStr MTU, get_or MTU raw_link PNone);
                (KStr BOND_LINKS, get_or BOND_LINKS raw_link PNone);
                (KStr BOND_MODE, get_or BOND_MODE raw_link PNone);
                (KStr VLAN_ID, get_or VLAN_ID raw_link PNone);
                (KStr VLAN_LINK, get_or VLAN_LINK raw_link PNone) ])
       else Ok None,
       if has ID raw_link then w else snd (uuid1 w)).
Proof. intros RT. apply openstack_link_fields_spec. Qed.

(** X6.  What the network fields of the OpenStack builder make of a raw
    network: the record resolves exactly when it has an address, a netmask,
    a gateway, a version, under ["version"] or ["type"], and a link, under
    ["assigned_to"] or ["link"].  The default of the version is never
    used, and the version is passed on as the record has it. *)
Theorem X6_openstack_network_resolution :
  forall (RT : Runtime) (w0 : world)
         (network_adapters : list (string * string))
         (network_data : httpservice.network_data_t)
         (raw_network : dict pyval) (w : world),
    _get_fields
      (values (_network
                 (httpservice.__init__ w0 network_adapters network_data)))
      raw_network w
    = (if openstack_network_resolves raw_network
       then Ok (Some
              [ (KStr ID, get_or ID raw_network (PStr (fst (uuid1 w))));
                (KStr IP_ADDRESS, get_or IP_ADDRESS raw_network PNone);
                (KStr VERSION,
                 get_or VERSION raw_network
                   (get_or httpservice._VERSION raw_network PNone));
                (KStr NETMASK, get_or NETMASK raw_network PNone);
                (KStr GATEWAY, get_or GATEWAY raw_network PNone);
                (KStr BROADCAST, get_or BROADCAST raw_network PNone);
                (KStr DNS, get_or DNS raw_network (PList []));
                (KStr ASSIGNED_TO,
                 get_or ASSIGNED_TO raw_network
                   (get_or httpservice._ASSIGNED_TO raw_network PNone)) ])
       else Ok None,
       if has ID raw_network then w else snd (uuid1 w)).
Proof. intros RT. apply openstack_network_fields_spec. Qed.

(** ** Named tuples from raw records *)

Section NamedTuples.

Lemma mem_string_In : forall s l, mem_string s l = true <-> In s l.
Proof.
  intros s l. unfold mem_string. rewrite existsb_exists. split.
  - intros (x & Hx & E). apply String.eqb_eq in E. now subst.
  - intros H. exists s. split; [exact H | apply String.eqb_refl].
Qed.

Lemma string_keys_assoc : forall (d : dict pyval) kw n,
  string_keys d = Some kw -> assoc n kw = dict_get (KStr n) d.
Proof.
  induction d as [ | [k x] d IH]; intros kw n; simpl.
  - now intros [= <-].
  - destruct k as [ | z | s | ks]; try discriminate.
    destruct (string_keys d) as [kw' | ] eqn:E; [ | discriminate].
    intros [= <-]. simpl. destruct (String.eqb n s); auto.
Qed.

Lemma string_keys_keys : forall (d : dict pyval) kw,
  string_keys d = Some kw -> dict_keys d = map KStr (map fst kw).
Proof.
  induction d as [ | [k x] d IH]; intros kw; simpl.
  - now intros [= <-].
  - destruct k as [ | z | s | ks]; try discriminate.
    destruct (string_keys d) as [kw' | ] eqn:E; [ | discriminate].
    intros [= <-]. simpl. f_equal. now apply IH.
Qed.

Lemma string_keys_total : forall (d : dict pyval),
  (forall k, In k (dict_keys d) -> exists s, k = KStr s) ->
  exists kw, string_keys d = Some kw.
Proof.
  induction d as [ | [k x] d IH]; intros H; simpl; [eauto | ].
  destruct (H k (or_introl eq_refl)) as (s & ->).
  destruct IH as (kw & ->); [ | eauto].
  intros k Hk. apply H. now right.
Qed.

Lemma assoc_In : forall kw n, In n (map fst kw) -> assoc n kw <> None.
Proof.
  induction kw as [ | [s x] kw IH]; intros n; simpl; [tauto | ].
  destruct (String.eqb n s) eqn:E; [discriminate | ].
  intros [-> | H]; [now rewrite String.eqb_refl in E | auto].
Qed.

Lemma assoc_map : forall (g : string -> pyval) fields n,
  In n fields -> assoc n (map (fun f => (f, g f)) fields) = Some (g n).
Proof.
  induction fields as [ | f fields IH]; intros n; simpl; [tauto | ].
  destruct (String.eqb n f) eqn:E.
  - apply String.eqb_eq in E. now subst.
  - intros [-> | H]; [now rewrite String.eqb_refl in E | auto].
Qed.

Lemma dict_mem_keys : forall (d : dict pyval) k,
  dict_mem k d = true <-> In k (dict_keys d).
Proof.
  intros d k. rewrite <- dict_get_keys. unfold dict_mem.
  destruct (dict_get k d); split; congruence.
Qed.

(** A named tuple type called with the items of a record: the call
    succeeds exactly when the keys of the record are the fields of the
    type, and the tuple then holds the values of the record. *)
Lemma namedtuple_of_record : forall typename fields (d : dict pyval),
  (forall nt,
      match kwargs (PDict d) with
      | Ok kw => namedtuple_new typename fields kw
      | Raise e => Raise e
      end = Ok nt ->
      nt_typename nt = typename
      /\ map fst (nt_items nt) = fields
      /\ forall n, In n fields ->
           dict_get (KStr n) d = assoc n (nt_items nt)
           /\ assoc n (nt_items nt) <> None)
  /\ (is_ok match kwargs (PDict d) with
            | Ok kw => namedtuple_new typename fields kw
            | Raise e => Raise e
            end = true
      <-> forall k, dict_mem k d = true <->
                    exists n, In n fields /\ k = KStr n).
Proof.
  intros typename fields d. unfold kwargs, namedtuple_new.
  destruct (string_keys d) as [kw | ] eqn:Ek.
  - pose proof (string_keys_keys d kw Ek) as Hkeys.
    destruct (forallb (fun n => mem_string n fields) (map fst kw)) eqn:F1;
      [destruct (forallb (fun f => mem_string f (map fst kw)) fields) eqn:F2 | ];
      simpl.
    + rewrite forallb_forall in F1, F2. split.
      * intros nt [= <-]. simpl. split; [reflexivity | ]. split.
        { rewrite map_map. simpl. apply map_id. }
        intros n Hn. rewrite (assoc_map
          (fun f => match assoc f kw with Some x => x | None => PNone end)
          fields n Hn).
        split; [ | discriminate].
        rewrite <- (string_keys_assoc d kw n Ek).
        pose proof (assoc_In kw n) as Hin.
        destruct (assoc n kw); [reflexivity | ].
        exfalso. apply Hin; [ | reflexivity].
        apply mem_string_In. auto.
      * split; [intros _ | reflexivity].
        intros k. rewrite dict_mem_keys, Hkeys, in_map_iff. split.
        { intros (s & <- & Hs). exists s. split; [ | reflexivity].
          apply mem_string_In. auto. }
        { intros (n & Hn & ->). exists n. split; [reflexivity | ].
          apply mem_string_In. auto. }
    + split; [discriminate | ]. split; [discriminate | ]. intros H.
      exfalso. apply Bool.not_true_iff_false in F2. apply F2.
      apply forallb_forall. intros n Hn. apply mem_string_In.
      assert (Hk : dict_mem (KStr n) d = true) by (apply H; eauto).
      rewrite dict_mem_keys, Hkeys, in_map_iff in Hk.
      destruct Hk as (s & [= ->] & Hs). exact Hs.
    + split; [discriminate | ]. split; [discriminate | ]. intros H.
      exfalso. apply Bool.not_true_iff_false in F1. apply F1.
      apply forallb_forall. intros s Hs. apply mem_string_In.
      assert (Hk : dict_mem (KStr s) d = true).
      { rewrite dict_mem_keys, Hkeys. now apply in_map. }
      apply H in Hk. destruct Hk as (n & Hn & [= ->]). exact Hn.
  - simpl. split; [discriminate | ]. split; [discriminate | ]. intros H.
    exfalso. destruct (string_keys_total d) as (kw & E); [ | congruence].
    intros k Hk. apply dict_mem_keys in Hk. apply H in Hk.
    destruct Hk as (n & _ & ->). eauto.
Qed.
End NamedTuples.

(** X7.  [_Network] makes a tuple of a raw record exactly when the keys of
    the record are the eight fields of [Network], no more and no fewer;
    the tuple then has, under each field, the value the record has under
    it. *)
Theorem X7_Network_takes_exactly_its_fields :
  forall raw_network : dict pyval,
    (forall network,
        _Network (PDict raw_network) = Ok network ->
        nt_typename network = "Network"
        /\ forall n, In n Network_fields ->
             dict_get (KStr n) raw_network = Some (field network n))
    /\ (is_ok (_Network (PDict raw_network)) = true
        <-> forall k, dict_mem k raw_network = true <->
                      exists n, In n Network_fields /\ k = KStr n).
Proof.
  intros raw.
  destruct (namedtuple_of_record "Network" Network_fields raw) as [H1 H2].
  split; [ | exact H2].
  intros network E. destruct (H1 network E) as (Ht & _ & Hv).
  split; [exact Ht | ]. intros n Hn. destruct (Hv n Hn) as [-> Hsome].
  unfold field. now destruct (assoc n (nt_items network)).
Qed.

(** X8.  What [_get_fields] resolves with the link fields of the base
    builder has the keys that [_Link] takes, and what it resolves with the
    network fields has the keys that [_Network] takes: a record that was
    resolved is never refused for its shape. *)
Theorem X8_resolved_records_fit_the_tuples :
  forall (RT : Runtime) (network_adapters : list (string * string))
         (raw_data data : dict pyval) (w w' : world),
    (_get_fields (values (link_fields base_link_name network_adapters))
       raw_data w = (Ok (Some data), w') ->
     is_ok (_Link (PDict data)) = true)
    /\ (_get_fields (values network_fields) raw_data w = (Ok (Some data), w') ->
        is_ok (_Network (PDict data)) = true).
Proof.
  intros RT adapters raw data w w'.
  unfold _get_fields, values, link_fields, network_fields.
  cbn -[dict_get uuid1 _on_mac_not_found].
  unfold _get_field; cbn -[dict_get uuid1 _on_mac_not_found].
  destruct (uuid1 w) as [s u1].
  split.
  - repeat match goal with
           | |- context [dict_get ?k raw] =>
               destruct (dict_get k raw);
               cbn -[dict_get uuid1 _on_mac_not_found]
           end;
      rewrite ?_on_mac_not_found_required by reflexivity;
      intros E; cbv [ret] in E; try discriminate E;
      injection E as <- _; reflexivity.
  - repeat match goal with
           | |- context [dict_get ?k raw] =>
               destruct (dict_get k raw);
               cbn -[dict_get uuid1 _on_mac_not_found]
           end;
      intros E; cbv [ret] in E; try discriminate E;
      injection E as <- _; reflexivity.
Qed.

Lemma X8_witness :
  is_ok (_Link (PDict (resolved_link link_a 0))) = true.
Proof.
  apply (X8_resolved_records_fit_the_tuples reference_runtime sample_adapters
           link_a (resolved_link link_a 0) 0%nat 1%nat).
  reflexivity.
Defined.

(** ** More on [_digest_networks] and [_digest_links] *)

Section Digests.
Context `{RT : Runtime}.

Lemma total_append : forall (references : dict (list pyval)) k x,
  total (dict_set k (match dict_get k references with
                     | Some l => l
                     | None => []
                     end ++ [x]) references)
  = S (total references).
Proof.
  unfold total. induction references as [ | [k' l] d IH]; intros k x; simpl.
  - reflexivity.
  - destruct (key_eqb k k'); simpl.
    + rewrite !length_app. simpl. lia.
    + rewrite !length_app, IH. lia.
Qed.

Lemma length_dict_set : forall V (d : dict V) k v,
  (List.length (dict_set k v d) <= S (List.length d))%nat.
Proof.
  induction d as [ | [k' v'] d IH]; intros k v; simpl; [lia | ].
  destruct (key_eqb k k'); simpl; [lia | ]. specialize (IH k v). lia.
Qed.

(** Each raw network adds one id to the references and at most one entry
    to the networks. *)
Lemma _digest_networks_from_counts :
  forall raw_networks networks references networks' references',
    _digest_networks_from raw_networks networks references
      = Ok (networks', references') ->
    total references' = (total references + List.length raw_networks)%nat
    /\ (List.length networks'
        <= List.length networks + List.length raw_networks)%nat.
Proof.
  induction raw_networks as [ | raw raw_networks IH];
    intros networks references networks' references'; simpl.
  - intros [= <- <-]. lia.
  - destruct (_Network raw) as [network | e]; [ | destruct e; discriminate].
    unfold dict_setitem.
    destruct (key_of (field network ID)) as [ki | ]; [ | discriminate].
    destruct (key_of (field network ASSIGNED_TO)) as [kl | ];
      [ | discriminate].
    intros H. apply IH in H. rewrite total_append in H.
    pose proof (length_dict_set _ networks ki network). lia.
Qed.

(** [_digest_networks] raises [NetworkDetailsError] for a record that
    makes no tuple, [TypeError] for a buffer that cannot be iterated, for
    an id or link that cannot be a key and for a tuple that the message
    of the error cannot be made of, and nothing else. *)
Lemma _digest_networks_from_raises :
  forall raw_networks networks references e,
    _digest_networks_from raw_networks networks references = Raise e ->
    e = NetworkDetailsError \/ e = TypeError.
Proof.
  induction raw_networks as [ | raw raw_networks IH];
    intros networks references e; simpl; [discriminate | ].
  destruct (_Network raw) as [network | e0] eqn:En.
  - unfold dict_setitem.
    destruct (key_of (field network ID)); [ | intros [= <-]; auto].
    destruct (key_of (field network ASSIGNED_TO)); [ | intros [= <-]; auto].
    apply IH.
  - rewrite (_Network_raises _ _ En). intros [= <-].
    unfold invalid_raw_network.
    destruct raw as [ | b | z | s | l | [ | x [ | y l]] | d]; auto.
Qed.
(** [_digest_links] returns only when the buffer of links is false. *)
Lemma _digest_links_returns :
  forall X (self self' : NetworkDetailsBuilder X) links,
    _digest_links self = (Ok links, self') ->
    links = [] /\ self' = self /\ truthy (_links self) = false.
Proof.
  intros X self self' links H.
  destruct (truthy (_links self)) eqn:Et.
  - destruct (_digest_links_populated X self Et) as (e & s & E).
    rewrite E in H. discriminate.
  - revert H. unfold _digest_links. unfold bind at 1.
    destruct (_links self) as [ | b | z | s | l | l | d]; simpl in *;
      try discriminate.
    + destruct s; [ | discriminate]. simpl. now intros [= <- <-].
    + destruct l; [ | discriminate]. simpl. now intros [= <- <-].
    + destruct l; [ | discriminate]. simpl. now intros [= <- <-].
    + destruct d; [ | discriminate]. simpl. now intros [= <- <-].
Qed.
End Digests.

(** X9.  In the networks that [_digest_networks] returns, an id is mapped
    to the tuple of the last raw record that has it: a later record takes
    the place of an earlier one of the same id, and an id that no record
    has is no key. *)
Theorem X9_networks_keep_last_record_of_an_id :
  forall (RT : Runtime) (X : Type) (self : NetworkDetailsBuilder X)
         (networks : dict namedtuple) (references : dict (list pyval)),
    _digest_networks self = Ok (networks, references) ->
    exists raw_networks built,
      py_iter (_networks self) = Ok raw_networks
      /\ Forall2 (fun raw network => _Network raw = Ok network)
                 raw_networks built
      /\ forall k, dict_get k networks = stored k built.
Proof.
  intros RT X self networks references. unfold _digest_networks.
  destruct (py_iter (_networks self)) as [raw_networks | e]; [ | discriminate].
  intros H.
  destruct (_digest_networks_from_spec _ _ _ _ _ H)
    as (built & F2 & _ & Hn & _).
  exists raw_networks, built. split; [reflexivity | ]. split; [exact F2 | ].
  intros k. rewrite Hn. now destruct (stored k built).
Qed.

Lemma X9_witness :
  exists networks references raw_networks built,
    _digest_networks
      (builder_with (PList [])
                    (PList [network_n1_on "l1"; network_n1_on "l2"]))
      = Ok (networks, references)
    /\ Forall2 (fun raw network => _Network raw = Ok network)
               raw_networks built
    /\ dict_get (KStr "n1") networks = stored (KStr "n1") built.
Proof.
  eexists. eexists.
  destruct (X9_networks_keep_last_record_of_an_id reference_runtime unit
              (builder_with (PList [])
                            (PList [network_n1_on "l1"; network_n1_on "l2"]))
              _ _ eq_refl)
    as (raw_networks & built & _ & F2 & Hn).
  exists raw_networks, built.
  split; [reflexivity | split; [exact F2 | apply Hn]].
Defined.

(** X10.  When [_digest_networks] returns, the buckets of the references
    hold as many ids as the buffer has raw networks, one for each record
    and also for the records that share an id, and the networks have at
    most that many entries. *)
Theorem X10_one_reference_for_each_raw_network :
  forall (RT : Runtime) (X : Type) (self : NetworkDetailsBuilder X)
         (raw_networks : list pyval)
         (networks : dict namedtuple) (references : dict (list pyval)),
    py_iter (_networks self) = Ok raw_networks ->
    _digest_networks self = Ok (networks, references) ->
    total references = List.length raw_networks
    /\ (List.length networks <= List.length raw_networks)%nat.
Proof.
  intros RT X self raw_networks networks references Hraw.
  unfold _digest_networks. rewrite Hraw. intros H.
  apply _digest_networks_from_counts in H. simpl in H. exact H.
Qed.

Lemma X10_witness :
  exists networks references,
    _digest_networks
      (builder_with (PList [])
                    (PList [network_n1_on "l1"; network_n1_on "l2"]))
      = Ok (networks, references)
    /\ total references = 2%nat
    /\ (List.length networks <= 2)%nat.
Proof.
  eexists. eexists. split; [reflexivity | ].
  apply (X10_one_reference_for_each_raw_network reference_runtime unit
           (builder_with (PList [])
                         (PList [network_n1_on "l1"; network_n1_on "l2"]))
           [network_n1_on "l1"; network_n1_on "l2"]); reflexivity.
Defined.

(** X11.  [_digest_networks] raises nothing but [NetworkDetailsError] and
    [TypeError].  A raw record that makes no [Network], wherever it stands
    in the buffer after records that are digested, ends the digest: with
    [NetworkDetailsError] when it is no tuple or a tuple of one item, and
    with [TypeError] when it is a tuple of another length, the message of
    the error being made of the record with [%]. *)
Theorem X11_digest_networks_errors :
  forall (RT : Runtime) (X : Type) (self : NetworkDetailsBuilder X),
    (forall e, _digest_networks self = Raise e ->
               e = NetworkDetailsError \/ e = TypeError)
    /\ (forall before raw_network rest e,
          py_iter (_networks self) = Ok (before ++ raw_network :: rest) ->
          is_ok (_digest_networks_from before [] []) = true ->
          _Network raw_network = Raise e ->
          (forall items, raw_network = PTuple items ->
                         List.length items = 1%nat) ->
          _digest_networks self = Raise NetworkDetailsError)
    /\ (forall before items rest,
          py_iter (_networks self) = Ok (before ++ PTuple items :: rest) ->
          is_ok (_digest_networks_from before [] []) = true ->
          List.length items <> 1%nat ->
          _digest_networks self = Raise TypeError).
Proof.
  intros RT X self. unfold _digest_networks. split; [ | split].
  - intros e. destruct (py_iter (_networks self)) as [raw_networks | e0] eqn:E.
    + apply _digest_networks_from_raises.
    + intros [= <-]. right. revert E. unfold py_iter.
      destruct (_networks self); congruence.
  - intros before raw rest e -> Hok Hbad Hlen.
    rewrite (_digest_networks_from_malformed before raw rest e [] [] Hbad Hok).
    f_equal. unfold invalid_raw_network.
    destruct raw as [ | b | z | s | l | [ | x [ | y l]] | d]; try reflexivity;
      specialize (Hlen _ eq_refl); discriminate Hlen.
  - intros before items rest -> Hok Hlen.
    rewrite (_digest_networks_from_malformed before (PTuple items) rest
               TypeError [] [] eq_refl Hok).
    f_equal. unfold invalid_raw_network.
    destruct items as [ | x [ | y l]]; try reflexivity.
    now contradiction Hlen.
Qed.

Lemma X11_witness :
  _digest_networks
    (builder_with (PList []) (PList [sample_network; PTuple [PInt 1; PInt 2]]))
  = Raise TypeError.
Proof.
  destruct (X11_digest_networks_errors reference_runtime unit
              (builder_with (PList [])
                            (PList [sample_network; PTuple [PInt 1; PInt 2]])))
    as (_ & _ & H).
  apply (H [sample_network] [PInt 1; PInt 2] []);
    [reflexivity | reflexivity | discriminate].
Defined.

(** X12.  [_digest_links] returns only when the buffer of links is empty:
    what it returns is then the empty mapping, and the builder is left as
    it was. *)
Theorem X12_digest_links_only_of_empty_buffer :
  forall (RT : Runtime) (X : Type) (self self' : NetworkDetailsBuilder X)
         (links : dict namedtuple),
    _digest_links self = (Ok links, self') ->
    links = [] /\ self' = self /\ truthy (_links self) = false.
Proof. intros RT X. apply _digest_links_returns. Qed.

Lemma X12_witness :
  truthy (_links (builder_with (PList []) (PList [sample_network]))) = false.
Proof.
  apply (X12_digest_links_only_of_empty_buffer reference_runtime unit
           (builder_with (PList []) (PList [sample_network]))
           (builder_with (PList []) (PList [sample_network])) []).
  reflexivity.
Defined.

(** X13.  A raw link that has an address and a netmask that
    [ip_interface] accepts: [_digest_links] writes the four derived keys
    into the record that the buffer holds, and then raises
    [NetworkDetailsError]; the record stays rewritten. *)
Theorem X13_digest_links_rewrites_the_record :
  forall (RT : Runtime) (X : Type) (self : NetworkDetailsBuilder X)
         (raw_link : dict pyval) (rest : list pyval)
         (ip_address netmask : pyval) (derived : dict pyval),
    _links self = PList (PDict raw_link :: rest) ->
    dict_get (KStr IP_ADDRESS) raw_link = Some ip_address ->
    dict_get (KStr NETMASK) raw_link = Some netmask ->
    _digest_interface ip_address netmask = Ok derived ->
    _digest_links self
    = (Raise NetworkDetailsError,
       set_links (PList (PDict (dict_update raw_link derived) :: rest)) self).
Proof.
  intros RT X self d rest ip nm derived Hl Hip Hnm Hd.
  unfold _digest_links. unfold bind at 1. rewrite Hl. simpl. run. simpl.
  rewrite Hip, Hnm, Hd.
  destruct (_digest_interface_keys _ _ _ Hd) as (a & b & c & v & ->).
  rewrite (_Link_leftover _ BROADCAST (updated_link_has_broadcast d a b c v)
             eq_refl).
  simpl. unfold store_link. now rewrite Hl.
Qed.

Lemma X13_witness :
  snd (_digest_links
         (builder_with (PList [link_with_address]) (PList [sample_network])))
  = set_links
      (PList [PDict (dict_update
                       (json_object
                          (sample_link_items
                           ++ [("ip_address", PStr "10.0.0.5");
                               ("netmask", PStr "255.255.255.0")]))
                       [ (KStr BROADCAST, PStr "10.0.0.255");
                         (KStr NETMASK, PStr "255.255.255.0");
                         (KStr IP_ADDRESS, PStr "10.0.0.5");
                         (KStr VERSION, PInt 4) ])])
      (builder_with (PList [link_with_address]) (PList [sample_network])).
Proof.
  rewrite (X13_digest_links_rewrites_the_record reference_runtime unit
             (builder_with (PList [link_with_address]) (PList [sample_network]))
             (json_object
                (sample_link_items
                 ++ [("ip_address", PStr "10.0.0.5");
                     ("netmask", PStr "255.255.255.0")]))
             [] (PStr "10.0.0.5") (PStr "255.255.255.0")
             [ (KStr BROADCAST, PStr "10.0.0.255");
               (KStr NETMASK, PStr "255.255.255.0");
               (KStr IP_ADDRESS, PStr "10.0.0.5");
               (KStr VERSION, PInt 4) ]); reflexivity.
Defined.

(** ** The snapshot of a builder, and the plugin on it *)

Lemma key_of_val_of_key : forall k, key_of (val_of_key k) = Some k.
Proof.
  induction k as [ | z | s | ks IH] using key_nested_ind; try reflexivity.
  simpl. induction IH as [ | k ks Hk _ IHks]; [reflexivity | ].
  simpl. rewrite Hk.
  destruct ((fix go (l : list pyval) : option (list key) :=
               match l with
               | [] => Some []
               | x :: l' =>
                   match key_of x, go l' with
                   | Some k, Some ks => Some (k :: ks)
                   | _, _ => None
                   end
               end) (map val_of_key ks)) as [ks' | ]; [ | discriminate].
  simpl in *. now injection IHks as ->.
Qed.

Section Snapshots.
Context `{RT : Runtime}.

(** A tuple that [_Network] makes has the fields of [Network]. *)
Lemma _Network_items : forall raw network,
  _Network raw = Ok network -> map fst (nt_items network) = Network_fields.
Proof.
  intros raw network. unfold _Network, namedtuple_new.
  destruct (kwargs raw) as [kw | e]; [ | discriminate].
  destruct (_ && _); [ | discriminate].
  intros [= <-]. simpl. reflexivity.
Qed.

Lemma assoc_absent : forall kw n,
  ~ In n (map fst kw) -> assoc n kw = None.
Proof.
  induction kw as [ | [s x] kw IH]; intros n H; simpl in *; [reflexivity | ].
  destruct (String.eqb n s) eqn:E.
  - apply String.eqb_eq in E. subst. tauto.
  - apply IH. tauto.
Qed.

Lemma Network_has_no_name : forall raw network,
  _Network raw = Ok network ->
  getattr (Some (Tuple_ network)) NAME = Raise AttributeError.
Proof.
  intros raw network H. simpl. rewrite assoc_absent; [reflexivity | ].
  rewrite (_Network_items _ _ H). simpl. intuition discriminate.
Qed.

Lemma Forall_dict_set : forall V (P : V -> Prop) (d : dict V) k v,
  Forall (fun kv => P (snd kv)) d -> P v ->
  Forall (fun kv => P (snd kv)) (dict_set k v d).
Proof.
  induction d as [ | [k' v'] d IH]; intros k v Hd Hv; simpl.
  - now constructor.
  - inversion Hd; subst. destruct (key_eqb k k'); constructor; auto.
Qed.

(** The networks that the loop of [_digest_networks] leaves are tuples
    that [_Network] made. *)
Lemma _digest_networks_from_values :
  forall raw_networks networks references networks' references',
    _digest_networks_from raw_networks networks references
      = Ok (networks', references') ->
    Forall (fun kv => exists raw, _Network raw = Ok (snd kv)) networks ->
    Forall (fun kv => exists raw, _Network raw = Ok (snd kv)) networks'.
Proof.
  induction raw_networks as [ | raw raw_networks IH];
    intros networks references networks' references'; simpl.
  - now intros [= <- <-].
  - destruct (_Network raw) as [network | e] eqn:En;
      [ | destruct e; discriminate].
    unfold dict_setitem.
    destruct (key_of (field network ID)) as [ki | ]; [ | discriminate].
    destruct (key_of (field network ASSIGNED_TO)) as [kl | ];
      [ | discriminate].
    intros H Hall. eapply IH; [exact H | ].
    apply (Forall_dict_set _ (fun v => exists raw, _Network raw = Ok v));
      eauto.
Qed.

(** What [get_network_details] returns, when it returns. *)
Lemma get_network_details_returns :
  forall X (_digest : M (NetworkDetailsBuilder X) unit) self snapshot self',
    get_network_details _digest self = (Ok snapshot, self') ->
    exists networks references,
      _digest_networks self' = Ok (networks, references)
      /\ snapshot = {| NetworkDetails._assigned_to := [];
                       NetworkDetails._links := tuples networks;
                       NetworkDetails._networks := lists references |}
      /\ truthy (_links self') = false.
Proof.
  intros X dg self snapshot self'. unfold get_network_details. run.
  assert (G : forall s1,
             match _digest_links s1 with
             | (Ok a, s') =>
                 match _digest_networks s' with
                 | Ok a0 =>
                     (Ok (NetworkDetails.__init__ (tuples a) (tuples (fst a0))
                            (lists (snd a0))), s')
                 | Raise e => (Raise e, s')
                 end
             | (Raise e, s') => (Raise e, s')
             end = (Ok snapshot, self') ->
             exists networks references,
               _digest_networks self' = Ok (networks, references)
               /\ snapshot = {| NetworkDetails._assigned_to := [];
                                NetworkDetails._links := tuples networks;
                                NetworkDetails._networks := lists references |}
               /\ truthy (_links self') = false).
  { intros s1. destruct (_digest_links s1) as [[links | e] s2] eqn:El;
      [ | discriminate].
    pose proof (_digest_links_returns X s1 s2 links El) as Hl.
    destruct Hl as (-> & -> & Ht).
    destruct (_digest_networks s1) as [[networks references] | e] eqn:En;
      [ | discriminate].
    intros [= <- <-]. exists networks, references. rewrite En. auto. }
  destruct (negb (truthy (_links self)) || negb (truthy (_networks self))).
  - destruct (dg self) as [[[] | e] s1]; [apply G | discriminate].
  - apply G.
Qed.
End Snapshots.

(** X14.  Every snapshot that [get_network_details] returns, whatever
    [_digest] is: it was built with an empty buffer of links, so its
    mapping [_assigned_to] is empty and [get_networks] answers [None] for
    every link; [get_links] lists the ids of the networks and [get_link]
    gives the network of an id; [get_network] gives the list of ids kept
    for a link. *)
Theorem X14_snapshot_of_a_builder :
  forall (RT : Runtime) (X : Type) (_digest : M (NetworkDetailsBuilder X) unit)
         (self self' : NetworkDetailsBuilder X) (snapshot : NetworkDetails.t),
    get_network_details _digest self = (Ok snapshot, self') ->
    exists networks references,
      _digest_networks self' = Ok (networks, references)
      /\ truthy (_links self') = false
      /\ NetworkDetails.get_links snapshot
         = map val_of_key (dict_keys networks)
      /\ forall v k, key_of v = Some k ->
           NetworkDetails.get_networks snapshot v = Ok None
           /\ NetworkDetails.get_link snapshot v
              = Ok (option_map Tuple_ (dict_get k networks))
           /\ NetworkDetails.get_network snapshot v
              = Ok (option_map List_ (dict_get k references)).
Proof.
  intros RT X dg self self' snapshot H.
  destruct (get_network_details_returns X dg self snapshot self' H)
    as (networks & references & En & -> & Ht).
  exists networks, references. split; [exact En | ]. split; [exact Ht | ].
  split.
  - unfold NetworkDetails.get_links, tuples, dict_keys. simpl.
    now rewrite !map_map.
  - intros v k Hk.
    unfold NetworkDetails.get_networks, NetworkDetails.get_link,
      NetworkDetails.get_network, dict_lookup. simpl. rewrite Hk.
    unfold tuples, lists. now rewrite !dict_get_map.
Qed.

Lemma X14_witness :
  exists snapshot networks references,
    fst (get_network_details (ret tt)
           (builder_with (PList []) (PList [sample_network]))) = Ok snapshot
    /\ _digest_networks (builder_with (PList []) (PList [sample_network]))
       = Ok (networks, references)
    /\ NetworkDetails.get_links snapshot = map val_of_key (dict_keys networks).
Proof.
  eexists.
  destruct (X14_snapshot_of_a_builder reference_runtime unit (ret tt)
              (builder_with (PList []) (PList [sample_network])) _ _ eq_refl)
    as (networks & references & En & _ & Hl & _).
  exists networks, references.
  split; [reflexivity | split; [exact En | exact Hl]].
Defined.

(** X15.  The plugin on a snapshot that [get_network_details] returned:
    no primitive of the host is ever called.  When the builder digested no
    network, [execute] logs that no adapter was configured and asks for no
    reboot; otherwise it takes the first network for a link and raises
    [AttributeError], a network having no name. *)
Theorem X15_plugin_on_the_snapshot_of_a_builder :
  forall (RT : Runtime) (OS : networkconfig.OSUtils) (X : Type)
         (_digest : M (NetworkDetailsBuilder X) unit)
         (self self' : NetworkDetailsBuilder X) (snapshot : NetworkDetails.t)
         (s : networkconfig.plugin_state),
    get_network_details _digest self = (Ok snapshot, self') ->
    networkconfig.execute (networkconfig.Details snapshot) s
    = match NetworkDetails.get_links snapshot with
      | [] =>
          (Ok (networkconfig.PLUGIN_EXECUTION_DONE, false),
           {| networkconfig.host := networkconfig.host s;
              networkconfig.logged :=
                networkconfig.logged s
                ++ [(networkconfig.ERROR, "No adapters were configured")] |})
      | _ :: _ => (Raise AttributeError, s)
      end.
Proof.
  intros RT OS X dg self self' snapshot s H.
  destruct (get_network_details_returns X dg self snapshot self' H)
    as (networks & references & En & -> & Ht).
  assert (Hv : Forall (fun kv => exists raw, _Network raw = Ok (snd kv))
                      networks).
  { revert En. unfold _digest_networks.
    destruct (py_iter (_networks self')) as [raws | e]; [ | discriminate].
    intros En. eapply _digest_networks_from_values; [exact En | constructor]. }
  unfold networkconfig.execute, NetworkDetails.get_links. simpl.
  destruct networks as [ | [k network] networks]; simpl.
  - reflexivity.
  - inversion Hv as [ | ? ? (raw & Hraw) _]; subst. simpl in Hraw.
    run. unfold NetworkDetails.get_link, dict_lookup. simpl.
    rewrite key_of_val_of_key, key_eqb_refl.
    unfold networkconfig._configure_interface, networkconfig.attr. run.
    now rewrite (Network_has_no_name raw network Hraw).
Qed.

Lemma X15_witness :
  exists snapshot,
    fst (get_network_details (ret tt)
           (builder_with (PList []) (PList [sample_network]))) = Ok snapshot
    /\ networkconfig.execute (networkconfig.Details snapshot) fresh_plugin
       = (Raise AttributeError, fresh_plugin).
Proof.
  eexists. split; [reflexivity | ].
  apply (X15_plugin_on_the_snapshot_of_a_builder reference_runtime
           reference_os unit (ret tt)
           (builder_with (PList []) (PList [sample_network])) _ _ fresh_plugin
           eq_refl).
Defined.

(** X16.  Every id that [get_links] lists is found by [get_link]. *)
Theorem X16_get_links_are_found :
  forall (self : NetworkDetails.t) (link_id : pyval),
    In link_id (NetworkDetails.get_links self) ->
    exists link, NetworkDetails.get_link self link_id = Ok (Some link).
Proof.
  intros self link_id. unfold NetworkDetails.get_links, NetworkDetails.get_link.
  rewrite in_map_iff. intros (k & <- & Hk).
  unfold dict_lookup. rewrite key_of_val_of_key.
  apply dict_get_keys in Hk.
  destruct (dict_get k (NetworkDetails._links self)) as [link | ];
    [eauto | contradiction].
Qed.

Lemma X16_witness :
  exists link,
    NetworkDetails.get_link (three_links "aa:02") (PStr "l2") = Ok (Some link).
Proof.
  apply (X16_get_links_are_found (three_links "aa:02") (PStr "l2")).
  simpl. auto.
Defined.

(** ** The digest of the OpenStack builder *)

Section HttpDigest.
Context `{RT : Runtime}.
Variables (w0 : world) (network_adapters : list (string * string))
          (network_data : httpservice.network_data_t).

(** A raw link that resolves ends the loop with [KeyError]; one that is
    rejected is passed over.  The builder changes in its state only. *)
Lemma _digest_raw_link_cases :
  forall (self : httpservice._NetworkDetailsBuilder) raw_link,
    _link self
    = _link (httpservice.__init__ w0 network_adapters network_data) ->
    exists w,
      httpservice._digest_raw_link raw_link self
      = (if openstack_link_resolves raw_link then Raise KeyError else Ok tt,
         set_world w self).
Proof.
  intros self raw Hl. unfold httpservice._digest_raw_link. run.
  unfold httpservice.get_fields, zoom. rewrite Hl.
  rewrite (openstack_link_fields_spec RT w0 network_adapters network_data raw
             (_world self)).
  destruct (openstack_link_resolves raw); eexists; reflexivity.
Qed.

Lemma for_each_raw_links :
  forall raw_links (self : httpservice._NetworkDetailsBuilder),
    _link self
    = _link (httpservice.__init__ w0 network_adapters network_data) ->
    exists w,
      httpservice.for_each raw_links httpservice._digest_raw_link self
      = (if existsb openstack_link_resolves raw_links
         then Raise KeyError else Ok tt,
         set_world w self).
Proof.
  induction raw_links as [ | raw raw_links IH]; intros self Hl; simpl.
  - exists (_world self). now destruct self.
  - run. destruct (_digest_raw_link_cases self raw Hl) as (w1 & ->).
    destruct (openstack_link_resolves raw); simpl;
      [exists w1; reflexivity | ].
    destruct (IH (set_world w1 self) Hl) as (w2 & ->).
    exists w2. reflexivity.
Qed.

(** A raw network that resolves ends the loop with [AttributeError], once
    [self._invalid_links] is the keys of [self._links]. *)
Lemma _digest_raw_network_cases :
  forall (self : httpservice._NetworkDetailsBuilder) raw_network,
    _network self
    = _network (httpservice.__init__ w0 network_adapters network_data) ->
    httpservice._invalid_links (_ext self) = httpservice.KeysView ->
    exists w,
      httpservice._digest_raw_network raw_network self
      = (if openstack_network_resolves raw_network
         then Raise AttributeError else Ok tt,
         set_world w self).
Proof.
  intros self raw Hn Hi. unfold httpservice._digest_raw_network,
    httpservice.invalid_links_pop_default. run.
  unfold httpservice.get_fields, zoom. rewrite Hn.
  rewrite (openstack_network_fields_spec RT w0 network_adapters network_data raw
             (_world self)).
  destruct (openstack_network_resolves raw); simpl;
    [rewrite Hi | ]; eexists; reflexivity.
Qed.

Lemma for_each_raw_networks :
  forall raw_networks (self : httpservice._NetworkDetailsBuilder),
    _network self
    = _network (httpservice.__init__ w0 network_adapters network_data) ->
    httpservice._invalid_links (_ext self) = httpservice.KeysView ->
    exists w,
      httpservice.for_each raw_networks httpservice._digest_raw_network self
      = (if existsb openstack_network_resolves raw_networks
         then Raise AttributeError else Ok tt,
         set_world w self).
Proof.
  induction raw_networks as [ | raw raw_networks IH]; intros self Hn Hi; simpl.
  - exists (_world self). now destruct self.
  - run. destruct (_digest_raw_network_cases self raw Hn Hi) as (w1 & ->).
    destruct (openstack_network_resolves raw); simpl;
      [exists w1; reflexivity | ].
    destruct (IH (set_world w1 self) Hn Hi) as (w2 & ->).
    exists w2. reflexivity.
Qed.

(** The digest of a builder as [__init__] made it: what it returns or
    raises, and the builder it leaves, which differs from the first in its
    state and in [_invalid_links] at most. *)
Lemma _digest_outcome :
  exists w i,
    httpservice._digest
      (httpservice.__init__ w0 network_adapters network_data)
    = (if existsb openstack_link_resolves (links_of network_data)
       then Raise KeyError
       else match httpservice.nd_networks network_data with
            | None => Raise TypeError
            | Some raw_networks =>
                if existsb openstack_network_resolves raw_networks
                then Raise AttributeError else Ok tt
            end,
       httpservice.set_invalid_links i (set_world w
          (httpservice.__init__ w0 network_adapters network_data))).
Proof.
  unfold httpservice._digest. unfold bind at 1. unfold gets at 1.
  unfold bind at 1.
  change (match httpservice.nd_links
                  (httpservice._network_data
                     (_ext (httpservice.__init__ w0 network_adapters
                              network_data))) with
          | Some l => l
          | None => []
          end) with (links_of network_data).
  destruct (for_each_raw_links (links_of network_data)
              (httpservice.__init__ w0 network_adapters network_data) eq_refl)
    as (w1 & ->).
  destruct (existsb openstack_link_resolves (links_of network_data)).
  - exists w1, (httpservice.InvalidList []). reflexivity.
  - unfold httpservice._digest_raw_networks. run. simpl.
    destruct (httpservice.nd_networks network_data) as [raw_networks | ].
    + destruct (for_each_raw_networks raw_networks
                  (httpservice.set_invalid_links httpservice.KeysView
                     (set_world w1
                        (httpservice.__init__ w0 network_adapters
                           network_data))) eq_refl eq_refl) as (w2 & ->).
      destruct (existsb openstack_network_resolves raw_networks).
      * exists w2, httpservice.KeysView. reflexivity.
      * exists w2, httpservice.KeysView. reflexivity.
    + exists w1, httpservice.KeysView. reflexivity.
Qed.
(** The same from a builder that differs from the one of [__init__] in
    its state and in [_invalid_links]: such is every builder that a call
    has left. *)
Lemma _digest_outcome_again :
  forall w1 i1, exists w i,
    httpservice._digest
      (httpservice.set_invalid_links i1 (set_world w1
         (httpservice.__init__ w0 network_adapters network_data)))
    = (if existsb openstack_link_resolves (links_of network_data)
       then Raise KeyError
       else match httpservice.nd_networks network_data with
            | None => Raise TypeError
            | Some raw_networks =>
                if existsb openstack_network_resolves raw_networks
                then Raise AttributeError else Ok tt
            end,
       httpservice.set_invalid_links i (set_world w
          (httpservice.__init__ w0 network_adapters network_data))).
Proof.
  intros w1 i1.
  unfold httpservice._digest. unfold bind at 1. unfold gets at 1.
  unfold bind at 1.
  change (match httpservice.nd_links
                  (httpservice._network_data
                     (_ext (httpservice.set_invalid_links i1 (set_world w1
                              (httpservice.__init__ w0 network_adapters
                                 network_data))))) with
          | Some l => l
          | None => []
          end) with (links_of network_data).
  destruct (for_each_raw_links (links_of network_data)
              (httpservice.set_invalid_links i1 (set_world w1
                 (httpservice.__init__ w0 network_adapters network_data)))
              eq_refl)
    as (w2 & ->).
  destruct (existsb openstack_link_resolves (links_of network_data)).
  - exists w2, i1. reflexivity.
  - unfold httpservice._digest_raw_networks. run. simpl.
    destruct (httpservice.nd_networks network_data) as [raw_networks | ].
    + destruct (for_each_raw_networks raw_networks
                  (httpservice.set_invalid_links httpservice.KeysView
                     (set_world w2
                        (httpservice.__init__ w0 network_adapters
                           network_data))) eq_refl eq_refl) as (w3 & E3).
      match goal with
      | |- context [httpservice.for_each raw_networks
                      httpservice._digest_raw_network ?st] =>
          change st
            with (httpservice.set_invalid_links httpservice.KeysView
                    (set_world w2
                       (httpservice.__init__ w0 network_adapters
                          network_data)))
      end.
      rewrite E3.
      destruct (existsb openstack_network_resolves raw_networks).
      * exists w3, httpservice.KeysView. reflexivity.
      * exists w3, httpservice.KeysView. reflexivity.
    + exists w2, httpservice.KeysView. reflexivity.
Qed.

(** What [get_network_details] gives from such a builder, and the
    builder it leaves. *)
Lemma get_network_details_again :
  forall w1 i1, exists w i,
    httpservice.get_network_details
      (httpservice.set_invalid_links i1 (set_world w1
         (httpservice.__init__ w0 network_adapters network_data)))
    = (if existsb openstack_link_resolves (links_of network_data)
       then Raise KeyError
       else match httpservice.nd_networks network_data with
            | None => Raise TypeError
            | Some raw_networks =>
                if existsb openstack_network_resolves raw_networks
                then Raise AttributeError
                else Ok {| NetworkDetails._assigned_to := [];
                           NetworkDetails._links := [];
                           NetworkDetails._networks := [] |}
            end,
       httpservice.set_invalid_links i (set_world w
          (httpservice.__init__ w0 network_adapters network_data))).
Proof.
  intros w1 i1.
  unfold httpservice.get_network_details, get_network_details. run. simpl.
  destruct (_digest_outcome_again w1 i1) as (w & i & ->).
  exists w, i.
  destruct (existsb openstack_link_resolves (links_of network_data));
    [reflexivity | ].
  destruct (httpservice.nd_networks network_data) as [raw_networks | ];
    [ | reflexivity].
  destruct (existsb openstack_network_resolves raw_networks); reflexivity.
Qed.

(** Every builder that there can be for a document is of that form. *)
Lemma openstack_builder_form :
  forall self,
    openstack_builder w0 network_adapters network_data self ->
    exists w i,
      self = httpservice.set_invalid_links i (set_world w
               (httpservice.__init__ w0 network_adapters network_data)).
Proof.
  intros self H. induction H as [ | self r self' _ IH E | self r self' _ IH E].
  - exists w0, (httpservice.InvalidList []). reflexivity.
  - destruct IH as (w1 & i1 & ->).
    destruct (_digest_outcome_again w1 i1) as (w & i & E').
    rewrite E' in E. injection E as _ <-. eauto.
  - destruct IH as (w1 & i1 & ->).
    destruct (get_network_details_again w1 i1) as (w & i & E').
    rewrite E' in E. injection E as _ <-. eauto.
Qed.
End HttpDigest.

(** X17.  The digest of the OpenStack builder, on the builder that
    [__init__] makes of a document: it raises [KeyError] when a raw link
    resolves, [TypeError] when the document has no entry ["networks"],
    [AttributeError] when a raw network resolves, and returns otherwise,
    that is, when every record of the document is rejected. *)
Theorem X17_openstack_digest_outcome :
  forall (RT : Runtime) (w0 : world)
         (network_adapters : list (string * string))
         (network_data : httpservice.network_data_t),
    fst (httpservice._digest
           (httpservice.__init__ w0 network_adapters network_data))
    = if existsb openstack_link_resolves (links_of network_data)
      then Raise KeyError
      else match httpservice.nd_networks network_data with
           | None => Raise TypeError
           | Some raw_networks =>
               if existsb openstack_network_resolves raw_networks
               then Raise AttributeError else Ok tt
           end.
Proof.
  intros RT w0 adapters nd.
  destruct (_digest_outcome w0 adapters nd) as (w & i & ->). reflexivity.
Qed.

(** X18.  The digest of the OpenStack builder stores nothing: whatever
    the document is and however the digest ends, the two raw buffers of the
    builder are the empty dictionaries that [__init__] made. *)
Theorem X18_openstack_digest_stores_nothing :
  forall (RT : Runtime) (w0 : world)
         (network_adapters : list (string * string))
         (network_data : httpservice.network_data_t),
    _links (snd (httpservice._digest
                   (httpservice.__init__ w0 network_adapters network_data)))
    = PDict []
    /\ _networks (snd (httpservice._digest
                         (httpservice.__init__ w0 network_adapters
                            network_data)))
       = PDict [].
Proof.
  intros RT w0 adapters nd.
  destruct (_digest_outcome w0 adapters nd) as (w & i & ->).
  split; reflexivity.
Qed.

(** X19.  A snapshot that the OpenStack builder returns is empty: it has
    no link and no network, and the document has an entry ["networks"] and
    no record that resolves.  This holds of every builder that there can
    be for the document: the one that [__init__] makes, and the one that
    any number of calls of [_digest] and of [get_network_details] have
    left, however they ended; and the builder that the call leaves is such
    a builder again. *)
Theorem X19_openstack_snapshot_is_empty :
  forall (RT : Runtime) (w0 : world)
         (network_adapters : list (string * string))
         (network_data : httpservice.network_data_t)
         (self self' : httpservice._NetworkDetailsBuilder)
         (snapshot : NetworkDetails.t),
    openstack_builder w0 network_adapters network_data self ->
    httpservice.get_network_details self = (Ok snapshot, self') ->
    snapshot = {| NetworkDetails._assigned_to := [];
                  NetworkDetails._links := [];
                  NetworkDetails._networks := [] |}
    /\ existsb openstack_link_resolves (links_of network_data) = false
    /\ (exists raw_networks,
          httpservice.nd_networks network_data = Some raw_networks
          /\ existsb openstack_network_resolves raw_networks = false)
    /\ openstack_builder w0 network_adapters network_data self'.
Proof.
  intros RT w0 adapters nd self self' snapshot Hb E.
  split; [ | split; [ | split]]; [ | | | eapply builder_asked; eauto].
  all: destruct (openstack_builder_form w0 adapters nd self Hb)
         as (w1 & i1 & ->);
       destruct (get_network_details_again w0 adapters nd w1 i1)
         as (w & i & E'); rewrite E' in E; clear E';
       destruct (existsb openstack_link_resolves (links_of nd));
         [discriminate | ];
       destruct (httpservice.nd_networks nd) as [raw_networks | ];
         [ | discriminate];
       destruct (existsb openstack_network_resolves raw_networks) eqn:En;
         [discriminate | ];
       injection E as <- _.
  - reflexivity.
  - reflexivity.
  - exists raw_networks. split; [reflexivity | exact En].
Qed.

(** The second call on the builder that a first call has left. *)
Lemma X19_witness :
  exists snapshot,
    fst (httpservice.get_network_details
           (snd (httpservice.get_network_details
                   (http_builder [link_without_mac]
                                 [network_without_address]))))
      = Ok snapshot
    /\ snapshot = {| NetworkDetails._assigned_to := [];
                     NetworkDetails._links := [];
                     NetworkDetails._networks := [] |}.
Proof.
  eexists. split; [reflexivity | ].
  eapply (X19_openstack_snapshot_is_empty reference_runtime 0%nat
            sample_adapters
            {| httpservice.nd_links := Some [link_without_mac];
               httpservice.nd_networks := Some [network_without_address] |}
            (snd (httpservice.get_network_details
                    (http_builder [link_without_mac]
                                  [network_without_address])))).
  - eapply builder_asked; [apply builder_made | ].
    apply surjective_pairing.
  - reflexivity.
Defined.

(** ** More on the plugin *)

Section PluginMore.
Import networkconfig.
Context `{OS : OSUtils}.




(** The loop of [execute] over links none of which is a physical one. *)
Lemma execute_from_not_phy :
  forall details link_ids,
    (forall link_id, In link_id link_ids ->
       exists link name mac type,
         NetworkDetails.get_link details link_id = Ok link
         /\ getattr link NAME = Ok name
         /\ getattr link MAC_ADDRESS = Ok mac
         /\ getattr link TYPE = Ok type
         /\ py_eq type (PStr PHY) = false) ->
    forall reboot_required configured s,
    exists s',
      execute_from details link_ids reboot_required configured s
        = (Ok (reboot_required, configured), s')
      /\ host s' = host s
      /\ count is_failure (logged s')
         = (count is_failure (logged s) + List.length link_ids)%nat
      /\ count is_no_adapters (logged s') = count is_no_adapters (logged s).
Proof.
  induction link_ids as [ | link_id link_ids IH];
    intros Hall reboot configured s; simpl.
  - exists s. repeat split; auto.
  - destruct (Hall link_id (or_introl eq_refl))
      as (link & name & mac & type & Hl & Hn & Hm & Ht & Hphy).
    unfold _configure_interface, attr, LOG. run.
    rewrite Hl, Hn, Hm, Ht, Hphy. simpl.
    match goal with
    | |- context [execute_from details link_ids reboot configured ?s1] =>
        destruct (IH (fun l Hl => Hall l (or_intror Hl)) reboot configured s1)
          as (s' & E & Hh & Hf & Hna)
    end.
    exists s'. split; [exact E | ]. simpl in Hh, Hf, Hna.
    split; [exact Hh | ]. rewrite Hf, Hna, !count_app.
    unfold count. simpl. split; lia.
Qed.
End PluginMore.





(** X22.  A physical link for which the snapshot keeps no list of
    networks: its configuration raises [TypeError], [None] not being
    iterable, before the host is touched; [execute], which meets the link
    first, raises it. *)
Theorem X22_link_without_networks_raises_TypeError :
  forall (OS : networkconfig.OSUtils) (details : NetworkDetails.t)
         (link_id : pyval) (rest : list pyval) (link : option obj)
         (id name mac type : pyval) (s : networkconfig.plugin_state),
    NetworkDetails.get_links details = link_id :: rest ->
    NetworkDetails.get_link details link_id = Ok link ->
    getattr link ID = Ok id ->
    getattr link NAME = Ok name ->
    getattr link MAC_ADDRESS = Ok mac ->
    getattr link TYPE = Ok type ->
    py_eq type (PStr PHY) = true ->
    NetworkDetails.get_networks details id = Ok None ->
    networkconfig.execute (networkconfig.Details details) s
    = (Raise TypeError,
       {| networkconfig.host := networkconfig.host s;
          networkconfig.logged :=
            networkconfig.logged s
            ++ [(networkconfig.DEBUG,
                 "Configuring link %(name)r: %(mac)s")] |}).
Proof.
  intros OS details link_id rest link id name mac type s
    Hlinks Hl Hi Hn Hm Ht Hphy Hnone.
  unfold networkconfig.execute. unfold bind at 1. rewrite Hlinks.
  erewrite execute_from_propagates; [reflexivity | | reflexivity].
  unfold configure_link, networkconfig._configure_interface,
    networkconfig._configure_phy, networkconfig.attr, networkconfig.LOG.
  run. rewrite Hl, Hn, Hm, Ht, Hphy, Hi, Hnone. reflexivity.
Qed.

Lemma X22_witness :
  fst (networkconfig.execute (networkconfig.Details link_without_bucket)
         fresh_plugin)
  = Raise TypeError.
Proof.
  rewrite (X22_link_without_networks_raises_TypeError reference_os
             link_without_bucket (PStr "l1") []
             (Some (plugin_link "l1" "aa:01"))
             (PStr "l1") (PStr "l1") (PStr "aa:01") (PStr "phy") fresh_plugin);
    reflexivity.
Defined.

(** X23.  A snapshot none of whose links is a physical one: [execute]
    calls no primitive of the host, logs one failure for each link and
    that no adapter was configured, and returns without asking for a
    reboot. *)
Theorem X23_only_physical_links_are_configured :
  forall (OS : networkconfig.OSUtils) (details : NetworkDetails.t)
         (s : networkconfig.plugin_state),
    (forall link_id, In link_id (NetworkDetails.get_links details) ->
       exists link name mac type,
         NetworkDetails.get_link details link_id = Ok link
         /\ getattr link NAME = Ok name
         /\ getattr link MAC_ADDRESS = Ok mac
         /\ getattr link TYPE = Ok type
         /\ py_eq type (PStr PHY) = false) ->
    exists s',
      networkconfig.execute (networkconfig.Details details) s
        = (Ok (networkconfig.PLUGIN_EXECUTION_DONE, false), s')
      /\ networkconfig.host s' = networkconfig.host s
      /\ count is_failure (networkconfig.logged s')
         = (count is_failure (networkconfig.logged s)
            + List.length (NetworkDetails.get_links details))%nat
      /\ count is_no_adapters (networkconfig.logged s')
         = S (count is_no_adapters (networkconfig.logged s)).
Proof.
  intros OS details s Hall.
  destruct (execute_from_not_phy details _ Hall false false s)
    as (s1 & E & Hh & Hf & Hna).
  unfold networkconfig.execute, networkconfig.LOG. run. rewrite E. simpl.
  eexists. split; [reflexivity | ]. simpl.
  split; [exact Hh | ]. rewrite !count_app, Hf, Hna.
  unfold count. simpl. split; lia.
Qed.

Lemma X23_witness :
  exists s',
    networkconfig.execute (networkconfig.Details bond_alone) fresh_plugin
      = (Ok (networkconfig.PLUGIN_EXECUTION_DONE, false), s')
    /\ networkconfig.host s' = networkconfig.host fresh_plugin.
Proof.
  destruct (X23_only_physical_links_are_configured reference_os bond_alone
              fresh_plugin) as (s' & E & Hh & _).
  - intros link_id [<- | []]. do 4 eexists. repeat split.
  - exists s'. split; [exact E | exact Hh].
Defined.

(** ** The HTTP service *)

Section ServiceFacts.
Import HttpService.
Context `{HTTP : Http} {B : Type}.
Variable make_builder : pyval -> B.
Variable details_of : B -> res NetworkDetails.t * B.
Variable super_get_network_details_builder :
  t (B := B) -> outcome unit * t (B := B).

(** [_get_response] raises no [HTTPError] with the code 404. *)
Lemma _get_response_no_404 : forall url data n e n',
  _get_response url data n = (Raises e, n') -> e <> HTTPError 404.
Proof.
  intros url data n e n'. unfold _get_response.
  destruct (urlopen url data n) as [[body | e0] n0]; [discriminate | ].
  destruct e0 as [code | | e0]; try (intros [= <- _]; discriminate).
  destruct (code =? 404)%Z eqn:E; intros [= <- _]; [discriminate | ].
  intros [= ->]. discriminate.
Qed.

(** What [_get_network_details_builder] returns is the builder that the
    service keeps when it returns. *)
Lemma _get_network_details_builder_kept : forall self builder self',
  _get_network_details_builder make_builder
    super_get_network_details_builder self = (Returns builder, self') ->
  _network_details_builder self' = builder.
Proof.
  intros self builder self'. unfold _get_network_details_builder.
  assert (S : forall s, or_super super_get_network_details_builder s
                        = (Returns builder, self') ->
                        _network_details_builder self' = builder).
  { intros s. unfold or_super.
    destruct (super_get_network_details_builder s) as [[[] | e] s1];
      [ | discriminate].
    now intros [= <- <-]. }
  destruct (_network_details_builder self) as [b | ] eqn:Eb.
  - intros [= <- <-]. exact Eb.
  - destruct (_get_data _NETWORK_DATA_JSON (_net self)) as [[text | e] n].
    + destruct (json_loads text) as [network_data | ].
      * destruct (truthy network_data); [now intros [= <- <-] | apply S].
      * destruct (truthy (PStr text)); [now intros [= <- <-] | apply S].
    + destruct e as [code | | e]; try discriminate; [apply S | ].
      destruct e; try discriminate. apply S.
Qed.
End ServiceFacts.

(** X24.  No method of the service that makes a request lets the HTTP
    error 404 through: [_get_data], [_post_data] and [is_password_set]
    raise [NotExistingMetadataException] in its place, and pass on what
    else [urlopen] raises. *)
Theorem X24_no_404_leaves_the_service :
  forall (HTTP : HttpService.Http) (path data : string)
         (n n' : HttpService.net) (e : HttpService.error),
    (HttpService._get_data path n = (HttpService.Raises e, n')
     \/ HttpService._post_data path data n = (HttpService.Raises e, n')
     \/ HttpService.is_password_set n = (HttpService.Raises e, n')) ->
    e <> HttpService.HTTPError 404
    /\ exists url body,
         HttpService.urlopen url body n = (HttpService.Raises e, n')
         \/ (e = HttpService.NotExistingMetadataException
             /\ HttpService.urlopen url body n
                = (HttpService.Raises (HttpService.HTTPError 404), n')).
Proof.
  intros HTTP path data n n' e.
  assert (G : forall url body,
             HttpService._get_response url body n
               = (HttpService.Raises e, n') ->
             e <> HttpService.HTTPError 404
             /\ exists url body,
                  HttpService.urlopen url body n = (HttpService.Raises e, n')
                  \/ (e = HttpService.NotExistingMetadataException
                      /\ HttpService.urlopen url body n
                         = (HttpService.Raises (HttpService.HTTPError 404),
                            n'))).
  { intros url body H. split; [eapply _get_response_no_404; eauto | ].
    exists url, body. revert H. unfold HttpService._get_response.
    destruct (HttpService.urlopen url body n) as [[text | e0] n0];
      [discriminate | ].
    destruct e0 as [code | | e0]; try (intros [= <- <-]; now left).
    destruct (code =? 404)%Z eqn:E; intros [= <- <-]; [ | now left].
    apply Z.eqb_eq in E. subst. right. auto. }
  intros [H | [H | H]].
  - eapply G. exact H.
  - unfold HttpService._post_data in H.
    destruct (HttpService._get_response _ _ n) as [[text | e0] n0] eqn:E;
      [discriminate | ].
    injection H as -> ->. eapply G. exact E.
  - unfold HttpService.is_password_set, HttpService._get_data in H.
    destruct (HttpService._get_response _ _ n) as [[text | e0] n0] eqn:E;
      [discriminate | ].
    injection H as -> ->. eapply G. exact E.
Qed.

Lemma X24_witness :
  HttpService.is_password_set (HTTP := reference_http) 0%nat
    = (HttpService.Raises HttpService.NotExistingMetadataException, 1%nat)
  /\ HttpService.NotExistingMetadataException <> HttpService.HTTPError 404.
Proof.
  split; [reflexivity | ].
  apply (X24_no_404_leaves_the_service reference_http
           "openstack/2013-04-04/password" "" 0%nat 1%nat
           HttpService.NotExistingMetadataException).
  right. right. reflexivity.
Defined.

(** X25.  Once [_get_network_details_builder] has returned a builder, it
    returns the same builder again and leaves the service as it is: no
    second request is made and the superclass is not asked again. *)
Theorem X25_builder_is_made_once :
  forall (HTTP : HttpService.Http) (B : Type) (make_builder : pyval -> B)
         (super_get_network_details_builder :
            HttpService.t (B := B)
            -> HttpService.outcome unit * HttpService.t (B := B))
         (self self' : HttpService.t (B := B)) (builder : B),
    HttpService._get_network_details_builder make_builder
      super_get_network_details_builder self
    = (HttpService.Returns (Some builder), self') ->
    HttpService._get_network_details_builder make_builder
      super_get_network_details_builder self'
    = (HttpService.Returns (Some builder), self').
Proof.
  intros HTTP B mk super self self' builder H.
  apply _get_network_details_builder_kept in H.
  unfold HttpService._get_network_details_builder. now rewrite H.
Qed.

Lemma X25_witness :
  exists builder self',
    HttpService._get_network_details_builder (fun network_data : pyval => network_data) no_super fresh_service
      = (HttpService.Returns (Some builder), self')
    /\ HttpService._get_network_details_builder (fun network_data : pyval => network_data) no_super self'
       = (HttpService.Returns (Some builder), self').
Proof.
  eexists. eexists. split; [reflexivity | ].
  apply (X25_builder_is_made_once reference_http pyval (fun network_data : pyval => network_data) no_super
           fresh_service).
  reflexivity.
Defined.

(** X26.  After a call of [get_network_details] that returned details, the
    service keeps the builder that gave them, and the next call asks that
    builder again: it makes no request. *)
Theorem X26_details_come_from_the_kept_builder :
  forall (HTTP : HttpService.Http) (B : Type) (make_builder : pyval -> B)
         (details_of : B -> res NetworkDetails.t * B)
         (super_get_network_details_builder :
            HttpService.t (B := B)
            -> HttpService.outcome unit * HttpService.t (B := B))
         (self self' : HttpService.t (B := B)) (details : NetworkDetails.t),
    HttpService.get_network_details make_builder details_of
      super_get_network_details_builder self
    = (HttpService.Returns (Some details), self') ->
    exists builder,
      HttpService._network_details_builder self' = Some builder
      /\ HttpService.get_network_details make_builder details_of
           super_get_network_details_builder self'
         = (match fst (details_of builder) with
            | Ok details' => HttpService.Returns (Some details')
            | Raise e => HttpService.Raises (HttpService.Builtin e)
            end,
            HttpService.set_builder (Some (snd (details_of builder))) self')
      /\ HttpService._net
           (snd (HttpService.get_network_details make_builder details_of
                   super_get_network_details_builder self'))
         = HttpService._net self'.
Proof.
  intros HTTP B mk details_of super self self' details.
  unfold HttpService.get_network_details at 1.
  destruct (HttpService._get_network_details_builder mk super self)
    as [[[b | ] | e] s1]; try discriminate.
  destruct (details_of b) as [[d | e] b']; [ | discriminate].
  intros [= <- <-]. exists b'. split; [reflexivity | ].
  unfold HttpService.get_network_details,
    HttpService._get_network_details_builder. simpl.
  destruct (details_of b') as [r b2]. split; reflexivity.
Qed.

Lemma X26_witness :
  exists builder,
    HttpService._network_details_builder service_with_builder = Some builder
    /\ HttpService._net
         (snd (HttpService.get_network_details
                 (fun network_data : pyval => network_data)
                 sample_details_of no_super service_with_builder))
       = HttpService._net service_with_builder.
Proof.
  destruct (X26_details_come_from_the_kept_builder reference_http pyval
              (fun network_data : pyval => network_data)
              sample_details_of no_super service_with_builder
              service_with_builder (three_links "aa:02") eq_refl)
    as (builder & Hb & _ & Hn).
  exists builder. split; [exact Hb | exact Hn].
Defined.

(** X27.  A body that [json.loads] refuses: [network_data] is then the
    text of the body, so when the body is not empty the superclass is not
    asked for a builder and the service, which had none, returns [None];
    when the body is empty, or the document is not found, the builder of
    the superclass is asked for. *)
Theorem X27_body_that_is_no_document :
  forall (HTTP : HttpService.Http) (B : Type) (make_builder : pyval -> B)
         (super_get_network_details_builder :
            HttpService.t (B := B)
            -> HttpService.outcome unit * HttpService.t (B := B))
         (self : HttpService.t (B := B)) (text : string)
         (n : HttpService.net),
    HttpService._network_details_builder self = None ->
    HttpService.urlopen
      (HttpService.posixpath_join HttpService.metadata_base_url
         HttpService._NETWORK_DATA_JSON) None (HttpService._net self)
    = (HttpService.Returns text, n) ->
    HttpService.json_loads text = None ->
    HttpService._get_network_details_builder make_builder
      super_get_network_details_builder self
    = if String.eqb text ""
      then HttpService.or_super super_get_network_details_builder
             (HttpService.set_net n self)
      else (HttpService.Returns None, HttpService.set_net n self).
Proof.
  intros HTTP B mk super self text n Hb Hu Hj.
  unfold HttpService._get_network_details_builder, HttpService._get_data,
    HttpService._get_response.
  rewrite Hb, Hu, Hj. simpl. rewrite Hb.
  now destruct (String.eqb text "").
Qed.

Lemma X27_witness :
  HttpService._get_network_details_builder (HTTP := html_http)
    (fun network_data : pyval => network_data) html_no_super html_service
  = (HttpService.Returns None,
     HttpService.set_net (HTTP := html_http) 1%nat html_service).
Proof.
  apply (X27_body_that_is_no_document html_http pyval
           (fun network_data : pyval => network_data) html_no_super
           html_service "<html>" 1%nat); reflexivity.
Defined.

(** X28.  A physical link with one network, of version 4: the primitive
    of the host is called once, with the MAC address of the link and the
    address, netmask, broadcast address, gateway and name servers of the
    network, and what it answers or raises is what [_configure_phy]
    answers or raises. *)
Theorem X28_IPv4_network_is_configured_with_its_fields :
  forall (OS : networkconfig.OSUtils) (details : NetworkDetails.t)
         (link network : option obj)
         (link_id network_id id version mac address netmask broadcast gateway
            dns : pyval)
         (s : networkconfig.plugin_state),
    getattr link ID = Ok link_id ->
    getattr link MAC_ADDRESS = Ok mac ->
    NetworkDetails.get_networks details link_id
      = Ok (Some (List_ [network_id])) ->
    NetworkDetails.get_network details network_id = Ok network ->
    getattr network ID = Ok id ->
    getattr network VERSION = Ok version ->
    py_eq version (PInt IPV4) = true ->
    getattr network IP_ADDRESS = Ok address ->
    getattr network NETMASK = Ok netmask ->
    getattr network BROADCAST = Ok broadcast ->
    getattr network GATEWAY = Ok gateway ->
    getattr network DNS = Ok dns ->
    networkconfig._configure_phy details link s
    = (fst (networkconfig.set_static_network_config mac address netmask
              broadcast gateway dns (networkconfig.host s)),
       {| networkconfig.host :=
            snd (networkconfig.set_static_network_config mac address netmask
                   broadcast gateway dns (networkconfig.host s));
          networkconfig.logged :=
            networkconfig.logged s
            ++ [(networkconfig.DEBUG, "Configuring network %(id)r.")] |}).
Proof.
  intros OS details link network link_id network_id id version mac address
    netmask broadcast gateway dns s Hi Hm Hb Hn Hid Hv H4 Ha Hnm Hbc Hg Hd.
  unfold networkconfig._configure_phy, networkconfig.attr. run.
  rewrite Hi, Hb. simpl.
  unfold networkconfig.attr, networkconfig.LOG,
    networkconfig._set_static_network_config_v4, networkconfig.attr,
    networkconfig.os.
  run. rewrite Hn, Hid, Hv, H4, Hm, Ha, Hnm, Hbc, Hg, Hd. simpl.
  destruct (networkconfig.set_static_network_config _ _ _ _ _ _ _)
    as [[r | e] h]; reflexivity.
Qed.

Lemma X28_witness :
  networkconfig._configure_phy phy_and_bond (Some (plugin_link "l1" "aa:01"))
    fresh_plugin
  = (Ok true,
     {| networkconfig.host := 1%nat;
        networkconfig.logged :=
          [(networkconfig.DEBUG, "Configuring network %(id)r.")] |}).
Proof.
  rewrite (X28_IPv4_network_is_configured_with_its_fields reference_os
             phy_and_bond (Some (plugin_link "l1" "aa:01"))
             (Some (plugin_network "n1" "10.0.0.5" "l1"))
             (PStr "l1") (PStr "n1") (PStr "n1") (PInt 4) (PStr "aa:01")
             (PStr "10.0.0.5") (PStr "255.255.255.0") (PStr "10.0.0.255")
             (PStr "10.0.0.1") (PList []) fresh_plugin); reflexivity.
Defined.
